(** * Utilidad de remisiones: verification of [procesar_remisiones.py]

    A shallow embedding of the pipeline of
    [src/calculo_utilidad_remisiones/procesar_remisiones.py]: text
    primitives, the item-line pattern and its backtracking matcher, the
    document extractor, the aggregation loop and the report tables,
    followed by the properties that the specification states about them.

    Python values are modelled as follows.
    - [str] is a sequence of Unicode code points: [list N].
    - [int] is unbounded: [Z].  The conversions between [int] and decimal
      text are CPython's: with the default setting they raise [ValueError]
      beyond 4300 digits (see [INT_MAX_STR_DIGITS]), both in [int(str)] and
      in the formatting of a number.
    - [None] is [None] of an [option].
    - [dict] is a [gmap], [set] is a [gset].
    - [print], [os.makedirs] and the writing of the workbook append an
      event to the trace of the run, and so does an exception that nothing
      catches, which ends it; listing the data folder and creating the
      output folder are taken to succeed.
    - a DataFrame is the list of the rows it is built from, every number
      with its value; the integer columns that are summed keep pandas'
      fixed-width arithmetic (see [suma_columna]).  Where pandas holds a
      column as float64 the workbook gets the nearest floats, which are the
      same numbers up to 2^53 in absolute value: the properties of the
      written tables are stated for numbers in the 64-bit range
      ([cabe_int64]) or exact in float64 ([exacto]). *)

From Stdlib Require Import ZArith NArith List Bool String Ascii Lia DecimalString.
From stdpp Require Import gmap sets list sorting.

Local Open Scope N_scope.

(** ** Text *)

(** A Python [str]: its code points. *)
Abbreviation texto := (list N).

(** ASCII literals. *)
Definition t (s : string) : texto :=
  List.map N_of_ascii (list_ascii_of_string s).

(** [str.isspace] of one code point; also the class [\s] of [re] on [str]
    patterns and the characters removed by [str.strip()]. *)
Definition es_espacio (c : N) : bool :=
  ((9 <=? c) && (c <=? 13)) || ((28 <=? c) && (c <=? 32))
  || (c =? 133) || (c =? 160) || (c =? 5760)
  || ((8192 <=? c) && (c <=? 8202))
  || (c =? 8232) || (c =? 8233) || (c =? 8239) || (c =? 8287)
  || (c =? 12288).

(** Unicode decimal digits (category Nd) come in blocks of ten consecutive
    code points with values 0 to 9; the table lists the first code point of
    every block (Unicode 14). *)
Definition BLOQUES_DECIMALES : list N :=
  [ 48; 1632; 1776; 1984; 2406; 2534; 2662; 2790; 2918; 3046;
    3174; 3302; 3430; 3558; 3664; 3792; 3872; 4160; 4240; 6112;
    6160; 6470; 6608; 6784; 6800; 6992; 7088; 7232; 7248; 42528;
    43216; 43264; 43472; 43504; 43600; 44016; 65296; 66720; 68912; 69734;
    69872; 69942; 70096; 70384; 70736; 70864; 71248; 71360; 71472; 71904;
    72016; 72784; 73040; 73120; 92768; 92864; 93008; 120782; 120792; 120802;
    120812; 120822; 123200; 123632; 125264; 130032 ]%N.

Fixpoint valor_en_bloques (bloques : list N) (c : N) : option N :=
  match bloques with
  | [] => None
  | b :: resto =>
      if (b <=? c) && (c <? b + 10) then Some (c - b)
      else valor_en_bloques resto c
  end.

(** The decimal value of a code point, when it is a decimal digit. *)
Definition valor_decimal (c : N) : option N :=
  valor_en_bloques BLOQUES_DECIMALES c.

(** [str.isdecimal] of one code point; also the class [\d] of [re]. *)
Definition es_digito (c : N) : bool :=
  match valor_decimal c with Some _ => true | None => false end.

(** The full upper-case mapping of [str.upper()]: every code point that
    [upper] changes, with the code points it becomes (Unicode 14). *)
Definition TABLA_MAYUSCULAS : list (N * list N) :=
  [ (97, [65]); (98, [66]); (99, [67]); (100, [68]); (101, [69]); (102, [70]);
    (103, [71]); (104, [72]); (105, [73]); (106, [74]); (107, [75]); (108, [76]);
    (109, [77]); (110, [78]); (111, [79]); (112, [80]); (113, [81]); (114, [82]);
    (115, [83]); (116, [84]); (117, [85]); (118, [86]); (119, [87]); (120, [88]);
    (121, [89]); (122, [90]); (181, [924]); (223, [83; 83]); (224, [192]); (225, [193]);
    (226, [194]); (227, [195]); (228, [196]); (229, [197]); (230, [198]); (231, [199]);
    (232, [200]); (233, [201]); (234, [202]); (235, [203]); (236, [204]); (237, [205]);
    (238, [206]); (239, [207]); (240, [208]); (241, [209]); (242, [210]); (243, [211]);
    (244, [212]); (245, [213]); (246, [214]); (248, [216]); (249, [217]); (250, [218]);
    (251, [219]); (252, [220]); (253, [221]); (254, [222]); (255, [376]); (257, [256]);
    (259, [258]); (261, [260]); (263, [262]); (265, [264]); (267, [266]); (269, [268]);
    (271, [270]); (273, [272]); (275, [274]); (277, [276]); (279, [278]); (281, [280]);
    (283, [282]); (285, [284]); (287, [286]); (289, [288]); (291, [290]); (293, [292]);
    (295, [294]); (297, [296]); (299, [298]); (301, [300]); (303, [302]); (305, [73]);
    (307, [306]); (309, [308]); (311, [310]); (314, [313]); (316, [315]); (318, [317]);
    (320, [319]); (322, [321]); (324, [323]); (326, [325]); (328, [327]); (329, [700; 78]);
    (331, [330]); (333, [332]); (335, [334]); (337, [336]); (339, [338]); (341, [340]);
    (343, [342]); (345, [344]); (347, [346]); (349, [348]); (351, [350]); (353, [352]);
    (355, [354]); (357, [356]); (359, [358]); (361, [360]); (363, [362]); (365, [364]);
    (367, [366]); (369, [368]); (371, [370]); (373, [372]); (375, [374]); (378, [377]);
    (380, [379]); (382, [381]); (383, [83]); (384, [579]); (387, [386]); (389, [388]);
    (392, [391]); (396, [395]); (402, [401]); (405, [502]); (409, [408]); (410, [573]);
    (414, [544]); (417, [416]); (419, [418]); (421, [420]); (424, [423]); (429, [428]);
    (432, [431]); (436, [435]); (438, [437]); (441, [440]); (445, [444]); (447, [503]);
    (453, [452]); (454, [452]); (456, [455]); (457, [455]); (459, [458]); (460, [458]);
    (462, [461]); (464, [463]); (466, [465]); (468, [467]); (470, [469]); (472, [471]);
    (474, [473]); (476, [475]); (477, [398]); (479, [478]); (481, [480]); (483, [482]);
    (485, [484]); (487, [486]); (489, [488]); (491, [490]); (493, [492]); (495, [494]);
    (496, [74; 780]); (498, [497]); (499, [497]); (501, [500]); (505, [504]); (507, [506]);
    (509, [508]); (511, [510]); (513, [512]); (515, [514]); (517, [516]); (519, [518]);
    (521, [520]); (523, [522]); (525, [524]); (527, [526]); (529, [528]); (531, [530]);
    (533, [532]); (535, [534]); (537, [536]); (539, [538]); (541, [540]); (543, [542]);
    (547, [546]); (549, [548]); (551, [550]); (553, [552]); (555, [554]); (557, [556]);
    (559, [558]); (561, [560]); (563, [562]); (572, [571]); (575, [11390]); (576, [11391]);
    (578, [577]); (583, [582]); (585, [584]); (587, [586]); (589, [588]); (591, [590]);
    (592, [11375]); (593, [11373]); (594, [11376]); (595, [385]); (596, [390]); (598, [393]);
    (599, [394]); (601, [399]); (603, [400]); (604, [42923]); (608, [403]); (609, [42924]);
    (611, [404]); (613, [42893]); (614, [42922]); (616, [407]); (617, [406]); (618, [42926]);
    (619, [11362]); (620, [42925]); (623, [412]); (625, [11374]); (626, [413]); (629, [415]);
    (637, [11364]); (640, [422]); (642, [42949]); (643, [425]); (647, [42929]); (648, [430]);
    (649, [580]); (650, [433]); (651, [434]); (652, [581]); (658, [439]); (669, [42930]);
    (670, [42928]); (837, [921]); (881, [880]); (883, [882]); (887, [886]); (891, [1021]);
    (892, [1022]); (893, [1023]); (912, [921; 776; 769]); (940, [902]); (941, [904]); (942, [905]);
    (943, [906]); (944, [933; 776; 769]); (945, [913]); (946, [914]); (947, [915]); (948, [916]);
    (949, [917]); (950, [918]); (951, [919]); (952, [920]); (953, [921]); (954, [922]);
    (955, [923]); (956, [924]); (957, [925]); (958, [926]); (959, [927]); (960, [928]);
    (961, [929]); (962, [931]); (963, [931]); (964, [932]); (965, [933]); (966, [934]);
    (967, [935]); (968, [936]); (969, [937]); (970, [938]); (971, [939]); (972, [908]);
    (973, [910]); (974, [911]); (976, [914]); (977, [920]); (981, [934]); (982, [928]);
    (983, [975]); (985, [984]); (987, [986]); (989, [988]); (991, [990]); (993, [992]);
    (995, [994]); (997, [996]); (999, [998]); (1001, [1000]); (1003, [1002]); (1005, [1004]);
    (1007, [1006]); (1008, [922]); (1009, [929]); (1010, [1017]); (1011, [895]); (1013, [917]);
    (1016, [1015]); (1019, [1018]); (1072, [1040]); (1073, [1041]); (1074, [1042]); (1075, [1043]);
    (1076, [1044]); (1077, [1045]); (1078, [1046]); (1079, [1047]); (1080, [1048]); (1081, [1049]);
    (1082, [1050]); (1083, [1051]); (1084, [1052]); (1085, [1053]); (1086, [1054]); (1087, [1055]);
    (1088, [1056]); (1089, [1057]); (1090, [1058]); (1091, [1059]); (1092, [1060]); (1093, [1061]);
    (1094, [1062]); (1095, [1063]); (1096, [1064]); (1097, [1065]); (1098, [1066]); (1099, [1067]);
    (1100, [1068]); (1101, [1069]); (1102, [1070]); (1103, [1071]); (1104, [1024]); (1105, [1025]);
    (1106, [1026]); (1107, [1027]); (1108, [1028]); (1109, [1029]); (1110, [1030]); (1111, [1031]);
    (1112, [1032]); (1113, [1033]); (1114, [1034]); (1115, [1035]); (1116, [1036]); (1117, [1037]);
    (1118, [1038]); (1119, [1039]); (1121, [1120]); (1123, [1122]); (1125, [1124]); (1127, [1126]);
    (1129, [1128]); (1131, [1130]); (1133, [1132]); (1135, [1134]); (1137, [1136]); (1139, [1138]);
    (1141, [1140]); (1143, [1142]); (1145, [1144]); (1147, [1146]); (1149, [1148]); (1151, [1150]);
    (1153, [1152]); (1163, [1162]); (1165, [1164]); (1167, [1166]); (1169, [1168]); (1171, [1170]);
    (1173, [1172]); (1175, [1174]); (1177, [1176]); (1179, [1178]); (1181, [1180]); (1183, [1182]);
    (1185, [1184]); (1187, [1186]); (1189, [1188]); (1191, [1190]); (1193, [1192]); (1195, [1194]);
    (1197, [1196]); (1199, [1198]); (1201, [1200]); (1203, [1202]); (1205, [1204]); (1207, [1206]);
    (1209, [1208]); (1211, [1210]); (1213, [1212]); (1215, [1214]); (1218, [1217]); (1220, [1219]);
    (1222, [1221]); (1224, [1223]); (1226, [1225]); (1228, [1227]); (1230, [1229]); (1231, [1216]);
    (1233, [1232]); (1235, [1234]); (1237, [1236]); (1239, [1238]); (1241, [1240]); (1243, [1242]);
    (1245, [1244]); (1247, [1246]); (1249, [1248]); (1251, [1250]); (1253, [1252]); (1255, [1254]);
    (1257, [1256]); (1259, [1258]); (1261, [1260]); (1263, [1262]); (1265, [1264]); (1267, [1266]);
    (1269, [1268]); (1271, [1270]); (1273, [1272]); (1275, [1274]); (1277, [1276]); (1279, [1278]);
    (1281, [1280]); (1283, [1282]); (1285, [1284]); (1287, [1286]); (1289, [1288]); (1291, [1290]);
    (1293, [1292]); (1295, [1294]); (1297, [1296]); (1299, [1298]); (1301, [1300]); (1303, [1302]);
    (1305, [1304]); (1307, [1306]); (1309, [1308]); (1311, [1310]); (1313, [1312]); (1315, [1314]);
    (1317, [1316]); (1319, [1318]); (1321, [1320]); (1323, [1322]); (1325, [1324]); (1327, [1326]);
    (1377, [1329]); (1378, [1330]); (1379, [1331]); (1380, [1332]); (1381, [1333]); (1382, [1334]);
    (1383, [1335]); (1384, [1336]); (1385, [1337]); (1386, [1338]); (1387, [1339]); (1388, [1340]);
    (1389, [1341]); (1390, [1342]); (1391, [1343]); (1392, [1344]); (1393, [1345]); (1394, [1346]);
    (1395, [1347]); (1396, [1348]); (1397, [1349]); (1398, [1350]); (1399, [1351]); (1400, [1352]);
    (1401, [1353]); (1402, [1354]); (1403, [1355]); (1404, [1356]); (1405, [1357]); (1406, [1358]);
    (1407, [1359]); (1408, [1360]); (1409, [1361]); (1410, [1362]); (1411, [1363]); (1412, [1364]);
    (1413, [1365]); (1414, [1366]); (1415, [1333; 1362]); (4304, [7312]); (4305, [7313]); (4306, [7314]);
    (4307, [7315]); (4308, [7316]); (4309, [7317]); (4310, [7318]); (4311, [7319]); (4312, [7320]);
    (4313, [7321]); (4314, [7322]); (4315, [7323]); (4316, [7324]); (4317, [7325]); (4318, [7326]);
    (4319, [7327]); (4320, [7328]); (4321, [7329]); (4322, [7330]); (4323, [7331]); (4324, [7332]);
    (4325, [7333]); (4326, [7334]); (4327, [7335]); (4328, [7336]); (4329, [7337]); (4330, [7338]);
    (4331, [7339]); (4332, [7340]); (4333, [7341]); (4334, [7342]); (4335, [7343]); (4336, [7344]);
    (4337, [7345]); (4338, [7346]); (4339, [7347]); (4340, [7348]); (4341, [7349]); (4342, [7350]);
    (4343, [7351]); (4344, [7352]); (4345, [7353]); (4346, [7354]); (4349, [7357]); (4350, [7358]);
    (4351, [7359]); (5112, [5104]); (5113, [5105]); (5114, [5106]); (5115, [5107]); (5116, [5108]);
    (5117, [5109]); (7296, [1042]); (7297, [1044]); (7298, [1054]); (7299, [1057]); (7300, [1058]);
    (7301, [1058]); (7302, [1066]); (7303, [1122]); (7304, [42570]); (7545, [42877]); (7549, [11363]);
    (7566, [42950]); (7681, [7680]); (7683, [7682]); (7685, [7684]); (7687, [7686]); (7689, [7688]);
    (7691, [7690]); (7693, [7692]); (7695, [7694]); (7697, [7696]); (7699, [7698]); (7701, [7700]);
    (7703, [7702]); (7705, [7704]); (7707, [7706]); (7709, [7708]); (7711, [7710]); (7713, [7712]);
    (7715, [7714]); (7717, [7716]); (7719, [7718]); (7721, [7720]); (7723, [7722]); (7725, [7724]);
    (7727, [7726]); (7729, [7728]); (7731, [7730]); (7733, [7732]); (7735, [7734]); (7737, [7736]);
    (7739, [7738]); (7741, [7740]); (7743, [7742]); (7745, [7744]); (7747, [7746]); (7749, [7748]);
    (7751, [7750]); (7753, [7752]); (7755, [7754]); (7757, [7756]); (7759, [7758]); (7761, [7760]);
    (7763, [7762]); (7765, [7764]); (7767, [7766]); (7769, [7768]); (7771, [7770]); (7773, [7772]);
    (7775, [7774]); (7777, [7776]); (7779, [7778]); (7781, [7780]); (7783, [7782]); (7785, [7784]);
    (7787, [7786]); (7789, [7788]); (7791, [7790]); (7793, [7792]); (7795, [7794]); (7797, [7796]);
    (7799, [7798]); (7801, [7800]); (7803, [7802]); (7805, [7804]); (7807, [7806]); (7809, [7808]);
    (7811, [7810]); (7813, [7812]); (7815, [7814]); (7817, [7816]); (7819, [7818]); (7821, [7820]);
    (7823, [7822]); (7825, [7824]); (7827, [7826]); (7829, [7828]); (7830, [72; 817]); (7831, [84; 776]);
    (7832, [87; 778]); (7833, [89; 778]); (7834, [65; 702]); (7835, [7776]); (7841, [7840]); (7843, [7842]);
    (7845, [7844]); (7847, [7846]); (7849, [7848]); (7851, [7850]); (7853, [7852]); (7855, [7854]);
    (7857, [7856]); (7859, [7858]); (7861, [7860]); (7863, [7862]); (7865, [7864]); (7867, [7866]);
    (7869, [7868]); (7871, [7870]); (7873, [7872]); (7875, [7874]); (7877, [7876]); (7879, [7878]);
    (7881, [7880]); (7883, [7882]); (7885, [7884]); (7887, [7886]); (7889, [7888]); (7891, [7890]);
    (7893, [7892]); (7895, [7894]); (7897, [7896]); (7899, [7898]); (7901, [7900]); (7903, [7902]);
    (7905, [7904]); (7907, [7906]); (7909, [7908]); (7911, [7910]); (7913, [7912]); (7915, [7914]);
    (7917, [7916]); (7919, [7918]); (7921, [7920]); (7923, [7922]); (7925, [7924]); (7927, [7926]);
    (7929, [7928]); (7931, [7930]); (7933, [7932]); (7935, [7934]); (7936, [7944]); (7937, [7945]);
    (7938, [7946]); (7939, [7947]); (7940, [7948]); (7941, [7949]); (7942, [7950]); (7943, [7951]);
    (7952, [7960]); (7953, [7961]); (7954, [7962]); (7955, [7963]); (7956, [7964]); (7957, [7965]);
    (7968, [7976]); (7969, [7977]); (7970, [7978]); (7971, [7979]); (7972, [7980]); (7973, [7981]);
    (7974, [7982]); (7975, [7983]); (7984, [7992]); (7985, [7993]); (7986, [7994]); (7987, [7995]);
    (7988, [7996]); (7989, [7997]); (7990, [7998]); (7991, [7999]); (8000, [8008]); (8001, [8009]);
    (8002, [8010]); (8003, [8011]); (8004, [8012]); (8005, [8013]); (8016, [933; 787]); (8017, [8025]);
    (8018, [933; 787; 768]); (8019, [8027]); (8020, [933; 787; 769]); (8021, [8029]); (8022, [933; 787; 834]); (8023, [8031]);
    (8032, [8040]); (8033, [8041]); (8034, [8042]); (8035, [8043]); (8036, [8044]); (8037, [8045]);
    (8038, [8046]); (8039, [8047]); (8048, [8122]); (8049, [8123]); (8050, [8136]); (8051, [8137]);
    (8052, [8138]); (8053, [8139]); (8054, [8154]); (8055, [8155]); (8056, [8184]); (8057, [8185]);
    (8058, [8170]); (8059, [8171]); (8060, [8186]); (8061, [8187]); (8064, [7944; 921]); (8065, [7945; 921]);
    (8066, [7946; 921]); (8067, [7947; 921]); (8068, [7948; 921]); (8069, [7949; 921]); (8070, [7950; 921]); (8071, [7951; 921]);
    (8072, [7944; 921]); (8073, [7945; 921]); (8074, [7946; 921]); (8075, [7947; 921]); (8076, [7948; 921]); (8077, [7949; 921]);
    (8078, [7950; 921]); (8079, [7951; 921]); (8080, [7976; 921]); (8081, [7977; 921]); (8082, [7978; 921]); (8083, [7979; 921]);
    (8084, [7980; 921]); (8085, [7981; 921]); (8086, [7982; 921]); (8087, [7983; 921]); (8088, [7976; 921]); (8089, [7977; 921]);
    (8090, [7978; 921]); (8091, [7979; 921]); (8092, [7980; 921]); (8093, [7981; 921]); (8094, [7982; 921]); (8095, [7983; 921]);
    (8096, [8040; 921]); (8097, [8041; 921]); (8098, [8042; 921]); (8099, [8043; 921]); (8100, [8044; 921]); (8101, [8045; 921]);
    (8102, [8046; 921]); (8103, [8047; 921]); (8104, [8040; 921]); (8105, [8041; 921]); (8106, [8042; 921]); (8107, [8043; 921]);
    (8108, [8044; 921]); (8109, [8045; 921]); (8110, [8046; 921]); (8111, [8047; 921]); (8112, [8120]); (8113, [8121]);
    (8114, [8122; 921]); (8115, [913; 921]); (8116, [902; 921]); (8118, [913; 834]); (8119, [913; 834; 921]); (8124, [913; 921]);
    (8126, [921]); (8130, [8138; 921]); (8131, [919; 921]); (8132, [905; 921]); (8134, [919; 834]); (8135, [919; 834; 921]);
    (8140, [919; 921]); (8144, [8152]); (8145, [8153]); (8146, [921; 776; 768]); (8147, [921; 776; 769]); (8150, [921; 834]);
    (8151, [921; 776; 834]); (8160, [8168]); (8161, [8169]); (8162, [933; 776; 768]); (8163, [933; 776; 769]); (8164, [929; 787]);
    (8165, [8172]); (8166, [933; 834]); (8167, [933; 776; 834]); (8178, [8186; 921]); (8179, [937; 921]); (8180, [911; 921]);
    (8182, [937; 834]); (8183, [937; 834; 921]); (8188, [937; 921]); (8526, [8498]); (8560, [8544]); (8561, [8545]);
    (8562, [8546]); (8563, [8547]); (8564, [8548]); (8565, [8549]); (8566, [8550]); (8567, [8551]);
    (8568, [8552]); (8569, [8553]); (8570, [8554]); (8571, [8555]); (8572, [8556]); (8573, [8557]);
    (8574, [8558]); (8575, [8559]); (8580, [8579]); (9424, [9398]); (9425, [9399]); (9426, [9400]);
    (9427, [9401]); (9428, [9402]); (9429, [9403]); (9430, [9404]); (9431, [9405]); (9432, [9406]);
    (9433, [9407]); (9434, [9408]); (9435, [9409]); (9436, [9410]); (9437, [9411]); (9438, [9412]);
    (9439, [9413]); (9440, [9414]); (9441, [9415]); (9442, [9416]); (9443, [9417]); (9444, [9418]);
    (9445, [9419]); (9446, [9420]); (9447, [9421]); (9448, [9422]); (9449, [9423]); (11312, [11264]);
    (11313, [11265]); (11314, [11266]); (11315, [11267]); (11316, [11268]); (11317, [11269]); (11318, [11270]);
    (11319, [11271]); (11320, [11272]); (11321, [11273]); (11322, [11274]); (11323, [11275]); (11324, [11276]);
    (11325, [11277]); (11326, [11278]); (11327, [11279]); (11328, [11280]); (11329, [11281]); (11330, [11282]);
    (11331, [11283]); (11332, [11284]); (11333, [11285]); (11334, [11286]); (11335, [11287]); (11336, [11288]);
    (11337, [11289]); (11338, [11290]); (11339, [11291]); (11340, [11292]); (11341, [11293]); (11342, [11294]);
    (11343, [11295]); (11344, [11296]); (11345, [11297]); (11346, [11298]); (11347, [11299]); (11348, [11300]);
    (11349, [11301]); (11350, [11302]); (11351, [11303]); (11352, [11304]); (11353, [11305]); (11354, [11306]);
    (11355, [11307]); (11356, [11308]); (11357, [11309]); (11358, [11310]); (11359, [11311]); (11361, [11360]);
    (11365, [570]); (11366, [574]); (11368, [11367]); (11370, [11369]); (11372, [11371]); (11379, [11378]);
    (11382, [11381]); (11393, [11392]); (11395, [11394]); (11397, [11396]); (11399, [11398]); (11401, [11400]);
    (11403, [11402]); (11405, [11404]); (11407, [11406]); (11409, [11408]); (11411, [11410]); (11413, [11412]);
    (11415, [11414]); (11417, [11416]); (11419, [11418]); (11421, [11420]); (11423, [11422]); (11425, [11424]);
    (11427, [11426]); (11429, [11428]); (11431, [11430]); (11433, [11432]); (11435, [11434]); (11437, [11436]);
    (11439, [11438]); (11441, [11440]); (11443, [11442]); (11445, [11444]); (11447, [11446]); (11449, [11448]);
    (11451, [11450]); (11453, [11452]); (11455, [11454]); (11457, [11456]); (11459, [11458]); (11461, [11460]);
    (11463, [11462]); (11465, [11464]); (11467, [11466]); (11469, [11468]); (11471, [11470]); (11473, [11472]);
    (11475, [11474]); (11477, [11476]); (11479, [11478]); (11481, [11480]); (11483, [11482]); (11485, [11484]);
    (11487, [11486]); (11489, [11488]); (11491, [11490]); (11500, [11499]); (11502, [11501]); (11507, [11506]);
    (11520, [4256]); (11521, [4257]); (11522, [4258]); (11523, [4259]); (11524, [4260]); (11525, [4261]);
    (11526, [4262]); (11527, [4263]); (11528, [4264]); (11529, [4265]); (11530, [4266]); (11531, [4267]);
    (11532, [4268]); (11533, [4269]); (11534, [4270]); (11535, [4271]); (11536, [4272]); (11537, [4273]);
    (11538, [4274]); (11539, [4275]); (11540, [4276]); (11541, [4277]); (11542, [4278]); (11543, [4279]);
    (11544, [4280]); (11545, [4281]); (11546, [4282]); (11547, [4283]); (11548, [4284]); (11549, [4285]);
    (11550, [4286]); (11551, [4287]); (11552, [4288]); (11553, [4289]); (11554, [4290]); (11555, [4291]);
    (11556, [4292]); (11557, [4293]); (11559, [4295]); (11565, [4301]); (42561, [42560]); (42563, [42562]);
    (42565, [42564]); (42567, [42566]); (42569, [42568]); (42571, [42570]); (42573, [42572]); (42575, [42574]);
    (42577, [42576]); (42579, [42578]); (42581, [42580]); (42583, [42582]); (42585, [42584]); (42587, [42586]);
    (42589, [42588]); (42591, [42590]); (42593, [42592]); (42595, [42594]); (42597, [42596]); (42599, [42598]);
    (42601, [42600]); (42603, [42602]); (42605, [42604]); (42625, [42624]); (42627, [42626]); (42629, [42628]);
    (42631, [42630]); (42633, [42632]); (42635, [42634]); (42637, [42636]); (42639, [42638]); (42641, [42640]);
    (42643, [42642]); (42645, [42644]); (42647, [42646]); (42649, [42648]); (42651, [42650]); (42787, [42786]);
    (42789, [42788]); (42791, [42790]); (42793, [42792]); (42795, [42794]); (42797, [42796]); (42799, [42798]);
    (42803, [42802]); (42805, [42804]); (42807, [42806]); (42809, [42808]); (42811, [42810]); (42813, [42812]);
    (42815, [42814]); (42817, [42816]); (42819, [42818]); (42821, [42820]); (42823, [42822]); (42825, [42824]);
    (42827, [42826]); (42829, [42828]); (42831, [42830]); (42833, [42832]); (42835, [42834]); (42837, [42836]);
    (42839, [42838]); (42841, [42840]); (42843, [42842]); (42845, [42844]); (42847, [42846]); (42849, [42848]);
    (42851, [42850]); (42853, [42852]); (42855, [42854]); (42857, [42856]); (42859, [42858]); (42861, [42860]);
    (42863, [42862]); (42874, [42873]); (42876, [42875]); (42879, [42878]); (42881, [42880]); (42883, [42882]);
    (42885, [42884]); (42887, [42886]); (42892, [42891]); (42897, [42896]); (42899, [42898]); (42900, [42948]);
    (42903, [42902]); (42905, [42904]); (42907, [42906]); (42909, [42908]); (42911, [42910]); (42913, [42912]);
    (42915, [42914]); (42917, [42916]); (42919, [42918]); (42921, [42920]); (42933, [42932]); (42935, [42934]);
    (42937, [42936]); (42939, [42938]); (42941, [42940]); (42943, [42942]); (42945, [42944]); (42947, [42946]);
    (42952, [42951]); (42954, [42953]); (42961, [42960]); (42967, [42966]); (42969, [42968]); (42998, [42997]);
    (43859, [42931]); (43888, [5024]); (43889, [5025]); (43890, [5026]); (43891, [5027]); (43892, [5028]);
    (43893, [5029]); (43894, [5030]); (43895, [5031]); (43896, [5032]); (43897, [5033]); (43898, [5034]);
    (43899, [5035]); (43900, [5036]); (43901, [5037]); (43902, [5038]); (43903, [5039]); (43904, [5040]);
    (43905, [5041]); (43906, [5042]); (43907, [5043]); (43908, [5044]); (43909, [5045]); (43910, [5046]);
    (43911, [5047]); (43912, [5048]); (43913, [5049]); (43914, [5050]); (43915, [5051]); (43916, [5052]);
    (43917, [5053]); (43918, [5054]); (43919, [5055]); (43920, [5056]); (43921, [5057]); (43922, [5058]);
    (43923, [5059]); (43924, [5060]); (43925, [5061]); (43926, [5062]); (43927, [5063]); (43928, [5064]);
    (43929, [5065]); (43930, [5066]); (43931, [5067]); (43932, [5068]); (43933, [5069]); (43934, [5070]);
    (43935, [5071]); (43936, [5072]); (43937, [5073]); (43938, [5074]); (43939, [5075]); (43940, [5076]);
    (43941, [5077]); (43942, [5078]); (43943, [5079]); (43944, [5080]); (43945, [5081]); (43946, [5082]);
    (43947, [5083]); (43948, [5084]); (43949, [5085]); (43950, [5086]); (43951, [5087]); (43952, [5088]);
    (43953, [5089]); (43954, [5090]); (43955, [5091]); (43956, [5092]); (43957, [5093]); (43958, [5094]);
    (43959, [5095]); (43960, [5096]); (43961, [5097]); (43962, [5098]); (43963, [5099]); (43964, [5100]);
    (43965, [5101]); (43966, [5102]); (43967, [5103]); (64256, [70; 70]); (64257, [70; 73]); (64258, [70; 76]);
    (64259, [70; 70; 73]); (64260, [70; 70; 76]); (64261, [83; 84]); (64262, [83; 84]); (64275, [1348; 1350]); (64276, [1348; 1333]);
    (64277, [1348; 1339]); (64278, [1358; 1350]); (64279, [1348; 1341]); (65345, [65313]); (65346, [65314]); (65347, [65315]);
    (65348, [65316]); (65349, [65317]); (65350, [65318]); (65351, [65319]); (65352, [65320]); (65353, [65321]);
    (65354, [65322]); (65355, [65323]); (65356, [65324]); (65357, [65325]); (65358, [65326]); (65359, [65327]);
    (65360, [65328]); (65361, [65329]); (65362, [65330]); (65363, [65331]); (65364, [65332]); (65365, [65333]);
    (65366, [65334]); (65367, [65335]); (65368, [65336]); (65369, [65337]); (65370, [65338]); (66600, [66560]);
    (66601, [66561]); (66602, [66562]); (66603, [66563]); (66604, [66564]); (66605, [66565]); (66606, [66566]);
    (66607, [66567]); (66608, [66568]); (66609, [66569]); (66610, [66570]); (66611, [66571]); (66612, [66572]);
    (66613, [66573]); (66614, [66574]); (66615, [66575]); (66616, [66576]); (66617, [66577]); (66618, [66578]);
    (66619, [66579]); (66620, [66580]); (66621, [66581]); (66622, [66582]); (66623, [66583]); (66624, [66584]);
    (66625, [66585]); (66626, [66586]); (66627, [66587]); (66628, [66588]); (66629, [66589]); (66630, [66590]);
    (66631, [66591]); (66632, [66592]); (66633, [66593]); (66634, [66594]); (66635, [66595]); (66636, [66596]);
    (66637, [66597]); (66638, [66598]); (66639, [66599]); (66776, [66736]); (66777, [66737]); (66778, [66738]);
    (66779, [66739]); (66780, [66740]); (66781, [66741]); (66782, [66742]); (66783, [66743]); (66784, [66744]);
    (66785, [66745]); (66786, [66746]); (66787, [66747]); (66788, [66748]); (66789, [66749]); (66790, [66750]);
    (66791, [66751]); (66792, [66752]); (66793, [66753]); (66794, [66754]); (66795, [66755]); (66796, [66756]);
    (66797, [66757]); (66798, [66758]); (66799, [66759]); (66800, [66760]); (66801, [66761]); (66802, [66762]);
    (66803, [66763]); (66804, [66764]); (66805, [66765]); (66806, [66766]); (66807, [66767]); (66808, [66768]);
    (66809, [66769]); (66810, [66770]); (66811, [66771]); (66967, [66928]); (66968, [66929]); (66969, [66930]);
    (66970, [66931]); (66971, [66932]); (66972, [66933]); (66973, [66934]); (66974, [66935]); (66975, [66936]);
    (66976, [66937]); (66977, [66938]); (66979, [66940]); (66980, [66941]); (66981, [66942]); (66982, [66943]);
    (66983, [66944]); (66984, [66945]); (66985, [66946]); (66986, [66947]); (66987, [66948]); (66988, [66949]);
    (66989, [66950]); (66990, [66951]); (66991, [66952]); (66992, [66953]); (66993, [66954]); (66995, [66956]);
    (66996, [66957]); (66997, [66958]); (66998, [66959]); (66999, [66960]); (67000, [66961]); (67001, [66962]);
    (67003, [66964]); (67004, [66965]); (68800, [68736]); (68801, [68737]); (68802, [68738]); (68803, [68739]);
    (68804, [68740]); (68805, [68741]); (68806, [68742]); (68807, [68743]); (68808, [68744]); (68809, [68745]);
    (68810, [68746]); (68811, [68747]); (68812, [68748]); (68813, [68749]); (68814, [68750]); (68815, [68751]);
    (68816, [68752]); (68817, [68753]); (68818, [68754]); (68819, [68755]); (68820, [68756]); (68821, [68757]);
    (68822, [68758]); (68823, [68759]); (68824, [68760]); (68825, [68761]); (68826, [68762]); (68827, [68763]);
    (68828, [68764]); (68829, [68765]); (68830, [68766]); (68831, [68767]); (68832, [68768]); (68833, [68769]);
    (68834, [68770]); (68835, [68771]); (68836, [68772]); (68837, [68773]); (68838, [68774]); (68839, [68775]);
    (68840, [68776]); (68841, [68777]); (68842, [68778]); (68843, [68779]); (68844, [68780]); (68845, [68781]);
    (68846, [68782]); (68847, [68783]); (68848, [68784]); (68849, [68785]); (68850, [68786]); (71872, [71840]);
    (71873, [71841]); (71874, [71842]); (71875, [71843]); (71876, [71844]); (71877, [71845]); (71878, [71846]);
    (71879, [71847]); (71880, [71848]); (71881, [71849]); (71882, [71850]); (71883, [71851]); (71884, [71852]);
    (71885, [71853]); (71886, [71854]); (71887, [71855]); (71888, [71856]); (71889, [71857]); (71890, [71858]);
    (71891, [71859]); (71892, [71860]); (71893, [71861]); (71894, [71862]); (71895, [71863]); (71896, [71864]);
    (71897, [71865]); (71898, [71866]); (71899, [71867]); (71900, [71868]); (71901, [71869]); (71902, [71870]);
    (71903, [71871]); (93792, [93760]); (93793, [93761]); (93794, [93762]); (93795, [93763]); (93796, [93764]);
    (93797, [93765]); (93798, [93766]); (93799, [93767]); (93800, [93768]); (93801, [93769]); (93802, [93770]);
    (93803, [93771]); (93804, [93772]); (93805, [93773]); (93806, [93774]); (93807, [93775]); (93808, [93776]);
    (93809, [93777]); (93810, [93778]); (93811, [93779]); (93812, [93780]); (93813, [93781]); (93814, [93782]);
    (93815, [93783]); (93816, [93784]); (93817, [93785]); (93818, [93786]); (93819, [93787]); (93820, [93788]);
    (93821, [93789]); (93822, [93790]); (93823, [93791]); (125218, [125184]); (125219, [125185]); (125220, [125186]);
    (125221, [125187]); (125222, [125188]); (125223, [125189]); (125224, [125190]); (125225, [125191]); (125226, [125192]);
    (125227, [125193]); (125228, [125194]); (125229, [125195]); (125230, [125196]); (125231, [125197]); (125232, [125198]);
    (125233, [125199]); (125234, [125200]); (125235, [125201]); (125236, [125202]); (125237, [125203]); (125238, [125204]);
    (125239, [125205]); (125240, [125206]); (125241, [125207]); (125242, [125208]); (125243, [125209]); (125244, [125210]);
    (125245, [125211]); (125246, [125212]); (125247, [125213]); (125248, [125214]); (125249, [125215]); (125250, [125216]);
    (125251, [125217]) ]%N.

Fixpoint busca_mayus (tabla : list (N * list N)) (c : N) : option (list N) :=
  match tabla with
  | [] => None
  | (k, v) :: resto => if k =? c then Some v else busca_mayus resto c
  end.

Definition mayus_de (c : N) : texto :=
  match busca_mayus TABLA_MAYUSCULAS c with
  | Some v => v
  | None => [c]
  end.

(** [s.upper()] *)
Definition upper (s : texto) : texto := flat_map mayus_de s.

(** [s.lstrip()] *)
Fixpoint lstrip (s : texto) : texto :=
  match s with
  | [] => []
  | c :: r => if es_espacio c then lstrip r else s
  end.

(** [s.rstrip()] *)
Fixpoint rstrip (s : texto) : texto :=
  match s with
  | [] => []
  | c :: r =>
      match rstrip r with
      | [] => if es_espacio c then [] else [c]
      | r' => c :: r'
      end
  end.

(** [s.strip()] *)
Definition strip (s : texto) : texto := rstrip (lstrip s).

(** [s.startswith(p)] *)
Fixpoint startswith (s p : texto) : bool :=
  match p, s with
  | [], _ => true
  | _ :: _, [] => false
  | x :: p', y :: s' => (x =? y) && startswith s' p'
  end.

(** [c in s] for a single character [c]. *)
Definition contiene (c : N) (s : texto) : bool := existsb (N.eqb c) s.

(** [re.sub(r"\s+", " ", s)]: every maximal run of blanks becomes one
    space.  [en_racha] tells that the previous character was a blank, whose
    run has already been replaced. *)
Fixpoint colapsa_desde (en_racha : bool) (s : texto) : texto :=
  match s with
  | [] => []
  | c :: r =>
      if es_espacio c then
        if en_racha then colapsa_desde true r else 32 :: colapsa_desde true r
      else c :: colapsa_desde false r
  end.

Definition colapsa_espacios (s : texto) : texto := colapsa_desde false s.

(** [re.sub] of the class [^\d] by the empty text: the digits of [s]. *)
Definition solo_digitos (s : texto) : texto := List.filter es_digito s.

(** ** [int(str)]

    The text is stripped of surrounding blanks ([int] takes the ASCII
    blanks and the blanks above U+007F), may carry a sign, and is a run of
    decimal digits in which single underscores may separate digits.
    CPython counts the digits while it reads them and refuses a text with
    more than [INT_MAX_STR_DIGITS] of them, leading zeros included.
    [None] stands for [ValueError]. *)

(** [sys.int_info.default_max_str_digits], the limit of
    [sys.get_int_max_str_digits()] that the program leaves as it is. *)
Definition INT_MAX_STR_DIGITS : nat := 4300.

Definition es_blanco_int (c : N) : bool :=
  ((9 <=? c) && (c <=? 13)) || (c =? 32) || ((127 <=? c) && es_espacio c).

Fixpoint quita_blancos_izq (s : texto) : texto :=
  match s with
  | [] => []
  | c :: r => if es_blanco_int c then quita_blancos_izq r else s
  end.

Fixpoint quita_blancos_der (s : texto) : texto :=
  match s with
  | [] => []
  | c :: r =>
      match quita_blancos_der r with
      | [] => if es_blanco_int c then [] else [c]
      | r' => c :: r'
      end
  end.

(** [previo] tells that the previous character was a digit. *)
Fixpoint lee_digitos (acc : Z) (previo : bool) (s : texto) : option Z :=
  match s with
  | [] => if previo then Some acc else None
  | c :: r =>
      match valor_decimal c with
      | Some d => lee_digitos (10 * acc + Z.of_N d)%Z true r
      | None =>
          if (c =? 95) && previo then lee_digitos acc false r else None
      end
  end.

(** The number after the sign: too many digits are refused before any
    is converted. *)
Definition lee_natural (s : texto) : option Z :=
  if (length (List.filter es_digito s) <=? INT_MAX_STR_DIGITS)%nat
  then lee_digitos 0%Z false s
  else None.

Definition int_de_texto (s : texto) : option Z :=
  match quita_blancos_der (quita_blancos_izq s) with
  | [] => None
  | c :: r =>
      if c =? 45 then option_map Z.opp (lee_natural r)
      else if c =? 43 then lee_natural r
      else lee_natural (c :: r)
  end.

(** [format(n, ",")], like [str(n)], raises [ValueError] when [n] has more
    than [INT_MAX_STR_DIGITS] decimal digits, whatever its sign. *)
Definition excede_digitos (n : Z) : bool :=
  (10 ^ Z.of_nat INT_MAX_STR_DIGITS <=? Z.abs n)%Z.

(** ** [parse_entero] and [normalizar_texto_producto] *)

Definition parse_entero (valor_texto : texto) : option Z :=
  let texto_limpio := solo_digitos valor_texto in
  match texto_limpio with
  | [] => None
  | _ =>
      match int_de_texto texto_limpio with
      | Some n => Some n
      | None => None   (* except ValueError *)
      end
  end.

Definition normalizar_texto_producto (nombre : texto) : texto :=
  let mayusculas := strip (upper nombre) in
  colapsa_espacios mayusculas.

(** ** Configuration tables *)

Definition COSTOS : gmap texto Z :=
  list_to_map
    [ (t "PRIV BAR", 13500%Z);
      (t "SPACEMAN", 10500%Z);
      (t "VELOCITY", 11000%Z);
      (t "CHRIS BROWN 15000", 11000%Z);
      (t "SOLARIS", 14500%Z);
      (t "DEATH ROW", 5000%Z);
      (t "DEATH ROW 5K", 4800%Z);
      (t "SNOOPYSMOKE", 9000%Z);
      (t "BUGATTI", 5000%Z);
      (t "MTRX25K", 11600%Z);
      (t "MTRX12K", 9300%Z);
      (t "MOVEMENT", 8300%Z);
      (t "LOST MARY", 5000%Z);
      (t "ORION BAR", 8300%Z);
      (t "IJOY", 14000%Z);
      (t "AIRFUZE", 13700%Z);
      (t "JUDO", 13500%Z);
      (t "VERA", 10300%Z);
      (t "CZAR", 8500%Z);
      (t "MINTOPIA", 8500%Z);
      (t "SNOOPY30K", 15000%Z);
      (t "SPACEMAN 20K", 12500%Z);
      (t "CONNECT", 16000%Z);
      (t "HELLO SYNIX", 18100%Z);
      (t "CAPSULA THC", 8800%Z);
      (t "EQUATOR", 15000%Z);
      (t "URANUS", 10500%Z);
      (t "BATERIA THC", 7500%Z);
      (t "LENTES", 7500%Z);
      (t "ELF THC", 24000%Z);
      (t "MOTI", 8500%Z);
      (t "HUKMANIA", 8000%Z);
      (t "YOVO", 8000%Z);
      (t "PULSE", 45000%Z);
      (t "AIRPODS", 28000%Z);
      (t "CRAZYACE", 0%Z);
      (t "ELFBARTE", 5500%Z);
      (t "AIRBAR", 7500%Z);
      (t "EASE", 5000%Z);
      (t "LIGHT RISE", 0%Z);
      (t "SMARTH TC", 13000%Z);
      (t "NOS KYLINBAR", 12500%Z);
      (t "NICKYJAM", 9000%Z);
      (t "FUMEDESTILADO", 21500%Z) ].

Definition LINEA_NO_ITEM_PREFIXES : list texto :=
  [ t "SE" ++ [209] ++ t "OR";
    t "SENOR";
    t "DIRECCI" ++ [211] ++ t "N";
    t "DIRECCION";
    t "CIUDAD";
    t "TEL" ++ [201] ++ t "FONO";
    t "TELEFONO";
    t "FECHA";
    t "REMISI" ++ [211] ++ t "N";
    t "REMISION";
    [205] ++ t "TEM";
    t "ITEM";
    t "ELABORADO";
    t "SUBTOTAL";
    t "TOTAL";
    t "NIT";
    t "NO." ].

(** ** The item pattern and the backtracking matcher

    [LINEA_ITEM_REGEX] only uses anchors, named groups, an optional
    character and repetitions of one character class, greedy or lazy.  The
    flag [re.IGNORECASE] changes none of its classes. *)

Inductive grupo := g_prod | g_p_unit | g_cant | g_total.

#[global] Instance grupo_eq_dec : EqDecision grupo.
Proof. solve_decision. Defined.

Inductive nodo :=
| Inicio                                                   (* ^ *)
| Fin                                                      (* $ *)
| Opcional (clase : N -> bool)                             (* c? *)
| Repite (clase : N -> bool) (minimo : nat) (codicioso : bool)
                                                           (* c* c+ c+? *)
| Abre (g : grupo)                                         (* (?P<g> *)
| Cierra (g : grupo).                                      (* ) *)

Definition punto (c : N) : bool := negb (c =? 10).                    (* . *)
Definition no_espacio (c : N) : bool := negb (es_espacio c).          (* \S *)
Definition cifra_o_separador (c : N) : bool :=                   (* [\d\.,] *)
  es_digito c || (c =? 46) || (c =? 44).
Definition dolar (c : N) : bool := c =? 36.                           (* \$ *)

Definition LINEA_ITEM_REGEX : list nodo :=
  [ Inicio; Repite es_espacio 0 true;
    Abre g_prod; Repite punto 1 false; Cierra g_prod;
    Repite es_espacio 1 true; Opcional dolar;
    Abre g_p_unit; Repite cifra_o_separador 1 true; Cierra g_p_unit;
    Repite es_espacio 1 true;
    Abre g_cant; Repite es_digito 1 true; Cierra g_cant;
    Repite es_espacio 1 true; Repite no_espacio 1 true;
    Repite es_espacio 1 true; Opcional dolar;
    Abre g_total; Repite cifra_o_separador 1 true; Cierra g_total;
    Repite es_espacio 0 true; Fin ].

(** The positions where each group starts and ends. *)
Record marcas := { ini : grupo -> nat; fin : grupo -> nat }.

Definition sin_marcas : marcas :=
  {| ini := fun _ => 0%nat; fin := fun _ => 0%nat |}.

Definition marca_ini (g : grupo) (pos : nat) (m : marcas) : marcas :=
  {| ini := fun h => if decide (h = g) then pos else ini m h; fin := fin m |}.

Definition marca_fin (g : grupo) (pos : nat) (m : marcas) : marcas :=
  {| ini := ini m; fin := fun h => if decide (h = g) then pos else fin m h |}.

(** One repetition [clase{minimo,}] followed by the rest of the pattern
    [k].  [n] characters have been taken so far.  A greedy repetition
    first takes one more character and falls back on the rest of the
    pattern; a lazy one tries the rest of the pattern first. *)
Fixpoint repite (clase : N -> bool) (minimo : nat) (codicioso : bool)
    (k : nat -> texto -> option marcas) (n pos : nat) (s : texto)
    : option marcas :=
  if codicioso then
    match
      match s with
      | x :: s' =>
          if clase x then repite clase minimo codicioso k (S n) (S pos) s'
          else None
      | [] => None
      end
    with
    | Some r => Some r
    | None => if (minimo <=? n)%nat then k pos s else None
    end
  else
    match (if (minimo <=? n)%nat then k pos s else None) with
    | Some r => Some r
    | None =>
        match s with
        | x :: s' =>
            if clase x then repite clase minimo codicioso k (S n) (S pos) s'
            else None
        | [] => None
        end
    end.

(** Where [$] matches: at the end of the text, or just before a newline
    that ends it. *)
Definition en_fin (s : texto) : bool :=
  match s with
  | [] => true
  | [c] => c =? 10
  | _ => false
  end.

(** The matcher: the first success in backtracking order.  [pos] is the
    position reached and [s] the text from there on. *)
Fixpoint casa (p : list nodo) (pos : nat) (s : texto) (m : marcas)
    : option marcas :=
  match p with
  | [] => Some m
  | Inicio :: p' => if (pos =? 0)%nat then casa p' pos s m else None
  | Fin :: p' => if en_fin s then casa p' pos s m else None
  | Opcional clase :: p' =>
      match s with
      | x :: s' =>
          if clase x then
            match casa p' (S pos) s' m with
            | Some r => Some r
            | None => casa p' pos s m
            end
          else casa p' pos s m
      | [] => casa p' pos s m
      end
  | Repite clase minimo codicioso :: p' =>
      repite clase minimo codicioso (fun pos' s' => casa p' pos' s' m)
        0%nat pos s
  | Abre g :: p' => casa p' pos s (marca_ini g pos m)
  | Cierra g :: p' => casa p' pos s (marca_fin g pos m)
  end.

(** A match object: the text matched against and the group marks. *)
Record coincidencia := { cadena : texto; marcas_de : marcas }.

(** [LINEA_ITEM_REGEX.match(linea)] *)
Definition coincide (linea : texto) : option coincidencia :=
  match casa LINEA_ITEM_REGEX 0%nat linea sin_marcas with
  | Some m => Some {| cadena := linea; marcas_de := m |}
  | None => None
  end.

(** [coincidencia.group(g)] *)
Definition group (co : coincidencia) (g : grupo) : texto :=
  let m := marcas_de co in
  take (fin m g - ini m g)%nat (drop (ini m g) (cadena co)).

Definition grupos (linea : texto) : option (texto * texto * texto * texto) :=
  match coincide linea with
  | Some co => Some (group co g_prod, group co g_p_unit,
                     group co g_cant, group co g_total)
  | None => None
  end.

(** ** [es_linea_item] *)

Definition es_linea_item (linea : texto) : bool :=
  if negb (contiene 36 linea) then false
  else
    let contenido := upper (strip linea) in
    if existsb (startswith contenido) LINEA_NO_ITEM_PREFIXES then false
    else
      match coincide linea with
      | Some _ => true
      | None => false
      end.

(** ** [extraer_items_desde_pdf] *)

(** One extracted item (the dictionary appended to [items]). *)
Record item := {
  Producto : texto;
  Precio_Venta_Unitario : Z;
  Cantidad : Z;
  Total_Venta_Item : Z
}.

(** What the body of the line loop does with one line: which [continue]
    it takes, or the item it appends. *)
Inductive paso :=
| SaltaClasificador        (* not es_linea_item(linea) *)
| SaltaSinCoincidencia     (* not coincidencia *)
| SaltaNumerico            (* None in (precio_unitario, cantidad, total) *)
| Agrega (it : item).

Definition paso_linea (linea : texto) : paso :=
  if negb (es_linea_item linea) then SaltaClasificador
  else
    match coincide linea with
    | None => SaltaSinCoincidencia
    | Some co =>
        let producto := strip (group co g_prod) in
        let precio_unitario := parse_entero (group co g_p_unit) in
        let cantidad := parse_entero (group co g_cant) in
        let total_venta := parse_entero (group co g_total) in
        match precio_unitario, cantidad, total_venta with
        | Some p, Some c, Some v =>
            Agrega {| Producto := producto;
                      Precio_Venta_Unitario := p;
                      Cantidad := c;
                      Total_Venta_Item := v |}
        | _, _, _ => SaltaNumerico
        end
    end.

Definition agrega_linea (items : list item) (linea : texto) : list item :=
  match paso_linea linea with
  | Agrega it => items ++ [it]
  | _ => items
  end.

(** [texto.split("\n")] *)
Fixpoint split_nl (s : texto) : list texto :=
  match s with
  | [] => [[]]
  | c :: r =>
      if c =? 10 then [] :: split_nl r
      else
        match split_nl r with
        | l :: ls => (c :: l) :: ls
        | [] => [[c]]
        end
  end.

(** What reading a document does.  [pdfplumber.open] raises, or gives the
    pages; each page, when its turn comes, gives its text ([None] when it
    has none) or raises.  An exception carries its message. *)
Inductive lectura_pagina :=
| Texto (s : option texto)
| FallaPagina (exc : texto).

Inductive documento :=
| NoAbre (exc : texto)
| Abierto (paginas : list lectura_pagina).

(** The rows of the three tables. *)
Record fila_resumen := {
  r_Remision : texto;
  r_Total_Ventas_COP : Z;
  r_Total_Ganancias_COP : Z;
  r_Detalle_de_Items : texto
}.

Record fila_detalle := {
  d_Remision : texto;
  d_Producto : texto;
  d_Cantidad : Z;
  d_Precio_Venta_Unitario : Z;
  d_Total_Venta_Item : Z;
  d_Costo_Unitario : option Z;
  d_Ganancia_Unidad : option Z;
  d_Ganancia_Item : option Z
}.

Inductive hoja :=
| HojaResumen (filas : list fila_resumen)
| HojaDetalle (filas : list fila_detalle)
| HojaPendientes (filas : list texto).

(** What the program does to the outside world, in order.  The last
    constructor is the [ValueError] that leaves [procesar_remisiones]
    because nothing catches it: the run ends there. *)
Inductive efecto :=
| Makedirs (carpeta : texto)
| ImprimeProcesando (nombre_remision : texto)
| ImprimeNoSePudo (ruta_pdf exc : texto)
| ImprimeSinItems (nombre_archivo : texto)
| ImprimeTotales (ventas ganancias : Z)
| ImprimeNoSeProcesaron
| EscribeExcel (ruta_excel : texto) (hojas : list (texto * hoja))
| ImprimeGenerado (ruta_excel : texto)
| ImprimePendientes (productos : list texto)
| LanzaValueError.

Definition es_excepcion (e : efecto) : bool :=
  match e with
  | LanzaValueError => true
  | _ => false
  end.

(** An exception has left the function: the run is over. *)
Definition interrumpida (ef : list efecto) : bool := existsb es_excepcion ef.

(** The page loop inside the [try]: the items so far, and the message of
    the [except] clause if a page raised. *)
Fixpoint recorre_paginas (paginas : list lectura_pagina) (items : list item)
    : list item * option texto :=
  match paginas with
  | [] => (items, None)
  | Texto s :: resto =>
      let texto := match s with Some x => x | None => [] end in   (* x, or the empty text *)
      recorre_paginas resto (fold_left agrega_linea (split_nl texto) items)
  | FallaPagina exc :: _ => (items, Some exc)
  end.

(** [extraer_items_desde_pdf(ruta_pdf)], where [abrir] tells what reading
    the file at each path does: the items returned and what is printed. *)
Definition extraer_items_desde_pdf (abrir : texto -> documento)
    (ruta_pdf : texto) : list item * list efecto :=
  let items := [] in
  match abrir ruta_pdf with
  | NoAbre exc => (items, [ImprimeNoSePudo ruta_pdf exc])
  | Abierto paginas =>
      match recorre_paginas paginas items with
      | (items', Some exc) => (items', [ImprimeNoSePudo ruta_pdf exc])
      | (items', None) => (items', [])
      end
  end.

(** ** Paths and listings *)

(** [nombre.lower().endswith(".pdf")].  The only code points that [lower]
    turns into '.', 'p', 'd' or 'f' are these four and 'P', 'D', 'F', and
    [lower] turns no other code point into a text that contains one of
    them: the test reads the last four code points. *)
Definition es_pdf (nombre_archivo : texto) : bool :=
  match rev nombre_archivo with
  | f :: d :: p :: pt :: _ =>
      (pt =? 46) && ((p =? 112) || (p =? 80))
      && ((d =? 100) || (d =? 68)) && ((f =? 102) || (f =? 70))
  | _ => false
  end.

(** [s.rfind(c)], -1 when [c] does not occur. *)
Fixpoint rfind_opt (c : N) (s : texto) : option nat :=
  match s with
  | [] => None
  | x :: r =>
      match rfind_opt c r with
      | Some i => Some (S i)
      | None => if x =? c then Some 0%nat else None
      end
  end.

Definition rfind (c : N) (s : texto) : Z :=
  match rfind_opt c s with
  | Some i => Z.of_nat i
  | None => (-1)%Z
  end.

(** [os.path.splitext(p)[0]] (POSIX): the extension starts at the last
    dot of the last component, unless only dots come before it. *)
Definition splitext_raiz (p : texto) : texto :=
  let sepIndex := rfind 47 p in
  let dotIndex := rfind 46 p in
  if (sepIndex <? dotIndex)%Z then
    let filenameIndex := (sepIndex + 1)%Z in
    if existsb (fun c => negb (c =? 46))
         (take (Z.to_nat (dotIndex - filenameIndex))
               (drop (Z.to_nat filenameIndex) p))
    then take (Z.to_nat dotIndex) p
    else p
  else p.

(** [os.path.join(a, b)] (POSIX) *)
Definition path_join (a b : texto) : texto :=
  if startswith b [47] then b
  else
    match rev a with
    | [] => a ++ b
    | c :: _ => if c =? 47 then a ++ b else a ++ [47] ++ b
    end.

(** The order of [str]: lexicographic on code points. *)
Fixpoint texto_leb (a b : texto) : bool :=
  match a, b with
  | [], _ => true
  | _ :: _, [] => false
  | x :: a', y :: b' =>
      if x <? y then true else if y <? x then false else texto_leb a' b'
  end.

Definition texto_le (a b : texto) : Prop := texto_leb a b = true.

#[global] Instance texto_le_dec : RelDecision texto_le.
Proof. intros a b. unfold texto_le. apply _. Defined.

(** [sorted(xs)] on texts *)
Definition sorted (xs : list texto) : list texto := merge_sort texto_le xs.

(** [sep.join(xs)] *)
Fixpoint str_join (sep : texto) (xs : list texto) : texto :=
  match xs with
  | [] => []
  | [x] => x
  | x :: resto => x ++ sep ++ str_join sep resto
  end.

(** [str(n)] of a natural number. *)
Definition decimal (n : nat) : texto :=
  t (NilEmpty.string_of_uint (Nat.to_uint n)).

(** ** Column sums of a DataFrame

    [pd.DataFrame(rows)] infers the type of a column of Python integers:
    [int64] when every value fits, [uint64] when none is negative and
    every value fits, [object] (Python integers) otherwise.  [Series.sum]
    adds in the type of the column, so the fixed-width sums wrap around;
    [int(...)] then gives the Python integer back. *)
Definition INT64_MIN : Z := (- 2 ^ 63)%Z.
Definition INT64_MAX : Z := (2 ^ 63 - 1)%Z.
Definition UINT64_MAX : Z := (2 ^ 64 - 1)%Z.

Inductive dtype := dt_int64 | dt_uint64 | dt_object.

Definition infiere_dtype (vals : list Z) : dtype :=
  if existsb (fun v => (v <? INT64_MIN)%Z || (UINT64_MAX <? v)%Z) vals
  then dt_object
  else if existsb (fun v => (INT64_MAX <? v)%Z) vals then
    if existsb (fun v => (v <? 0)%Z) vals then dt_object else dt_uint64
  else dt_int64.

Definition suma (vals : list Z) : Z := fold_right Z.add 0%Z vals.

Definition envuelve_int64 (x : Z) : Z :=
  ((x + 2 ^ 63) mod 2 ^ 64 - 2 ^ 63)%Z.

Definition envuelve_uint64 (x : Z) : Z := (x mod 2 ^ 64)%Z.

Definition suma_columna (vals : list Z) : Z :=
  match infiere_dtype vals with
  | dt_int64 => envuelve_int64 (suma vals)
  | dt_uint64 => envuelve_uint64 (suma vals)
  | dt_object => suma vals
  end.

(** ** [procesar_remisiones] *)

(** The three accumulators that live across documents. *)
Record estado := {
  resumen_remisiones : list fila_resumen;
  detalle_items : list fila_detalle;
  productos_desconocidos : gset texto
}.

(** The accumulators of the document being processed. *)
Record locales := {
  total_ventas_remision : Z;
  total_ganancias_remision : Z;
  productos_en_remision : gset texto
}.

Definition estado_inicial : estado :=
  {| resumen_remisiones := []; detalle_items := [];
     productos_desconocidos := ∅ |}.

Definition locales_iniciales : locales :=
  {| total_ventas_remision := 0; total_ganancias_remision := 0;
     productos_en_remision := ∅ |}.

(** The body of [for item in items_pdf]. *)
Definition procesa_item (nombre_remision : texto)
    (sl : estado * locales) (it : item) : estado * locales :=
  let (st, loc) := sl in
  let producto_original := Producto it in
  let producto_normalizado := normalizar_texto_producto producto_original in
  let costo_unitario := COSTOS !! producto_normalizado in
  let precio_venta_unitario := Precio_Venta_Unitario it in
  let cantidad := Cantidad it in
  let total_venta_item := Total_Venta_Item it in
  let ganancia_unidad :=
    match costo_unitario with
    | Some costo => Some (precio_venta_unitario - costo)%Z
    | None => None
    end in
  let ganancia_item :=
    match ganancia_unidad with
    | Some g => Some (g * cantidad)%Z
    | None => None
    end in
  ({| resumen_remisiones := resumen_remisiones st;
      detalle_items :=
        detalle_items st ++
        [ {| d_Remision := nombre_remision;
             d_Producto := producto_original;
             d_Cantidad := cantidad;
             d_Precio_Venta_Unitario := precio_venta_unitario;
             d_Total_Venta_Item := total_venta_item;
             d_Costo_Unitario := costo_unitario;
             d_Ganancia_Unidad := ganancia_unidad;
             d_Ganancia_Item := ganancia_item |} ];
      productos_desconocidos :=
        match costo_unitario with
        | Some _ => productos_desconocidos st
        | None => {[ producto_normalizado ]} ∪ productos_desconocidos st
        end |},
   {| total_ventas_remision :=
        (total_ventas_remision loc + total_venta_item)%Z;
      total_ganancias_remision :=
        match ganancia_item with
        | Some g => (total_ganancias_remision loc + g)%Z
        | None => total_ganancias_remision loc
        end;
      productos_en_remision :=
        {[ producto_normalizado ]} ∪ productos_en_remision loc |}).

(** The [print] of the totals of a document.  The two numbers are
    formatted with [:,] before anything is printed: when one of them has
    too many digits the f-string raises and nothing is printed. *)
Definition imprime_totales (ventas ganancias : Z) : efecto :=
  if excede_digitos ventas || excede_digitos ganancias then LanzaValueError
  else ImprimeTotales ventas ganancias.

(** The body of [for nombre_archivo in sorted(os.listdir(carpeta_data))]:
    the accumulators after it and the trace with what it did, which ends
    in [LanzaValueError] when the body raised. *)
Definition procesa_archivo (abrir : texto -> documento) (carpeta_data : texto)
    (se : estado * list efecto) (nombre_archivo : texto)
    : estado * list efecto :=
  let (st, ef) := se in
  if negb (es_pdf nombre_archivo) then se
  else
    let ruta_pdf := path_join carpeta_data nombre_archivo in
    let nombre_remision := splitext_raiz nombre_archivo in
    let ef := ef ++ [ImprimeProcesando nombre_remision] in
    let (items_pdf, impresos) := extraer_items_desde_pdf abrir ruta_pdf in
    let ef := ef ++ impresos in
    match items_pdf with
    | [] => (st, ef ++ [ImprimeSinItems nombre_archivo])
    | _ :: _ =>
        let (st', loc) :=
          fold_left (procesa_item nombre_remision) items_pdf
            (st, locales_iniciales) in
        let detalle_productos :=
          str_join (t " + ") (sorted (elements (productos_en_remision loc))) in
        ({| resumen_remisiones :=
              resumen_remisiones st' ++
              [ {| r_Remision := nombre_remision;
                   r_Total_Ventas_COP := total_ventas_remision loc;
                   r_Total_Ganancias_COP := total_ganancias_remision loc;
                   r_Detalle_de_Items := detalle_productos |} ];
            detalle_items := detalle_items st';
            productos_desconocidos := productos_desconocidos st' |},
         ef ++ [imprime_totales (total_ventas_remision loc)
                                (total_ganancias_remision loc)])
    end.

(** The loop over the names: the body runs for one name after the other,
    until it raises. *)
Fixpoint recorre_archivos (abrir : texto -> documento) (carpeta_data : texto)
    (nombres : list texto) (se : estado * list efecto)
    : estado * list efecto :=
  match nombres with
  | [] => se
  | nombre_archivo :: resto =>
      let se' := procesa_archivo abrir carpeta_data se nombre_archivo in
      if interrumpida (snd se') then se'
      else recorre_archivos abrir carpeta_data resto se'
  end.

(** The loop over the listing of [carpeta_data]. *)
Definition recorre_carpeta (listdir : texto -> list texto)
    (abrir : texto -> documento) (carpeta_data : texto)
    (se : estado * list efecto) : estado * list efecto :=
  recorre_archivos abrir carpeta_data (sorted (listdir carpeta_data)) se.

(** The TOTAL row of the summary. *)
Definition fila_total (df_resumen : list fila_resumen) : fila_resumen :=
  let total_ventas_global :=
    suma_columna (List.map r_Total_Ventas_COP df_resumen) in
  let total_ganancias_global :=
    suma_columna (List.map r_Total_Ganancias_COP df_resumen) in
  {| r_Remision :=
       t "TOTAL (" ++ decimal (length df_resumen) ++ t " remisiones)";
     r_Total_Ventas_COP := total_ventas_global;
     r_Total_Ganancias_COP := total_ganancias_global;
     r_Detalle_de_Items := decimal (length df_resumen) ++ t " remisiones" |}.

(** What comes after the loop: nothing but a message when there is no
    summary row, the workbook otherwise.  The sheets are given by the
    rows that their frames are built from. *)
Definition cierra_reporte (carpeta_output nombre_archivo_excel : texto)
    (st : estado) : list efecto :=
  match resumen_remisiones st with
  | [] => [ImprimeNoSeProcesaron]
  | _ :: _ =>
      let df_resumen := resumen_remisiones st ++ [fila_total (resumen_remisiones st)] in
      let df_detalle := detalle_items st in
      let pendientes := sorted (elements (productos_desconocidos st)) in
      let hojas_excel :=
        [ (t "Resumen", HojaResumen df_resumen);
          (t "Detalle_Items", HojaDetalle df_detalle) ]
        ++ (if decide (productos_desconocidos st = ∅) then []
            else [ (t "Pendientes", HojaPendientes pendientes) ]) in
      let ruta_excel := path_join carpeta_output nombre_archivo_excel in
      [ EscribeExcel ruta_excel hojas_excel; ImprimeGenerado ruta_excel ]
      ++ (if decide (productos_desconocidos st = ∅) then []
          else [ ImprimePendientes pendientes ])
  end.

(** [procesar_remisiones(carpeta_data, carpeta_output, nombre_archivo_excel)]
    in a world where [listdir] lists a directory and [abrir] reads a
    document: everything the run does, in order.  A run that the loop
    left with an exception does nothing more. *)
Definition procesar_remisiones (listdir : texto -> list texto)
    (abrir : texto -> documento)
    (carpeta_data carpeta_output nombre_archivo_excel : texto)
    : list efecto :=
  let (st, ef) :=
    recorre_carpeta listdir abrir carpeta_data
      (estado_inicial, [Makedirs carpeta_output]) in
  if interrumpida ef then ef
  else ef ++ cierra_reporte carpeta_output nombre_archivo_excel st.

(** A small world: two documents with the same two item lines, a note
    that is not a document, and a document that cannot be opened. *)
Definition texto_ej : texto :=
  t "REMISION 12" ++ [10] ++
  t "PRIV BAR $18.000 2 0% $36.000" ++ [10] ++
  t "FOO $5.000 1 0% $5.000" ++ [10] ++
  t "TOTAL $41.000".

Definition listdir_ej (_ : texto) : list texto :=
  [t "r2.pdf"; t "nota.txt"; t "r1.PDF"; t "r3.pdf"].

Definition abrir_ej (ruta : texto) : documento :=
  if bool_decide (ruta = t "data/r3.pdf") then NoAbre (t "no es un PDF")
  else Abierto [Texto (Some texto_ej)].

Definition efectos_ej : list efecto :=
  procesar_remisiones listdir_ej abrir_ej (t "data") (t "output")
    (t "resumen_remisiones.xlsx").

(** ** Vocabulary of the properties

    The definitions below are not part of the program: they say, in the
    words of the specification, what the program is compared with. *)

(** *** Numbers *)

(** The value of a decimal digit. *)
Definition valor_cifra (c : N) : Z :=
  match valor_decimal c with
  | Some d => Z.of_N d
  | None => 0%Z
  end.

(** The number that a string of decimal digits denotes. *)
Definition valor_de_cifras (ds : texto) : Z :=
  fold_left (fun acc c => (10 * acc + valor_cifra c)%Z) ds 0%Z.

Definition DIEZ : list N := [0; 1; 2; 3; 4; 5; 6; 7; 8; 9].

(** *** Normal forms of product names *)

(** A code point that [upper] leaves alone. *)
Definition fijo (c : N) : bool :=
  match busca_mayus TABLA_MAYUSCULAS c with
  | Some _ => false
  | None => true
  end.

(** The text does not start with a blank. *)
Definition empieza_bien (s : texto) : bool :=
  match s with
  | [] => true
  | c :: _ => negb (es_espacio c)
  end.

(** The text does not end in a blank. *)
Fixpoint termina_bien (s : texto) : bool :=
  match s with
  | [] => true
  | [c] => negb (es_espacio c)
  | _ :: r => termina_bien r
  end.

(** *** Lines *)

(** What the pattern describes: the texts it accepts from position [pos]
    on, whatever the order in which the matcher looks for them. *)
Fixpoint acepta (p : list nodo) (pos : nat) (s : texto) : Prop :=
  match p with
  | [] => True
  | Inicio :: p' => pos = 0%nat /\ acepta p' pos s
  | Fin :: p' => (s = [] \/ s = [10]) /\ acepta p' pos s
  | Opcional clase :: p' =>
      acepta p' pos s
      \/ exists x s', s = x :: s' /\ clase x = true /\ acepta p' (S pos) s'
  | Repite clase minimo _ :: p' =>
      exists pre resto,
        s = pre ++ resto
        /\ List.Forall (fun x => clase x = true) pre
        /\ (minimo <= length pre)%nat
        /\ acepta p' (pos + length pre)%nat resto
  | Abre _ :: p' => acepta p' pos s
  | Cierra _ :: p' => acepta p' pos s
  end.

(** The line starts, once trimmed and upper-cased, with a header or
    footer keyword. *)
Definition empieza_con_prefijo (linea : texto) : Prop :=
  exists prefijo resto,
    In prefijo LINEA_NO_ITEM_PREFIXES /\ upper (strip linea) = prefijo ++ resto.

(** The items that one line adds. *)
Definition items_de_linea (linea : texto) : list item :=
  match paso_linea linea with
  | Agrega it => [it]
  | _ => []
  end.

(** *** Documents *)

(** The pages read before the first one that raises. *)
Fixpoint paginas_leidas (paginas : list lectura_pagina) : list (option texto) :=
  match paginas with
  | Texto s :: resto => s :: paginas_leidas resto
  | _ => []
  end.

(** The message of the first page that raises. *)
Fixpoint falla_paginas (paginas : list lectura_pagina) : option texto :=
  match paginas with
  | [] => None
  | Texto _ :: resto => falla_paginas resto
  | FallaPagina exc :: _ => Some exc
  end.

(** The message of the failure, when opening or reading the document
    fails. *)
Definition falla_de (d : documento) : option texto :=
  match d with
  | NoAbre exc => Some exc
  | Abierto paginas => falla_paginas paginas
  end.

(** The lines of a page. *)
Definition lineas_de_pagina (s : option texto) : list texto :=
  split_nl (match s with Some x => x | None => [] end).

(** The lines read before the failure, if any. *)
Definition lineas_leidas (d : documento) : list texto :=
  match d with
  | NoAbre _ => []
  | Abierto paginas => flat_map lineas_de_pagina (paginas_leidas paginas)
  end.

(** *** Items and rows *)

Definition costo_de (it : item) : option Z :=
  COSTOS !! normalizar_texto_producto (Producto it).

(** The profit of a line whose product has a known cost. *)
Definition ganancia_de (it : item) : option Z :=
  match costo_de it with
  | Some costo => Some ((Precio_Venta_Unitario it - costo) * Cantidad it)%Z
  | None => None
  end.

(** The same profit, for an item that is known to have a cost. *)
Definition ganancia_conocida (it : item) : Z :=
  match costo_de it with
  | Some costo => ((Precio_Venta_Unitario it - costo) * Cantidad it)%Z
  | None => 0%Z
  end.

Definition sin_costo (it : item) : bool :=
  match costo_de it with
  | Some _ => false
  | None => true
  end.

(** The normalized names of the items that have no cost. *)
Definition nombres_sin_costo (items : list item) : list texto :=
  List.map (fun it => normalizar_texto_producto (Producto it))
    (List.filter sin_costo items).

(** The detail row of an item. *)
Definition fila_de_item (nombre_remision : texto) (it : item) : fila_detalle :=
  {| d_Remision := nombre_remision;
     d_Producto := Producto it;
     d_Cantidad := Cantidad it;
     d_Precio_Venta_Unitario := Precio_Venta_Unitario it;
     d_Total_Venta_Item := Total_Venta_Item it;
     d_Costo_Unitario := costo_de it;
     d_Ganancia_Unidad :=
       match costo_de it with
       | Some costo => Some (Precio_Venta_Unitario it - costo)%Z
       | None => None
       end;
     d_Ganancia_Item := ganancia_de it |}.

(** The summary row of a document with the given items. *)
Definition fila_de_remision (nombre_archivo : texto) (items : list item)
    : fila_resumen :=
  {| r_Remision := splitext_raiz nombre_archivo;
     r_Total_Ventas_COP := suma (List.map Total_Venta_Item items);
     r_Total_Ganancias_COP := suma (omap ganancia_de items);
     r_Detalle_de_Items :=
       str_join (t " + ")
         (sorted (elements
            (list_to_set
               (List.map (fun it => normalizar_texto_producto (Producto it))
                  items) : gset texto))) |}.

(** *** Runs *)

Definition es_escritura (e : efecto) : bool :=
  match e with
  | EscribeExcel _ _ => true
  | _ => false
  end.

(** The listed file is no document, or it is one that yields no item. *)
Definition sin_items (abrir : texto -> documento) (carpeta_data : texto)
    (nombre_archivo : texto) : bool :=
  negb (es_pdf nombre_archivo)
  || match fst (extraer_items_desde_pdf abrir
                  (path_join carpeta_data nombre_archivo)) with
     | [] => true
     | _ :: _ => false
     end.

(** The rows of the sheet [Resumen] of the workbook that a run writes. *)
Fixpoint hoja_resumen_de (hojas : list (texto * hoja))
    : option (list fila_resumen) :=
  match hojas with
  | [] => None
  | (_, HojaResumen filas) :: _ => Some filas
  | _ :: resto => hoja_resumen_de resto
  end.

Fixpoint resumen_escrito (efectos : list efecto) : option (list fila_resumen) :=
  match efectos with
  | [] => None
  | EscribeExcel _ hojas :: _ => hoja_resumen_de hojas
  | _ :: resto => resumen_escrito resto
  end.


(** *** Sample worlds *)

(** A document whose second page cannot be read. *)
Definition abrir_a_medias (_ : texto) : documento :=
  Abierto [ Texto (Some (t "PRIV BAR $18.000 2 0% $36.000"));
            FallaPagina (t "pagina ilegible") ].

(** Two documents, each with one line whose total is 2^62. *)
Definition listdir_grande (_ : texto) : list texto := [t "a.pdf"; t "b.pdf"].

Definition abrir_grande (_ : texto) : documento :=
  Abierto [Texto (Some (t "PRIV BAR $18.000 1 0% $4611686018427387904"))].

(** A folder where nothing can be processed. *)
Definition listdir_vacio (_ : texto) : list texto := [t "r3.pdf"; t "nota.txt"].

(** A line whose unit price has no digit. *)
Definition linea_sin_precio : texto := t "X $, 1 0 $5".

(** One digit more than [int] converts: 4301 times the digit 7. *)
Definition cifras_de_mas : texto := List.repeat 55 (S INT_MAX_STR_DIGITS).

(** *** Matches, words, and the rows of a run *)

(** What a successful run of the matcher went through: the text it took
    for every node, and the marks it left. *)
Fixpoint deriva (p : list nodo) (pos : nat) (s : texto) (m m' : marcas)
    : Prop :=
  match p with
  | [] => m' = m
  | Inicio :: p' => pos = 0%nat /\ deriva p' pos s m m'
  | Fin :: p' => (s = [] \/ s = [10]) /\ deriva p' pos s m m'
  | Opcional clase :: p' =>
      exists d resto,
        s = d ++ resto
        /\ (d = [] \/ exists x, d = [x] /\ clase x = true)
        /\ deriva p' (pos + length d)%nat resto m m'
  | Repite clase minimo _ :: p' =>
      exists pre resto,
        s = pre ++ resto
        /\ List.Forall (fun x => clase x = true) pre
        /\ (minimo <= length pre)%nat
        /\ deriva p' (pos + length pre)%nat resto m m'
  | Abre g :: p' => deriva p' pos s (marca_ini g pos m) m'
  | Cierra g :: p' => deriva p' pos s (marca_fin g pos m) m'
  end.

(** A run of at least one character of a class. *)
Definition racha (clase : N -> bool) (s : texto) : Prop :=
  s <> [] /\ List.Forall (fun x => clase x = true) s.

(** The shape of a line with the four captures [prod], [p_unit], [cant]
    and [total]: blanks, the product, blanks, an optional currency marker,
    the unit price, blanks, the quantity, blanks, one token, blanks, an
    optional currency marker, the total, blanks, and the end of the line. *)
Definition forma_de_item (linea prod p_unit cant total : texto) : Prop :=
  exists b0 b1 d1 b2 b3 ficha b4 d2 b5 final,
    linea = b0 ++ prod ++ b1 ++ d1 ++ p_unit ++ b2 ++ cant ++ b3 ++ ficha
               ++ b4 ++ d2 ++ total ++ b5 ++ final
    /\ List.Forall (fun x => es_espacio x = true) b0
    /\ racha punto prod
    /\ racha es_espacio b1
    /\ (d1 = [] \/ d1 = [36])
    /\ racha cifra_o_separador p_unit
    /\ racha es_espacio b2
    /\ racha es_digito cant
    /\ racha es_espacio b3
    /\ racha no_espacio ficha
    /\ racha es_espacio b4
    /\ (d2 = [] \/ d2 = [36])
    /\ racha cifra_o_separador total
    /\ List.Forall (fun x => es_espacio x = true) b5
    /\ (final = [] \/ final = [10]).

(** The start of [s.split()]: the characters up to the first blank, and
    the words after it. *)
Fixpoint parte_palabras (s : texto) : texto * list texto :=
  match s with
  | [] => ([], [])
  | c :: r =>
      let (w, ws) := parte_palabras r in
      if es_espacio c then ([], match w with [] => ws | _ => w :: ws end)
      else (c :: w, ws)
  end.

(** [s.split()]: the maximal runs of characters that are not blanks. *)
Definition split_blancos (s : texto) : list texto :=
  let (w, ws) := parte_palabras s in
  match w with [] => ws | _ => w :: ws end.

(** The words that follow a first word: each after one space. *)
Definition cola_de_palabras (ws : list texto) : texto :=
  match ws with
  | [] => []
  | _ => 32 :: str_join [32] ws
  end.

(** The items of a listed file: none when it is not a document. *)
Definition items_de_archivo (abrir : texto -> documento) (carpeta_data : texto)
    (nombre_archivo : texto) : list item :=
  if es_pdf nombre_archivo
  then fst (extraer_items_desde_pdf abrir (path_join carpeta_data nombre_archivo))
  else [].

(** The summary row of a listed file, when it has one. *)
Definition fila_de_archivo (abrir : texto -> documento) (carpeta_data : texto)
    (nombre_archivo : texto) : option fila_resumen :=
  match items_de_archivo abrir carpeta_data nombre_archivo with
  | [] => None
  | items => Some (fila_de_remision nombre_archivo items)
  end.

(** The detail rows of a listed file. *)
Definition detalle_de_archivo (abrir : texto -> documento)
    (carpeta_data : texto) (nombre_archivo : texto) : list fila_detalle :=
  List.map (fila_de_item (splitext_raiz nombre_archivo))
    (items_de_archivo abrir carpeta_data nombre_archivo).

(** The listed file is a document whose totals cannot be printed: the
    body of the loop raises at it. *)
Definition falla_al_imprimir (abrir : texto -> documento)
    (carpeta_data : texto) (nombre_archivo : texto) : bool :=
  match fila_de_archivo abrir carpeta_data nombre_archivo with
  | Some f =>
      excede_digitos (r_Total_Ventas_COP f)
      || excede_digitos (r_Total_Ganancias_COP f)
  | None => false
  end.

(** The listed files that the loop gets to: all of them, up to the first
    one whose totals cannot be printed. *)
Fixpoint hasta_la_falla (abrir : texto -> documento) (carpeta_data : texto)
    (nombres : list texto) : list texto :=
  match nombres with
  | [] => []
  | n :: resto =>
      if falla_al_imprimir abrir carpeta_data n then [n]
      else n :: hasta_la_falla abrir carpeta_data resto
  end.

(** The state of a run after the loop: the accumulators once the body
    has run for every listed file. *)
Definition estado_final (listdir : texto -> list texto)
    (abrir : texto -> documento) (carpeta_data carpeta_output : texto)
    : estado :=
  fst (fold_left (procesa_archivo abrir carpeta_data)
         (sorted (listdir carpeta_data))
         (estado_inicial, [Makedirs carpeta_output])).


(** A number that float64 holds exactly, whatever the type of its
    column. *)
Definition exacto (v : Z) : bool := (Z.abs v <=? 2 ^ 53)%Z.

(** The numbers of a detail row. *)
Definition numeros_de_detalle (f : fila_detalle) : list Z :=
  [d_Cantidad f; d_Precio_Venta_Unitario f; d_Total_Venta_Item f]
  ++ omap id [d_Costo_Unitario f; d_Ganancia_Unidad f; d_Ganancia_Item f].

(** The numbers of the tables of the workbook: the sums of the two
    columns of the summary, the totals of its rows, and the numbers of the
    detail rows. *)
Definition numeros_del_libro (st : estado) : list Z :=
  suma (List.map r_Total_Ventas_COP (resumen_remisiones st))
  :: suma (List.map r_Total_Ganancias_COP (resumen_remisiones st))
  :: List.map r_Total_Ventas_COP (resumen_remisiones st)
  ++ List.map r_Total_Ganancias_COP (resumen_remisiones st)
  ++ flat_map numeros_de_detalle (detalle_items st).


(** The same two documents, listed the other way round. *)
Definition listdir_grande_al_reves (_ : texto) : list texto :=
  [t "b.pdf"; t "a.pdf"].

(** The item of the documents of [abrir_grande]. *)
Definition item_grande : item :=
  {| Producto := t "PRIV BAR"; Precio_Venta_Unitario := 18000;
     Cantidad := 1; Total_Venta_Item := 4611686018427387904 |}.

(** A line whose total has one digit too many. *)
Definition linea_con_total_largo : texto := t "BIG $1 1 0% $" ++ cifras_de_mas.

(** A line whose price and quantity have 2200 digits each, of a product
    with a cost: every number parses, and the profit has some 4400
    digits. *)
Definition linea_enorme : texto :=
  t "PRIV BAR $" ++ List.repeat 57 2200 ++ t " " ++ List.repeat 57 2200
  ++ t " 0% $1".

Definition abrir_enorme (_ : texto) : documento :=
  Abierto [Texto (Some linea_enorme)].

(** * Properties *)

(** Closed facts are settled by evaluation. *)
Ltac calcula := vm_compute; reflexivity.

(** ** Examples *)

Example parse_entero_ej : parse_entero (t "$1.234,00") = Some 123400%Z.
Proof. reflexivity. Qed.

Example normalizar_ej :
  normalizar_texto_producto (t "  priv   bar ") = t "PRIV BAR".
Proof. reflexivity. Qed.

Example coincide_ej1 :
  grupos (t "PRIV BAR $18.000 2 0% $36.000")
  = Some (t "PRIV BAR", t "18.000", t "2", t "36.000").
Proof. calcula. Qed.

Example coincide_ej2 :
  grupos (t "X $, 1 0 $5") = Some (t "X", t ",", t "1", t "5").
Proof. calcula. Qed.

Example coincide_ej3 :
  grupos (t "  priv   bar  18000 2 x 36000 " ++ [10])
  = Some (t "priv   bar", t "18000", t "2", t "36000").
Proof. calcula. Qed.

Example coincide_ej4 :
  grupos (t "A 1 2 3 4 5 6") = Some (t "A 1 2", t "3", t "4", t "6").
Proof. calcula. Qed.

Example coincide_ej5 :
  grupos (t "a" ++ [10] ++ t "b $1 1 1 1") = None.
Proof. calcula. Qed.

Example coincide_ej6 :
  grupos (t "A 1 2 $ 3") = Some (t "A", t "1", t "2", t "3").
Proof. calcula. Qed.

Example coincide_ej7 :
  grupos ([1635] ++ t " x $1 " ++ [1635] ++ t " 1 1")
  = Some ([1635] ++ t " x", t "1", [1635], t "1").
Proof. calcula. Qed.

Example extraer_ej :
  extraer_items_desde_pdf
    (fun _ => Abierto [Texto (Some (t "REMISION 12" ++ [10] ++
                                    t "PRIV BAR $18.000 2 0% $36.000" ++ [10] ++
                                    t "FOO $5.000 1 0% $5.000" ++ [10] ++
                                    t "TOTAL $41.000"))])
    (t "data/r1.pdf")
  = ([ {| Producto := t "PRIV BAR"; Precio_Venta_Unitario := 18000;
          Cantidad := 2; Total_Venta_Item := 36000 |};
       {| Producto := t "FOO"; Precio_Venta_Unitario := 5000;
          Cantidad := 1; Total_Venta_Item := 5000 |} ], []).
Proof. calcula. Qed.

Example splitext_ej :
  List.map splitext_raiz [t ".pdf"; t "a.pdf"; t "..pdf"; t "a.b.pdf"; t "...a.pdf"]
  = [t ".pdf"; t "a"; t "..pdf"; t "a.b"; t "...a"].
Proof. calcula. Qed.

Example sorted_ej :
  sorted [t "b.pdf"; t "B.pdf"; t "a10.pdf"; t "a2.pdf"]
  = [t "B.pdf"; t "a10.pdf"; t "a2.pdf"; t "b.pdf"].
Proof. calcula. Qed.

Example corrida_ej :
  resumen_escrito efectos_ej
  = Some
      [ {| r_Remision := t "r1";
           r_Total_Ventas_COP := 41000;
           r_Total_Ganancias_COP := 9000;
           r_Detalle_de_Items := t "FOO + PRIV BAR" |};
        {| r_Remision := t "r2";
           r_Total_Ventas_COP := 41000;
           r_Total_Ganancias_COP := 9000;
           r_Detalle_de_Items := t "FOO + PRIV BAR" |};
        {| r_Remision := t "TOTAL (2 remisiones)";
           r_Total_Ventas_COP := 82000;
           r_Total_Ganancias_COP := 18000;
           r_Detalle_de_Items := t "2 remisiones" |} ].
Proof. calcula. Qed.

(** At the limit of [int]: 4300 digits are a number, a line with 4301 is
    dropped, and a document whose profit cannot be printed ends the run
    before the second document and before any workbook. *)
Example parse_entero_en_el_limite :
  parse_entero (List.repeat 55 INT_MAX_STR_DIGITS)
  = Some (7 * ((10 ^ 4300 - 1) / 9))%Z.
Proof. calcula. Qed.

Example paso_linea_total_largo :
  paso_linea linea_con_total_largo = SaltaNumerico.
Proof. calcula. Qed.

Example corrida_interrumpida :
  procesar_remisiones listdir_grande abrir_enorme (t "data") (t "output")
    (t "resumen_remisiones.xlsx")
  = [Makedirs (t "output"); ImprimeProcesando (t "a"); LanzaValueError].
Proof. calcula. Qed.

(** ** The numeric normalizer *)

Lemma valor_en_bloques_Some bs c d :
  valor_en_bloques bs c = Some d ->
  exists b, In b bs /\ b <= c /\ c < b + 10 /\ d = c - b.
Proof.
  induction bs as [|b bs IH]; simpl; [discriminate|].
  destruct ((b <=? c) && (c <? b + 10)) eqn:E.
  - intros [= <-]. apply andb_true_iff in E as [E1 E2].
    apply N.leb_le in E1. apply N.ltb_lt in E2. exists b. auto.
  - intros H. destruct (IH H) as (b' & ? & ?). exists b'. auto.
Qed.

Lemma en_DIEZ i : i < 10 -> In i DIEZ.
Proof.
  intros H. unfold DIEZ.
  assert (i = 0 \/ i = 1 \/ i = 2 \/ i = 3 \/ i = 4 \/ i = 5 \/ i = 6
          \/ i = 7 \/ i = 8 \/ i = 9) as D by lia.
  simpl. intuition auto.
Qed.

Lemma propiedad_de_digitos (P : N -> bool) :
  forallb (fun b => forallb (fun i => P (b + i)) DIEZ) BLOQUES_DECIMALES = true ->
  forall c, es_digito c = true -> P c = true.
Proof.
  intros Hall c Hc. unfold es_digito, valor_decimal in Hc.
  destruct (valor_en_bloques BLOQUES_DECIMALES c) as [d|] eqn:E; [|discriminate].
  apply valor_en_bloques_Some in E as (b & Hb & H1 & H2 & _).
  rewrite forallb_forall in Hall. specialize (Hall b Hb).
  rewrite forallb_forall in Hall.
  assert (c - b < 10) as Hlt by lia.
  specialize (Hall (c - b) (en_DIEZ _ Hlt)).
  replace (b + (c - b)) with c in Hall by lia. exact Hall.
Qed.

Lemma digito_no_blanco c : es_digito c = true -> es_blanco_int c = false.
Proof.
  intros H. apply negb_true_iff.
  apply (propiedad_de_digitos (fun c => negb (es_blanco_int c))); [|exact H].
  vm_compute. reflexivity.
Qed.

Lemma digito_no_signo c :
  es_digito c = true -> (c =? 45) = false /\ (c =? 43) = false.
Proof.
  intros H.
  pose proof (propiedad_de_digitos
                (fun c => negb (c =? 45) && negb (c =? 43))
                ltac:(calcula) c H) as E.
  apply andb_true_iff in E as [E1 E2].
  apply negb_true_iff in E1, E2. auto.
Qed.

Lemma quita_blancos_der_digitos ds :
  Forall (fun c => es_digito c = true) ds -> quita_blancos_der ds = ds.
Proof.
  induction 1 as [|c r Hc Hr IH]; simpl; [reflexivity|].
  rewrite IH. destruct r; [|reflexivity].
  rewrite (digito_no_blanco c Hc). reflexivity.
Qed.

Lemma lee_digitos_digitos ds : forall acc previo,
  Forall (fun c => es_digito c = true) ds ->
  ds <> [] \/ previo = true ->
  lee_digitos acc previo ds
  = Some (fold_left (fun a c => (10 * a + valor_cifra c)%Z) ds acc).
Proof.
  induction ds as [|c r IH]; intros acc previo Hds Hne.
  - destruct Hne as [Hne | ->]; [congruence | reflexivity].
  - inversion Hds as [|? ? Hc Hr]; subst. simpl.
    unfold es_digito in Hc. unfold valor_cifra at 2.
    destruct (valor_decimal c) as [d|]; [|discriminate].
    apply IH; auto.
Qed.

Lemma valor_de_cifras_no_negativo ds acc :
  (0 <= acc)%Z ->
  (0 <= fold_left (fun a c => (10 * a + valor_cifra c)%Z) ds acc)%Z.
Proof.
  revert acc. induction ds as [|c r IH]; intros acc H; simpl; [exact H|].
  apply IH. unfold valor_cifra. destruct (valor_decimal c); lia.
Qed.

Lemma solo_digitos_Forall s :
  Forall (fun c => es_digito c = true) (solo_digitos s).
Proof.
  unfold solo_digitos. apply List.Forall_forall. intros c Hc.
  apply filter_In in Hc. tauto.
Qed.

Lemma filtro_de_digitos ds :
  Forall (fun c => es_digito c = true) ds -> List.filter es_digito ds = ds.
Proof.
  induction 1 as [|c r Hc Hr IH]; [reflexivity|].
  cbn [List.filter]. rewrite Hc, IH. reflexivity.
Qed.

(** [int] of a text of digits: their number, up to the limit. *)
Lemma int_de_digitos c r :
  Forall (fun c => es_digito c = true) (c :: r) ->
  int_de_texto (c :: r)
  = if (length (c :: r) <=? INT_MAX_STR_DIGITS)%nat
    then Some (valor_de_cifras (c :: r))
    else None.
Proof.
  intros Hd. unfold int_de_texto.
  assert (es_digito c = true) as Hc by (inversion Hd; assumption).
  replace (quita_blancos_izq (c :: r)) with (c :: r)
    by (cbn [quita_blancos_izq]; rewrite (digito_no_blanco c Hc); reflexivity).
  rewrite (quita_blancos_der_digitos _ Hd).
  destruct (digito_no_signo c Hc) as [-> ->].
  unfold lee_natural. rewrite (filtro_de_digitos _ Hd).
  destruct (length (c :: r) <=? INT_MAX_STR_DIGITS)%nat; [|reflexivity].
  rewrite (lee_digitos_digitos (c :: r) 0%Z false Hd) by (left; discriminate).
  reflexivity.
Qed.

(** What [parse_entero] computes. *)
Lemma parse_entero_valor s :
  parse_entero s
  = match solo_digitos s with
    | [] => None
    | ds =>
        if (length ds <=? INT_MAX_STR_DIGITS)%nat
        then Some (valor_de_cifras ds)
        else None
    end.
Proof.
  unfold parse_entero. pose proof (solo_digitos_Forall s) as Hd.
  destruct (solo_digitos s) as [|c r] eqn:Ef; [reflexivity|].
  rewrite (int_de_digitos c r Hd).
  destruct (length (c :: r) <=? INT_MAX_STR_DIGITS)%nat; reflexivity.
Qed.

Lemma parse_entero_vacio s : solo_digitos s = [] -> parse_entero s = None.
Proof. intros E. rewrite parse_entero_valor, E. reflexivity. Qed.

Lemma parse_entero_largo s :
  (INT_MAX_STR_DIGITS < length (solo_digitos s))%nat -> parse_entero s = None.
Proof.
  intros L. rewrite parse_entero_valor.
  destruct (solo_digitos s) as [|c r]; [reflexivity|]. cbv iota zeta.
  apply Nat.leb_gt in L. rewrite L. reflexivity.
Qed.

Lemma parse_entero_corto s :
  solo_digitos s <> [] ->
  (length (solo_digitos s) <= INT_MAX_STR_DIGITS)%nat ->
  parse_entero s = Some (valor_de_cifras (solo_digitos s)).
Proof.
  intros Hne L. rewrite parse_entero_valor.
  destruct (solo_digitos s) as [|c r]; [congruence|]. cbv iota zeta.
  apply Nat.leb_le in L. rewrite L. reflexivity.
Qed.

Lemma parse_entero_no_negativo s n : parse_entero s = Some n -> (0 <= n)%Z.
Proof.
  rewrite parse_entero_valor. destruct (solo_digitos s) as [|c r];
    [discriminate|]. cbv iota zeta.
  destruct (length (c :: r) <=? INT_MAX_STR_DIGITS)%nat; [|discriminate].
  intros [= <-]. apply valor_de_cifras_no_negativo. lia.
Qed.

(** C4, as stated, fails: a text of 4301 digits has digits left, and
    [parse_entero] gives no number for it, because [int] raises the
    [ValueError] that the function turns into [None]. *)
Lemma parse_entero_sin_numero :
  ~ (forall s : texto,
       parse_entero s
       = match List.filter es_digito s with
         | [] => None
         | ds => Some (valor_de_cifras ds)
         end).
Proof.
  intros H. specialize (H cifras_de_mas).
  assert (parse_entero cifras_de_mas = None) as E by calcula.
  rewrite E in H.
  destruct (List.filter es_digito cifras_de_mas) eqn:F;
    [vm_compute in F|]; discriminate.
Qed.

(** C4, amended.  [parse_entero] removes every character that is not a
    decimal digit; when at least one digit and at most 4300 digits remain
    it returns the number that they denote, which is not negative; it
    returns [None] when no digit remains and when more than 4300 remain,
    which [int] refuses; on the text $1.234,00 it returns 123400. *)
Theorem parse_entero_correcto (s : texto) :
  parse_entero s
  = match List.filter es_digito s with
    | [] => None
    | ds =>
        if (length ds <=? INT_MAX_STR_DIGITS)%nat
        then Some (valor_de_cifras ds)
        else None
    end
  /\ (forall n, parse_entero s = Some n -> (0 <= n)%Z)
  /\ parse_entero (t "$1.234,00") = Some 123400%Z.
Proof.
  split; [exact (parse_entero_valor s)|].
  split; [intros n; apply parse_entero_no_negativo|calcula].
Qed.

(** ** The product name normalizer *)

Lemma busca_mayus_In tabla c v :
  busca_mayus tabla c = Some v -> In (c, v) tabla.
Proof.
  induction tabla as [|[k w] resto IH]; simpl; [discriminate|].
  destruct (k =? c) eqn:E.
  - apply N.eqb_eq in E. intros [= <-]. left. congruence.
  - auto.
Qed.

Lemma tabla_estable :
  forallb (fun kv => forallb fijo (snd kv)) TABLA_MAYUSCULAS = true.
Proof. calcula. Qed.

Lemma mayus_de_fijo c : fijo c = true -> mayus_de c = [c].
Proof.
  unfold fijo, mayus_de. destruct (busca_mayus TABLA_MAYUSCULAS c); congruence.
Qed.

Lemma mayus_de_fijos c : forallb fijo (mayus_de c) = true.
Proof.
  unfold mayus_de. destruct (busca_mayus TABLA_MAYUSCULAS c) as [v|] eqn:E.
  - apply busca_mayus_In in E. pose proof tabla_estable as H.
    rewrite forallb_forall in H. exact (H _ E).
  - simpl. unfold fijo. rewrite E. reflexivity.
Qed.

Lemma upper_fijos s : forallb fijo (upper s) = true.
Proof.
  unfold upper. induction s as [|c r IH]; simpl; [reflexivity|].
  rewrite forallb_app, mayus_de_fijos, IH. reflexivity.
Qed.

Lemma upper_de_fijos s : forallb fijo s = true -> upper s = s.
Proof.
  unfold upper. induction s as [|c r IH]; simpl; [reflexivity|].
  intros H. apply andb_true_iff in H as [Hc Hr].
  rewrite (mayus_de_fijo c Hc), (IH Hr). reflexivity.
Qed.

Lemma lstrip_fijos s : forallb fijo s = true -> forallb fijo (lstrip s) = true.
Proof.
  induction s as [|c r IH]; simpl; [reflexivity|].
  intros H. destruct (es_espacio c); [|exact H].
  apply andb_true_iff in H as [_ Hr]. auto.
Qed.

Lemma rstrip_fijos s : forallb fijo s = true -> forallb fijo (rstrip s) = true.
Proof.
  induction s as [|c r IH]; simpl; [reflexivity|].
  intros H. apply andb_true_iff in H as [Hc Hr]. specialize (IH Hr).
  destruct (rstrip r) as [|x r'].
  - destruct (es_espacio c); simpl; [reflexivity|]. rewrite Hc. reflexivity.
  - change (forallb fijo (c :: x :: r')) with (fijo c && forallb fijo (x :: r')).
    rewrite Hc, IH. reflexivity.
Qed.

Lemma colapsa_fijos s : forall b,
  forallb fijo s = true -> forallb fijo (colapsa_desde b s) = true.
Proof.
  induction s as [|c r IH]; intros b H; simpl; [reflexivity|].
  simpl in H. apply andb_true_iff in H as [Hc Hr].
  destruct (es_espacio c), b; simpl; rewrite ?Hc, ?IH; auto.
Qed.

Lemma colapsa_colapsa s : forall b,
  colapsa_desde b (colapsa_desde b s) = colapsa_desde b s.
Proof.
  induction s as [|c r IH]; intros b; simpl; [reflexivity|].
  destruct (es_espacio c) eqn:Ec.
  - destruct b; [apply IH|]. simpl. rewrite IH. reflexivity.
  - simpl. rewrite Ec, IH. reflexivity.
Qed.

Lemma rstrip_fijo_iff s : termina_bien s = true -> rstrip s = s.
Proof.
  induction s as [|c r IH]; simpl; [reflexivity|].
  destruct r as [|x r'].
  - simpl. intros H. apply negb_true_iff in H. rewrite H. reflexivity.
  - intros H. rewrite (IH H). reflexivity.
Qed.

Lemma rstrip_termina_bien s : termina_bien (rstrip s) = true.
Proof.
  induction s as [|c r IH]; simpl; [reflexivity|].
  destruct (rstrip r) as [|x r'] eqn:E.
  - destruct (es_espacio c) eqn:Ec; simpl; [reflexivity|]. rewrite Ec. reflexivity.
  - exact IH.
Qed.

Lemma lstrip_empieza_bien s : empieza_bien (lstrip s) = true.
Proof.
  induction s as [|c r IH]; simpl; [reflexivity|].
  destruct (es_espacio c) eqn:Ec; [exact IH|]. simpl. rewrite Ec. reflexivity.
Qed.

Lemma lstrip_de_empieza_bien s : empieza_bien s = true -> lstrip s = s.
Proof.
  destruct s as [|c r]; simpl; [reflexivity|].
  intros H. apply negb_true_iff in H. rewrite H. reflexivity.
Qed.

Lemma rstrip_empieza_bien s :
  empieza_bien s = true -> empieza_bien (rstrip s) = true.
Proof.
  destruct s as [|c r]; simpl; [reflexivity|].
  intros H. destruct (rstrip r).
  - apply negb_true_iff in H. rewrite H. simpl. rewrite H. reflexivity.
  - exact H.
Qed.

Lemma colapsa_empieza_bien s :
  empieza_bien s = true -> empieza_bien (colapsa_espacios s) = true.
Proof.
  destruct s as [|c r]; simpl; [reflexivity|].
  intros H. pose proof H as H'. apply negb_true_iff in H'.
  unfold colapsa_espacios. simpl. rewrite H'. exact H.
Qed.

Lemma colapsa_no_vacio s : forall b,
  termina_bien s = true -> s <> [] -> colapsa_desde b s <> [].
Proof.
  induction s as [|c r IH]; intros b H Hne; [congruence|].
  simpl. destruct r as [|x r'].
  - simpl in H. apply negb_true_iff in H. rewrite H. discriminate.
  - destruct (es_espacio c); [|discriminate].
    destruct b; [|discriminate]. apply IH; [exact H|discriminate].
Qed.

Lemma termina_bien_cons c s :
  s <> [] -> termina_bien (c :: s) = termina_bien s.
Proof. destruct s; [congruence|reflexivity]. Qed.

Lemma colapsa_termina_bien s : forall b,
  termina_bien s = true -> termina_bien (colapsa_desde b s) = true.
Proof.
  induction s as [|c r IH]; intros b H; [reflexivity|].
  destruct r as [|x r'].
  - simpl in *. pose proof H as H'. apply negb_true_iff in H'.
    rewrite H'. simpl. exact H.
  - assert (termina_bien (x :: r') = true) as Hr by exact H.
    assert (forall b', colapsa_desde b' (x :: r') <> []) as Hne
      by (intros b'; apply colapsa_no_vacio; [exact Hr|discriminate]).
    change (colapsa_desde b (c :: x :: r'))
      with (if es_espacio c
            then if b then colapsa_desde true (x :: r')
                 else 32 :: colapsa_desde true (x :: r')
            else c :: colapsa_desde false (x :: r')).
    destruct (es_espacio c); [destruct b|];
      rewrite ?termina_bien_cons by apply Hne; apply IH; exact Hr.
Qed.

Lemma strip_de_limpio s :
  empieza_bien s = true -> termina_bien s = true -> strip s = s.
Proof.
  intros H1 H2. unfold strip.
  rewrite (lstrip_de_empieza_bien s H1). apply rstrip_fijo_iff, H2.
Qed.

Lemma normalizar_forma_normal s :
  forallb fijo s = true -> empieza_bien s = true -> termina_bien s = true ->
  colapsa_espacios s = s -> normalizar_texto_producto s = s.
Proof.
  intros H1 H2 H3 H4. unfold normalizar_texto_producto.
  rewrite (upper_de_fijos s H1), (strip_de_limpio s H2 H3). exact H4.
Qed.

Lemma normalizar_idem s :
  normalizar_texto_producto (normalizar_texto_producto s)
  = normalizar_texto_producto s.
Proof.
  apply normalizar_forma_normal; unfold normalizar_texto_producto.
  - apply colapsa_fijos. unfold strip. apply rstrip_fijos, lstrip_fijos, upper_fijos.
  - apply colapsa_empieza_bien. unfold strip.
    apply rstrip_empieza_bien, lstrip_empieza_bien.
  - apply colapsa_termina_bien. unfold strip. apply rstrip_termina_bien.
  - apply colapsa_colapsa.
Qed.

(** ** The matcher and the classifier *)

Lemma primero_o_segundo {A} (a b : option A) :
  is_Some (match a with Some r => Some r | None => b end)
  <-> is_Some a \/ is_Some b.
Proof.
  destruct a as [r|]; split; intros H.
  - left. eauto.
  - eauto.
  - right. exact H.
  - destruct H as [[x Hx]|H]; [discriminate|exact H].
Qed.

Section Repeticion.

(** One repetition and what follows it. *)
Variable clase : N -> bool.
Variable minimo : nat.
Variable codicioso : bool.
Variable k : nat -> texto -> option marcas.

Lemma repite_alternativas n pos s :
  is_Some (repite clase minimo codicioso k n pos s)
  <-> is_Some (match s with
               | x :: s' =>
                   if clase x
                   then repite clase minimo codicioso k (S n) (S pos) s'
                   else None
               | [] => None
               end)
      \/ is_Some (if (minimo <=? n)%nat then k pos s else None).
Proof.
  pose proof (@is_Some_None marcas) as HN.
  destruct s as [|x s'], codicioso; simpl; rewrite ?primero_o_segundo; tauto.
Qed.

Lemma repite_Some s : forall n pos,
  is_Some (repite clase minimo codicioso k n pos s)
  <-> exists pre resto,
        s = pre ++ resto
        /\ List.Forall (fun x => clase x = true) pre
        /\ (minimo <= n + length pre)%nat
        /\ is_Some (k (pos + length pre)%nat resto).
Proof.
  induction s as [|x s' IH]; intros n pos; rewrite repite_alternativas.
  - split.
    + intros [[? [=]]|H].
      destruct (Nat.leb_spec minimo n) as [Hle|]; [|destruct H; discriminate].
      exists [], []. simpl. rewrite ?Nat.add_0_r. repeat split; auto.
    + intros (pre & resto & E & _ & Hle & Hk). right.
      symmetry in E. apply app_eq_nil in E as [-> ->]. simpl in *.
      rewrite ?Nat.add_0_r in *.
      destruct (Nat.leb_spec minimo n); [exact Hk|lia].
  - split.
    + intros [H|H].
      * destruct (clase x) eqn:Ex; [|destruct H; discriminate].
        apply IH in H as (pre & resto & -> & Hpre & Hle & Hk).
        exists (x :: pre), resto. simpl. repeat split; auto; [lia|].
        replace (pos + S (length pre))%nat with (S pos + length pre)%nat by lia.
        exact Hk.
      * destruct (Nat.leb_spec minimo n) as [Hle|]; [|destruct H; discriminate].
        exists [], (x :: s'). simpl. rewrite ?Nat.add_0_r.
        repeat split; auto.
    + intros (pre & resto & E & Hpre & Hle & Hk).
      destruct pre as [|y pre'].
      * right. simpl in *. subst resto. rewrite ?Nat.add_0_r in *.
        destruct (Nat.leb_spec minimo n); [exact Hk|lia].
      * left. simpl in E. injection E as -> ->.
        inversion Hpre as [|? ? Hy Hpre']; subst. rewrite Hy.
        apply IH. exists pre', resto. simpl in *. repeat split; auto; [lia|].
        replace (S (pos + length pre')) with (pos + S (length pre'))%nat by lia.
        exact Hk.
Qed.

End Repeticion.

Lemma en_fin_spec s : en_fin s = true <-> s = [] \/ s = [10].
Proof.
  destruct s as [|c [|d r]]; simpl.
  - tauto.
  - rewrite N.eqb_eq. split; [intros ->; auto|]. intros [[=]|[= ->]]. reflexivity.
  - split; [discriminate|]. intros [[=]|[=]].
Qed.

(** The matcher finds a match exactly when the pattern accepts the text. *)
Lemma casa_acepta p : forall pos s m,
  is_Some (casa p pos s m) <-> acepta p pos s.
Proof.
  induction p as [|nd p' IH]; intros pos s m.
  - simpl. split; eauto.
  - destruct nd as [| |clase|clase minimo codicioso|g|g]; simpl.
    + destruct (Nat.eqb_spec pos 0) as [->|Hne].
      * rewrite IH. tauto.
      * split; [intros [? [=]]|tauto].
    + destruct (en_fin s) eqn:E.
      * rewrite IH. apply en_fin_spec in E. tauto.
      * split; [intros [? [=]]|]. intros [H _]. apply en_fin_spec in H. congruence.
    + destruct s as [|x s'].
      * rewrite IH. split; [tauto|]. intros [H|(x & s' & [=] & _)]. exact H.
      * destruct (clase x) eqn:Ex.
        -- rewrite primero_o_segundo, !IH. split.
           ++ intros [H|H]; [right; eauto | left; exact H].
           ++ intros [H|(y & r & [= <- <-] & _ & H)]; tauto.
        -- rewrite IH. split; [tauto|].
           intros [H|(y & r & [= <- <-] & Hy & _)]; [exact H|congruence].
    + rewrite repite_Some. split.
      * intros (pre & resto & E & Hpre & Hle & Hk). exists pre, resto.
        rewrite IH in Hk. auto.
      * intros (pre & resto & E & Hpre & Hle & Hk). exists pre, resto.
        rewrite IH. auto.
    + apply IH.
    + apply IH.
Qed.

Lemma coincide_acepta linea :
  is_Some (coincide linea) <-> acepta LINEA_ITEM_REGEX 0%nat linea.
Proof.
  rewrite <- (casa_acepta LINEA_ITEM_REGEX 0%nat linea sin_marcas).
  unfold coincide.
  destruct (casa LINEA_ITEM_REGEX 0%nat linea sin_marcas) as [m|];
    [split; intros _; eauto | split; intros [? [=]]].
Qed.

Lemma startswith_spec p : forall s,
  startswith s p = true <-> exists resto, s = p ++ resto.
Proof.
  induction p as [|x p' IH]; intros s; simpl.
  - split; intros _; [exists s; reflexivity|]. destruct s; reflexivity.
  - destruct s as [|y s']; simpl.
    + split; [discriminate|]. intros [? [=]].
    + rewrite andb_true_iff, N.eqb_eq, IH. split.
      * intros [-> [r ->]]. eauto.
      * intros [r [= -> ->]]. eauto.
Qed.

Lemma contiene_spec c s : contiene c s = true <-> In c s.
Proof.
  unfold contiene. rewrite existsb_exists. split.
  - intros (x & Hx & E). apply N.eqb_eq in E. congruence.
  - intros H. exists c. split; [exact H|apply N.eqb_refl].
Qed.

Lemma prefijo_spec linea :
  existsb (startswith (upper (strip linea))) LINEA_NO_ITEM_PREFIXES = true
  <-> empieza_con_prefijo linea.
Proof.
  rewrite existsb_exists. unfold empieza_con_prefijo. split.
  - intros (p & Hp & E). apply startswith_spec in E as [r E]. eauto.
  - intros (p & r & Hp & E). exists p. split; [exact Hp|].
    apply startswith_spec. eauto.
Qed.

Lemma es_linea_item_spec linea :
  es_linea_item linea = true
  <-> In 36 linea /\ ~ empieza_con_prefijo linea
      /\ acepta LINEA_ITEM_REGEX 0%nat linea.
Proof.
  unfold es_linea_item. rewrite <- coincide_acepta, <- prefijo_spec, <- contiene_spec.
  destruct (contiene 36 linea); cbn [negb]; [|intuition discriminate].
  destruct (existsb (startswith (upper (strip linea))) LINEA_NO_ITEM_PREFIXES);
    [intuition discriminate|].
  destruct (coincide linea); split.
  - intros _. repeat split; eauto; discriminate.
  - reflexivity.
  - discriminate.
  - intros (_ & _ & [? [=]]).
Qed.

Lemma agrega_lineas lineas : forall items,
  fold_left agrega_linea lineas items
  = items ++ flat_map items_de_linea lineas.
Proof.
  induction lineas as [|l ls IH]; intros items; simpl.
  - rewrite app_nil_r. reflexivity.
  - rewrite IH. unfold agrega_linea, items_de_linea.
    destruct (paso_linea l); simpl; rewrite <- ?app_assoc; reflexivity.
Qed.

(** C5.  [es_linea_item] accepts a line exactly when the line contains
    the currency marker, does not start, once trimmed and upper-cased,
    with a header or footer keyword, and is accepted by the item pattern.
    A line without the currency marker, or with such a keyword in front,
    is skipped by the line loop and leaves no record, whatever else it
    contains. *)
Theorem clasificador_correcto (linea : texto) :
  (es_linea_item linea = true
   <-> In 36 linea /\ ~ empieza_con_prefijo linea
       /\ acepta LINEA_ITEM_REGEX 0%nat linea)
  /\ (~ In 36 linea \/ empieza_con_prefijo linea ->
      paso_linea linea = SaltaClasificador
      /\ forall antes despues items,
           fold_left agrega_linea (antes ++ linea :: despues) items
           = fold_left agrega_linea (antes ++ despues) items).
Proof.
  split; [apply es_linea_item_spec|].
  intros H.
  assert (es_linea_item linea = false) as E.
  { destruct (es_linea_item linea) eqn:E; [|reflexivity].
    apply es_linea_item_spec in E. tauto. }
  assert (paso_linea linea = SaltaClasificador) as Hp
    by (unfold paso_linea; rewrite E; reflexivity).
  split; [exact Hp|]. intros antes despues items.
  rewrite !agrega_lineas, !flat_map_app. simpl.
  unfold items_de_linea at 2. rewrite Hp. reflexivity.
Qed.

(** C9.  On a line that [es_linea_item] accepts, matching the pattern
    again gives a match: the loop body never takes the [continue] that
    follows a failed match, it either drops the line for its numbers or
    appends an item. *)
Theorem coincidencia_tras_clasificador (linea : texto)
    (H : es_linea_item linea = true) :
  (exists co, coincide linea = Some co)
  /\ (paso_linea linea = SaltaNumerico
      \/ exists it, paso_linea linea = Agrega it).
Proof.
  assert (exists co, coincide linea = Some co) as [co Hco].
  { unfold es_linea_item in H.
    destruct (negb (contiene 36 linea)); [discriminate|].
    destruct (existsb (startswith (upper (strip linea))) LINEA_NO_ITEM_PREFIXES);
      [discriminate|].
    destruct (coincide linea) as [co|]; [eauto|discriminate]. }
  split; [eauto|]. unfold paso_linea. rewrite H, Hco. simpl.
  destruct (parse_entero (group co g_p_unit)),
           (parse_entero (group co g_cant)),
           (parse_entero (group co g_total)); eauto.
Qed.

(** C3.  When a line passes the classifier and matches the pattern, and
    [parse_entero] returns [None] on the unit price, the quantity or the
    line total that were captured, the line is dropped whole: it adds no
    item, and the items of a page are those of the page without that
    line. *)
Theorem linea_sin_numeros_descartada
    (linea prod p_unit cant total : texto)
    (Hitem : es_linea_item linea = true)
    (Hgrupos : grupos linea = Some (prod, p_unit, cant, total))
    (Hnum : parse_entero p_unit = None
            \/ parse_entero cant = None
            \/ parse_entero total = None) :
  paso_linea linea = SaltaNumerico
  /\ items_de_linea linea = []
  /\ forall antes despues items,
       fold_left agrega_linea (antes ++ linea :: despues) items
       = fold_left agrega_linea (antes ++ despues) items.
Proof.
  unfold grupos in Hgrupos.
  destruct (coincide linea) as [co|] eqn:Hco; [|discriminate].
  injection Hgrupos as <- <- <- <-.
  assert (paso_linea linea = SaltaNumerico) as Hp.
  { unfold paso_linea. rewrite Hitem, Hco. simpl.
    destruct (parse_entero (group co g_p_unit)),
             (parse_entero (group co g_cant)),
             (parse_entero (group co g_total));
      try reflexivity.
    destruct Hnum as [[=]|[[=]|[=]]]. }
  assert (items_de_linea linea = []) as Hi
    by (unfold items_de_linea; rewrite Hp; reflexivity).
  repeat split; auto. intros antes despues items.
  rewrite !agrega_lineas, !flat_map_app. simpl. rewrite Hi. reflexivity.
Qed.

(** ** The extractor and the item loop *)

Lemma recorre_paginas_spec paginas : forall items,
  recorre_paginas paginas items
  = (items ++ flat_map items_de_linea
                (flat_map lineas_de_pagina (paginas_leidas paginas)),
     falla_paginas paginas).
Proof.
  induction paginas as [|[s|exc] resto IH]; intros items.
  - simpl. rewrite app_nil_r. reflexivity.
  - cbn [recorre_paginas paginas_leidas falla_paginas flat_map].
    rewrite IH, agrega_lineas, flat_map_app, app_assoc. reflexivity.
  - simpl. rewrite app_nil_r. reflexivity.
Qed.

Lemma extraer_spec abrir ruta :
  extraer_items_desde_pdf abrir ruta
  = (flat_map items_de_linea (lineas_leidas (abrir ruta)),
     match falla_de (abrir ruta) with
     | Some exc => [ImprimeNoSePudo ruta exc]
     | None => []
     end).
Proof.
  unfold extraer_items_desde_pdf, lineas_leidas, falla_de.
  destruct (abrir ruta) as [exc|paginas]; [reflexivity|].
  rewrite recorre_paginas_spec. simpl.
  destruct (falla_paginas paginas); reflexivity.
Qed.

(** C2, as amended.  When opening or reading the document fails,
    [extraer_items_desde_pdf] prints the failure (the path and the
    message) and returns the items of the lines read before the failure;
    when opening fails it returns no item. *)
Theorem extraer_con_falla (abrir : texto -> documento) (ruta exc : texto)
    (H : falla_de (abrir ruta) = Some exc) :
  extraer_items_desde_pdf abrir ruta
  = (flat_map items_de_linea (lineas_leidas (abrir ruta)),
     [ImprimeNoSePudo ruta exc])
  /\ (abrir ruta = NoAbre exc ->
      extraer_items_desde_pdf abrir ruta = ([], [ImprimeNoSePudo ruta exc])).
Proof.
  split.
  - rewrite extraer_spec, H. reflexivity.
  - intros E. unfold extraer_items_desde_pdf. rewrite E. reflexivity.
Qed.

(** C2, as stated, fails: a document whose second page cannot be read
    returns the item of its first page. *)
Lemma extraer_con_falla_no_vacio :
  ~ (forall (abrir : texto -> documento) (ruta : texto),
       is_Some (falla_de (abrir ruta)) ->
       fst (extraer_items_desde_pdf abrir ruta) = []).
Proof.
  intros H. specialize (H abrir_a_medias (t "data/r1.pdf")).
  assert (is_Some (falla_de (abrir_a_medias (t "data/r1.pdf")))) as F
    by (eexists; reflexivity).
  specialize (H F). vm_compute in H. discriminate.
Qed.

Lemma procesa_item_spec nombre st loc it :
  let r := procesa_item nombre (st, loc) it in
  resumen_remisiones (fst r) = resumen_remisiones st
  /\ detalle_items (fst r) = detalle_items st ++ [fila_de_item nombre it]
  /\ productos_desconocidos (fst r)
     = productos_desconocidos st ∪ list_to_set (nombres_sin_costo [it])
  /\ total_ventas_remision (snd r)
     = (total_ventas_remision loc + Total_Venta_Item it)%Z
  /\ total_ganancias_remision (snd r)
     = (total_ganancias_remision loc + suma (omap ganancia_de [it]))%Z
  /\ productos_en_remision (snd r)
     = productos_en_remision loc
       ∪ {[ normalizar_texto_producto (Producto it) ]}.
Proof.
  unfold procesa_item, fila_de_item, ganancia_de, nombres_sin_costo, sin_costo,
    costo_de.
  cbn [fst snd resumen_remisiones detalle_items productos_desconocidos
       total_ventas_remision total_ganancias_remision productos_en_remision
       omap list_omap List.filter].
  destruct (COSTOS !! normalizar_texto_producto (Producto it)) as [c|];
    cbn [suma fold_right List.map list_to_set];
    rewrite ?(right_id_L ∅ (∪)), ?Z.add_0_r;
    repeat split; try reflexivity; apply (comm_L (∪)).
Qed.

Lemma suma_app xs ys : suma (xs ++ ys) = (suma xs + suma ys)%Z.
Proof.
  unfold suma. induction xs as [|x xs IH]; simpl; [reflexivity|].
  rewrite IH. lia.
Qed.

Lemma nombres_sin_costo_cons it resto :
  nombres_sin_costo (it :: resto)
  = nombres_sin_costo [it] ++ nombres_sin_costo resto.
Proof.
  unfold nombres_sin_costo. cbn [List.filter].
  destruct (sin_costo it); reflexivity.
Qed.

Lemma ganancias_cons it resto :
  omap ganancia_de (it :: resto) = omap ganancia_de [it] ++ omap ganancia_de resto.
Proof.
  cbn [omap list_omap]. destruct (ganancia_de it); reflexivity.
Qed.

Lemma procesa_items_spec nombre items : forall st loc,
  let r := fold_left (procesa_item nombre) items (st, loc) in
  resumen_remisiones (fst r) = resumen_remisiones st
  /\ detalle_items (fst r)
     = detalle_items st ++ List.map (fila_de_item nombre) items
  /\ productos_desconocidos (fst r)
     = productos_desconocidos st ∪ list_to_set (nombres_sin_costo items)
  /\ total_ventas_remision (snd r)
     = (total_ventas_remision loc + suma (List.map Total_Venta_Item items))%Z
  /\ total_ganancias_remision (snd r)
     = (total_ganancias_remision loc + suma (omap ganancia_de items))%Z
  /\ productos_en_remision (snd r)
     = productos_en_remision loc
       ∪ list_to_set
           (List.map (fun it => normalizar_texto_producto (Producto it)) items).
Proof.
  induction items as [|it resto IH]; intros st loc.
  - cbn [fold_left fst snd List.map]. unfold nombres_sin_costo.
    cbn [List.filter List.map omap list_omap suma fold_right list_to_set].
    rewrite app_nil_r, !Z.add_0_r, !(right_id_L ∅ (∪)). auto 10.
  - cbn [fold_left].
    pose proof (procesa_item_spec nombre st loc it) as S1.
    destruct (procesa_item nombre (st, loc) it) as [st1 loc1].
    cbn [fst snd] in S1. destruct S1 as (A1 & A2 & A3 & A4 & A5 & A6).
    specialize (IH st1 loc1). cbn zeta in IH.
    destruct IH as (B1 & B2 & B3 & B4 & B5 & B6).
    cbn zeta. rewrite B1, B2, B3, B4, B5, B6, A1, A2, A3, A4, A5, A6.
    rewrite (nombres_sin_costo_cons it resto), (ganancias_cons it resto).
    rewrite list_to_set_app_L, suma_app.
    change (List.map Total_Venta_Item (it :: resto))
      with ([Total_Venta_Item it] ++ List.map Total_Venta_Item resto).
    rewrite suma_app.
    change (suma [Total_Venta_Item it]) with (Total_Venta_Item it + 0)%Z.
    cbn [List.map list_to_set].
    split; [reflexivity|].
    split; [rewrite <- app_assoc; reflexivity|].
    split; [rewrite (assoc_L (∪)); reflexivity|].
    split; [lia|].
    split; [lia|].
    rewrite (assoc_L (∪)). reflexivity.
Qed.

(** ** One document *)

Lemma ganancias_conocidas items :
  suma (omap ganancia_de items)
  = suma (List.map ganancia_conocida
            (List.filter (fun it => negb (sin_costo it)) items)).
Proof.
  induction items as [|it resto IH]; [reflexivity|].
  rewrite ganancias_cons, suma_app, IH. cbn [List.filter omap list_omap].
  unfold ganancia_de, ganancia_conocida, sin_costo.
  destruct (costo_de it) as [c|] eqn:E; cbn [negb List.map app suma fold_right].
  - rewrite E. unfold suma. lia.
  - reflexivity.
Qed.

Section Carpeta.

(** The world of a run: what reading each path does, and the folder. *)
Variable abrir : texto -> documento.
Variable carpeta_data : texto.

(** The state after a listed file, whatever was printed before. *)
Lemma procesa_archivo_spec st ef nombre_archivo :
  procesa_archivo abrir carpeta_data (st, ef) nombre_archivo
  = if es_pdf nombre_archivo then
      let x := extraer_items_desde_pdf abrir
                 (path_join carpeta_data nombre_archivo) in
      let ef' := (ef ++ [ImprimeProcesando (splitext_raiz nombre_archivo)])
                 ++ snd x in
      match fst x with
      | [] => (st, ef' ++ [ImprimeSinItems nombre_archivo])
      | items =>
          ({| resumen_remisiones :=
                resumen_remisiones st ++ [fila_de_remision nombre_archivo items];
              detalle_items :=
                detalle_items st
                ++ List.map (fila_de_item (splitext_raiz nombre_archivo)) items;
              productos_desconocidos :=
                productos_desconocidos st
                ∪ list_to_set (nombres_sin_costo items) |},
           ef' ++ [imprime_totales (suma (List.map Total_Venta_Item items))
                                   (suma (omap ganancia_de items))])
      end
    else (st, ef).
Proof.
  unfold procesa_archivo. destruct (es_pdf nombre_archivo); [|reflexivity].
  cbn [negb].
  destruct (extraer_items_desde_pdf abrir (path_join carpeta_data nombre_archivo))
    as [items impresos].
  cbn [fst snd]. destruct items as [|it resto]; [reflexivity|].
  pose proof (procesa_items_spec (splitext_raiz nombre_archivo) (it :: resto)
                st locales_iniciales) as S.
  cbn zeta in S.
  destruct (fold_left (procesa_item (splitext_raiz nombre_archivo)) (it :: resto)
              (st, locales_iniciales)) as [st' loc].
  cbn [fst snd] in S. destruct S as (A1 & A2 & A3 & A4 & A5 & A6).
  unfold locales_iniciales in A4, A5, A6.
  cbn [total_ventas_remision total_ganancias_remision productos_en_remision]
    in A4, A5, A6.
  rewrite Z.add_0_l in A4, A5. rewrite (left_id_L ∅ (∪)) in A6.
  unfold fila_de_remision. rewrite A1, A2, A3, A4, A5, A6. reflexivity.
Qed.

(** The state after the loop does not depend on what had been printed. *)
Lemma bucle_estado nombres : forall st ef ef',
  fst (fold_left (procesa_archivo abrir carpeta_data) nombres (st, ef))
  = fst (fold_left (procesa_archivo abrir carpeta_data) nombres (st, ef')).
Proof.
  induction nombres as [|n resto IH]; intros st ef ef'; [reflexivity|].
  cbn [fold_left]. rewrite !procesa_archivo_spec.
  destruct (es_pdf n); [|apply IH]. cbn zeta.
  destruct (fst (extraer_items_desde_pdf abrir (path_join carpeta_data n)));
    apply IH.
Qed.

Lemma bucle_sin_items nombres : forall st ef,
  forallb (sin_items abrir carpeta_data) nombres = true ->
  fst (fold_left (procesa_archivo abrir carpeta_data) nombres (st, ef)) = st.
Proof.
  induction nombres as [|n resto IH]; intros st ef H; [reflexivity|].
  cbn [forallb] in H. apply andb_true_iff in H as [Hn Hr].
  cbn [fold_left]. rewrite procesa_archivo_spec. unfold sin_items in Hn.
  destruct (es_pdf n); [|apply IH, Hr]. cbn [negb orb] in Hn. cbn zeta.
  destruct (fst (extraer_items_desde_pdf abrir (path_join carpeta_data n)));
    [apply IH, Hr|discriminate].
Qed.

Lemma extraer_no_escribe ruta :
  existsb es_escritura (snd (extraer_items_desde_pdf abrir ruta)) = false.
Proof.
  rewrite extraer_spec. cbn [snd]. destruct (falla_de (abrir ruta)); reflexivity.
Qed.

Lemma imprime_totales_no_escribe ventas ganancias :
  es_escritura (imprime_totales ventas ganancias) = false.
Proof.
  unfold imprime_totales.
  destruct (excede_digitos ventas || excede_digitos ganancias); reflexivity.
Qed.

Lemma bucle_no_escribe nombres : forall st ef,
  existsb es_escritura ef = false ->
  existsb es_escritura
    (snd (fold_left (procesa_archivo abrir carpeta_data) nombres (st, ef)))
  = false.
Proof.
  induction nombres as [|n resto IH]; intros st ef H; [exact H|].
  cbn [fold_left]. rewrite procesa_archivo_spec.
  destruct (es_pdf n); [|apply IH, H]. cbn zeta.
  destruct (fst (extraer_items_desde_pdf abrir (path_join carpeta_data n)));
    apply IH; rewrite !existsb_app, H, extraer_no_escribe; cbn [existsb];
    rewrite ?imprime_totales_no_escribe; reflexivity.
Qed.

(** *** The exception that ends a run *)

Lemma extraer_no_lanza ruta :
  interrumpida (snd (extraer_items_desde_pdf abrir ruta)) = false.
Proof.
  rewrite extraer_spec. cbn [snd]. destruct (falla_de (abrir ruta)); reflexivity.
Qed.

Lemma imprime_totales_lanza ventas ganancias :
  es_excepcion (imprime_totales ventas ganancias)
  = excede_digitos ventas || excede_digitos ganancias.
Proof.
  unfold imprime_totales.
  destruct (excede_digitos ventas || excede_digitos ganancias); reflexivity.
Qed.

(** The body raises exactly at a document whose totals cannot be
    printed. *)
Lemma procesa_archivo_lanza st ef nombre_archivo :
  interrumpida ef = false ->
  interrumpida (snd (procesa_archivo abrir carpeta_data (st, ef) nombre_archivo))
  = falla_al_imprimir abrir carpeta_data nombre_archivo.
Proof.
  intros H. rewrite procesa_archivo_spec.
  unfold falla_al_imprimir, fila_de_archivo, items_de_archivo, interrumpida.
  destruct (es_pdf nombre_archivo); [|exact H]. cbv zeta.
  destruct (fst (extraer_items_desde_pdf abrir
                   (path_join carpeta_data nombre_archivo))) as [|it resto];
    cbn [snd]; rewrite !existsb_app; fold (interrumpida ef);
    fold (interrumpida (snd (extraer_items_desde_pdf abrir
                               (path_join carpeta_data nombre_archivo))));
    rewrite H, extraer_no_lanza; cbn [existsb es_excepcion orb];
    [reflexivity|].
  rewrite imprime_totales_lanza, orb_false_r. reflexivity.
Qed.

(** The loop runs the body for the listed files up to the first one at
    which it raises. *)
Lemma recorre_hasta_la_falla nombres : forall st ef,
  interrumpida ef = false ->
  recorre_archivos abrir carpeta_data nombres (st, ef)
  = fold_left (procesa_archivo abrir carpeta_data)
      (hasta_la_falla abrir carpeta_data nombres) (st, ef).
Proof.
  induction nombres as [|n resto IH]; intros st ef H; [reflexivity|].
  cbn [recorre_archivos hasta_la_falla].
  pose proof (procesa_archivo_lanza st ef n H) as L.
  destruct (procesa_archivo abrir carpeta_data (st, ef) n) as [st1 ef1] eqn:E.
  cbv zeta. cbn [snd] in L |- *. rewrite L.
  destruct (falla_al_imprimir abrir carpeta_data n).
  - cbn [fold_left]. rewrite E. reflexivity.
  - cbn [fold_left]. rewrite E. apply IH, L.
Qed.

Lemma interrumpida_tras_el_bucle nombres : forall st ef,
  interrumpida ef = false ->
  interrumpida (snd (recorre_archivos abrir carpeta_data nombres (st, ef)))
  = existsb (falla_al_imprimir abrir carpeta_data) nombres.
Proof.
  induction nombres as [|n resto IH]; intros st ef H; [exact H|].
  cbn [recorre_archivos existsb].
  pose proof (procesa_archivo_lanza st ef n H) as L.
  destruct (procesa_archivo abrir carpeta_data (st, ef) n) as [st1 ef1].
  cbv zeta. cbn [snd] in L |- *. rewrite L.
  destruct (falla_al_imprimir abrir carpeta_data n) eqn:F.
  - cbn [snd orb]. rewrite L. reflexivity.
  - cbn [orb]. apply IH, L.
Qed.

Lemma hasta_la_falla_todos nombres :
  existsb (falla_al_imprimir abrir carpeta_data) nombres = false ->
  hasta_la_falla abrir carpeta_data nombres = nombres.
Proof.
  induction nombres as [|n resto IH]; [reflexivity|].
  cbn [existsb hasta_la_falla]. intros H.
  apply orb_false_iff in H as [-> H]. rewrite (IH H). reflexivity.
Qed.

(** When no listed document raises, the loop is the plain iteration of
    the body and ends without an exception. *)
Lemma recorre_sin_falla nombres st ef :
  existsb (falla_al_imprimir abrir carpeta_data) nombres = false ->
  interrumpida ef = false ->
  recorre_archivos abrir carpeta_data nombres (st, ef)
  = fold_left (procesa_archivo abrir carpeta_data) nombres (st, ef)
  /\ interrumpida
       (snd (fold_left (procesa_archivo abrir carpeta_data) nombres (st, ef)))
     = false.
Proof.
  intros F H.
  pose proof (recorre_hasta_la_falla nombres st ef H) as R.
  pose proof (interrumpida_tras_el_bucle nombres st ef H) as I.
  rewrite (hasta_la_falla_todos nombres F) in R. rewrite R in I.
  rewrite F in I. auto.
Qed.

Lemma sin_items_no_falla nombre_archivo :
  sin_items abrir carpeta_data nombre_archivo = true ->
  falla_al_imprimir abrir carpeta_data nombre_archivo = false.
Proof.
  unfold sin_items, falla_al_imprimir, fila_de_archivo, items_de_archivo.
  destruct (es_pdf nombre_archivo); [|reflexivity]. cbn [negb orb].
  destruct (fst (extraer_items_desde_pdf abrir
                   (path_join carpeta_data nombre_archivo)));
    [reflexivity|discriminate].
Qed.

Lemma nadie_falla (f : texto -> bool) nombres :
  forallb f nombres = true ->
  (forall n, f n = true -> falla_al_imprimir abrir carpeta_data n = false) ->
  existsb (falla_al_imprimir abrir carpeta_data) nombres = false.
Proof.
  intros H Hf. induction nombres as [|n resto IH]; [reflexivity|].
  cbn [forallb] in H. apply andb_true_iff in H as [Hn Hr].
  cbn [existsb]. rewrite (Hf n Hn), (IH Hr). reflexivity.
Qed.

End Carpeta.

(** C1.  A document with at least one item adds one summary row: its
    sales total is the sum of the line totals of all its items, and its
    profit total is the sum of (unit price - unit cost) * quantity over
    exactly the items whose normalized name has a cost.  The normalized
    names of the items without a cost are added to the unknown products. *)
Theorem totales_de_remision (abrir : texto -> documento)
    (carpeta_data nombre_archivo : texto) (st : estado) (ef : list efecto)
    (it : item) (resto : list item) (impresos : list efecto)
    (Hpdf : es_pdf nombre_archivo = true)
    (Hitems : extraer_items_desde_pdf abrir
                (path_join carpeta_data nombre_archivo)
              = (it :: resto, impresos)) :
  let items := it :: resto in
  let st' := fst (procesa_archivo abrir carpeta_data (st, ef) nombre_archivo) in
  resumen_remisiones st'
  = resumen_remisiones st
    ++ [ {| r_Remision := splitext_raiz nombre_archivo;
            r_Total_Ventas_COP := suma (List.map Total_Venta_Item items);
            r_Total_Ganancias_COP := suma (omap ganancia_de items);
            r_Detalle_de_Items :=
              r_Detalle_de_Items (fila_de_remision nombre_archivo items) |} ]
  /\ productos_desconocidos st'
     = productos_desconocidos st ∪ list_to_set (nombres_sin_costo items)
  /\ (forall x, In x items -> costo_de x = None ->
        normalizar_texto_producto (Producto x) ∈ productos_desconocidos st')
  /\ suma (omap ganancia_de items)
     = suma (List.map ganancia_conocida
               (List.filter (fun x => negb (sin_costo x)) items)).
Proof.
  intros items st'. subst st'.
  rewrite procesa_archivo_spec, Hpdf, Hitems. cbn [fst snd].
  cbn [resumen_remisiones productos_desconocidos].
  split; [reflexivity|]. split; [reflexivity|]. split.
  - intros x Hx Hc. apply elem_of_union_r, elem_of_list_to_set.
    apply list_elem_of_In. unfold nombres_sin_costo.
    apply (in_map (fun it => normalizar_texto_producto (Producto it))).
    apply filter_In. split; [exact Hx|].
    unfold sin_costo. rewrite Hc. reflexivity.
  - apply ganancias_conocidas.
Qed.

(** C6.  A document that yields no item leaves the summary rows, the
    detail rows and the unknown products as they were; it only prints, and
    the loop goes on with the remaining files from the same state: the
    iteration of the body does, and so does the loop of the run, which
    such a document never ends. *)
Theorem remision_sin_items_omitida (abrir : texto -> documento)
    (carpeta_data nombre_archivo : texto) (st : estado) (ef : list efecto)
    (impresos : list efecto)
    (Hpdf : es_pdf nombre_archivo = true)
    (Hitems : extraer_items_desde_pdf abrir
                (path_join carpeta_data nombre_archivo)
              = ([], impresos)) :
  procesa_archivo abrir carpeta_data (st, ef) nombre_archivo
  = (st, ef ++ [ImprimeProcesando (splitext_raiz nombre_archivo)] ++ impresos
            ++ [ImprimeSinItems nombre_archivo])
  /\ (forall restantes,
       fst (fold_left (procesa_archivo abrir carpeta_data)
              (nombre_archivo :: restantes) (st, ef))
       = fst (fold_left (procesa_archivo abrir carpeta_data) restantes (st, ef)))
  /\ (interrumpida ef = false ->
      forall restantes,
        recorre_archivos abrir carpeta_data (nombre_archivo :: restantes)
          (st, ef)
        = recorre_archivos abrir carpeta_data restantes
            (st, ef ++ [ImprimeProcesando (splitext_raiz nombre_archivo)]
                    ++ impresos ++ [ImprimeSinItems nombre_archivo])).
Proof.
  assert (procesa_archivo abrir carpeta_data (st, ef) nombre_archivo
          = (st, ef ++ [ImprimeProcesando (splitext_raiz nombre_archivo)]
                    ++ impresos ++ [ImprimeSinItems nombre_archivo])) as E.
  { rewrite procesa_archivo_spec, Hpdf, Hitems. cbn [fst snd].
    rewrite <- !app_assoc. reflexivity. }
  split; [exact E|]. split.
  - intros restantes. cbn [fold_left]. rewrite E. apply bucle_estado.
  - intros Hef restantes. cbn [recorre_archivos].
    pose proof (procesa_archivo_lanza abrir carpeta_data st ef nombre_archivo
                  Hef) as L.
    rewrite E in L |- *. cbv zeta. cbn [snd] in L |- *. rewrite L.
    unfold falla_al_imprimir, fila_de_archivo, items_de_archivo.
    rewrite Hpdf, Hitems. reflexivity.
Qed.

(** ** The whole run *)

Lemma forallb_sorted (f : texto -> bool) nombres :
  forallb f nombres = true -> forallb f (sorted nombres) = true.
Proof.
  rewrite !forallb_forall. intros H x Hx. apply H.
  apply list_elem_of_In. apply list_elem_of_In in Hx.
  unfold sorted in Hx. rewrite merge_sort_Permutation in Hx. exact Hx.
Qed.

(** C7.  When no listed file is a document that yields an item, there is
    no summary row: the run ends by printing that nothing was processed,
    and it writes no workbook. *)
Theorem nada_procesado (listdir : texto -> list texto)
    (abrir : texto -> documento)
    (carpeta_data carpeta_output nombre_archivo_excel : texto)
    (H : forallb (sin_items abrir carpeta_data) (listdir carpeta_data) = true) :
  let efectos :=
    procesar_remisiones listdir abrir carpeta_data carpeta_output
      nombre_archivo_excel in
  resumen_remisiones
    (fst (recorre_carpeta listdir abrir carpeta_data
            (estado_inicial, [Makedirs carpeta_output]))) = []
  /\ (exists previos, efectos = previos ++ [ImprimeNoSeProcesaron])
  /\ existsb es_escritura efectos = false.
Proof.
  intros efectos. subst efectos. unfold procesar_remisiones, recorre_carpeta.
  assert (existsb (falla_al_imprimir abrir carpeta_data)
            (sorted (listdir carpeta_data)) = false) as F.
  { apply (nadie_falla abrir carpeta_data (sin_items abrir carpeta_data));
      [apply forallb_sorted, H|apply sin_items_no_falla]. }
  destruct (recorre_sin_falla abrir carpeta_data (sorted (listdir carpeta_data))
              estado_inicial [Makedirs carpeta_output] F eq_refl) as [R I].
  rewrite R.
  pose proof (bucle_sin_items abrir carpeta_data (sorted (listdir carpeta_data))
                estado_inicial [Makedirs carpeta_output]
                (forallb_sorted _ _ H)) as E.
  pose proof (bucle_no_escribe abrir carpeta_data (sorted (listdir carpeta_data))
                estado_inicial [Makedirs carpeta_output] eq_refl) as N.
  destruct (fold_left (procesa_archivo abrir carpeta_data)
              (sorted (listdir carpeta_data))
              (estado_inicial, [Makedirs carpeta_output])) as [st ef].
  cbn [fst snd] in *. subst st. rewrite I. split; [reflexivity|].
  unfold cierra_reporte. cbn [resumen_remisiones estado_inicial].
  split; [eauto|]. rewrite existsb_app, N. reflexivity.
Qed.





(** C8, at a failing input.  Two documents whose sales totals are 2^62
    each: the TOTAL row comes last and counts two documents, but its sales
    total is -2^63, not the sum 2^63 of the two rows, because the column
    is summed in 64 bits. *)
Theorem total_desbordado :
  resumen_escrito
    (procesar_remisiones listdir_grande abrir_grande (t "data") (t "output")
       (t "resumen_remisiones.xlsx"))
  = Some
      [ {| r_Remision := t "a";
           r_Total_Ventas_COP := 4611686018427387904;
           r_Total_Ganancias_COP := 4500;
           r_Detalle_de_Items := t "PRIV BAR" |};
        {| r_Remision := t "b";
           r_Total_Ventas_COP := 4611686018427387904;
           r_Total_Ganancias_COP := 4500;
           r_Detalle_de_Items := t "PRIV BAR" |};
        {| r_Remision := t "TOTAL (2 remisiones)";
           r_Total_Ventas_COP := -9223372036854775808;
           r_Total_Ganancias_COP := 9000;
           r_Detalle_de_Items := t "2 remisiones" |} ].
Proof. calcula. Qed.

Lemma normalizar_en_conjunto (X : gset texto) (nombres : list texto) :
  (forall x, x ∈ X -> normalizar_texto_producto x = x) ->
  forall x, x ∈ X ∪ list_to_set (List.map normalizar_texto_producto nombres) ->
            normalizar_texto_producto x = x.
Proof.
  intros HX x Hx. apply elem_of_union in Hx as [Hx|Hx]; [auto|].
  apply elem_of_list_to_set, list_elem_of_In, in_map_iff in Hx
    as (y & <- & _).
  apply normalizar_idem.
Qed.

(** C10.  [normalizar_texto_producto] is idempotent; hence every name
    looked up in the cost table, put in the unknown products or in the
    products of a document is its own normal form. *)
Theorem normalizar_idempotente (s : texto) :
  normalizar_texto_producto (normalizar_texto_producto s)
  = normalizar_texto_producto s
  /\ forall nombre_remision items x,
       let r := fold_left (procesa_item nombre_remision) items
                  (estado_inicial, locales_iniciales) in
       x ∈ productos_desconocidos (fst r) \/ x ∈ productos_en_remision (snd r) ->
       normalizar_texto_producto x = x.
Proof.
  split; [apply normalizar_idem|].
  intros nombre items x r Hx. subst r.
  pose proof (procesa_items_spec nombre items estado_inicial locales_iniciales)
    as S.
  cbn zeta in S. destruct S as (_ & _ & A3 & _ & _ & A6).
  rewrite A3, A6 in Hx. unfold nombres_sin_costo in Hx.
  rewrite <- (map_map Producto normalizar_texto_producto) in Hx.
  rewrite <- (map_map Producto normalizar_texto_producto items) in Hx.
  destruct Hx as [Hx|Hx];
    (eapply normalizar_en_conjunto; [|exact Hx]);
    cbn; intros y Hy; apply not_elem_of_empty in Hy; contradiction.
Qed.

(** ** Instances of the properties on the sample worlds *)

Lemma linea_sin_numeros_descartada_witness :
  es_linea_item linea_sin_precio = true
  /\ grupos linea_sin_precio = Some (t "X", t ",", t "1", t "5")
  /\ parse_entero (t ",") = None
  /\ paso_linea linea_sin_precio = SaltaNumerico.
Proof.
  assert (es_linea_item linea_sin_precio = true) as H1
    by calcula.
  assert (grupos linea_sin_precio = Some (t "X", t ",", t "1", t "5")) as H2
    by calcula.
  assert (parse_entero (t ",") = None) as H3 by calcula.
  split; [exact H1|]. split; [exact H2|]. split; [exact H3|].
  exact (proj1 (linea_sin_numeros_descartada linea_sin_precio (t "X") (t ",")
                  (t "1") (t "5") H1 H2 (or_introl H3))).
Defined.

Lemma coincidencia_tras_clasificador_witness :
  es_linea_item (t "PRIV BAR $18.000 2 0% $36.000") = true
  /\ exists co, coincide (t "PRIV BAR $18.000 2 0% $36.000") = Some co.
Proof.
  assert (es_linea_item (t "PRIV BAR $18.000 2 0% $36.000") = true) as H
    by calcula.
  split; [exact H|].
  apply (coincidencia_tras_clasificador _ H).
Defined.

Lemma extraer_con_falla_witness :
  falla_de (abrir_a_medias (t "data/r1.pdf")) = Some (t "pagina ilegible")
  /\ extraer_items_desde_pdf abrir_a_medias (t "data/r1.pdf")
     = (flat_map items_de_linea (lineas_leidas (abrir_a_medias (t "data/r1.pdf"))),
        [ImprimeNoSePudo (t "data/r1.pdf") (t "pagina ilegible")]).
Proof.
  assert (falla_de (abrir_a_medias (t "data/r1.pdf"))
          = Some (t "pagina ilegible")) as H by reflexivity.
  split; [exact H|].
  apply (extraer_con_falla abrir_a_medias (t "data/r1.pdf")
           (t "pagina ilegible") H).
Defined.

Lemma totales_de_remision_witness :
  es_pdf (t "r1.PDF") = true
  /\ resumen_remisiones
       (fst (procesa_archivo abrir_ej (t "data") (estado_inicial, [])
               (t "r1.PDF")))
     = [ {| r_Remision := t "r1";
            r_Total_Ventas_COP := 41000;
            r_Total_Ganancias_COP := 9000;
            r_Detalle_de_Items := t "FOO + PRIV BAR" |} ].
Proof.
  assert (es_pdf (t "r1.PDF") = true) as H1 by calcula.
  assert (extraer_items_desde_pdf abrir_ej (path_join (t "data") (t "r1.PDF"))
          = ({| Producto := t "PRIV BAR"; Precio_Venta_Unitario := 18000;
                Cantidad := 2; Total_Venta_Item := 36000 |}
             :: [ {| Producto := t "FOO"; Precio_Venta_Unitario := 5000;
                     Cantidad := 1; Total_Venta_Item := 5000 |} ], []))
    as H2 by calcula.
  split; [exact H1|].
  rewrite (proj1 (totales_de_remision abrir_ej (t "data") (t "r1.PDF")
                    estado_inicial [] _ _ _ H1 H2)).
  vm_compute. reflexivity.
Defined.

Lemma remision_sin_items_omitida_witness :
  es_pdf (t "r3.pdf") = true
  /\ procesa_archivo abrir_ej (t "data") (estado_inicial, []) (t "r3.pdf")
     = (estado_inicial,
        [ ImprimeProcesando (t "r3");
          ImprimeNoSePudo (t "data/r3.pdf") (t "no es un PDF");
          ImprimeSinItems (t "r3.pdf") ]).
Proof.
  assert (es_pdf (t "r3.pdf") = true) as H1 by calcula.
  assert (extraer_items_desde_pdf abrir_ej (path_join (t "data") (t "r3.pdf"))
          = ([], [ImprimeNoSePudo (t "data/r3.pdf") (t "no es un PDF")]))
    as H2 by calcula.
  split; [exact H1|].
  rewrite (proj1 (remision_sin_items_omitida abrir_ej (t "data") (t "r3.pdf")
                    estado_inicial [] _ H1 H2)).
  vm_compute. reflexivity.
Defined.

Lemma nada_procesado_witness :
  forallb (sin_items abrir_ej (t "data")) (listdir_vacio (t "data")) = true
  /\ existsb es_escritura
       (procesar_remisiones listdir_vacio abrir_ej (t "data") (t "output")
          (t "resumen_remisiones.xlsx")) = false.
Proof.
  assert (forallb (sin_items abrir_ej (t "data")) (listdir_vacio (t "data"))
          = true) as H by calcula.
  split; [exact H|].
  apply (nada_procesado listdir_vacio abrir_ej (t "data") (t "output")
           (t "resumen_remisiones.xlsx") H).
Defined.

(** * Further properties *)

(** ** The marks of a match *)

Section RepeticionResultado.

Variable clase : N -> bool.
Variable minimo : nat.
Variable codicioso : bool.
Variable k : nat -> texto -> option marcas.

Lemma repite_resultado s : forall n pos r,
  repite clase minimo codicioso k n pos s = Some r ->
  exists pre resto,
    s = pre ++ resto
    /\ List.Forall (fun x => clase x = true) pre
    /\ (minimo <= n + length pre)%nat
    /\ k (pos + length pre)%nat resto = Some r.
Proof.
  assert (forall n pos s0 r,
            (if (minimo <=? n)%nat then k pos s0 else None) = Some r ->
            exists pre resto,
              s0 = pre ++ resto
              /\ List.Forall (fun x => clase x = true) pre
              /\ (minimo <= n + length pre)%nat
              /\ k (pos + length pre)%nat resto = Some r) as Hseguir.
  { intros n pos s0 r H.
    destruct (Nat.leb_spec minimo n) as [Hle|]; [|discriminate].
    exists [], s0. simpl. rewrite !Nat.add_0_r. auto. }
  induction s as [|x s' IH]; intros n pos r H.
  - apply Hseguir. destruct codicioso; simpl in H.
    + exact H.
    + destruct (if (minimo <=? n)%nat then k pos [] else None);
        [exact H|discriminate].
  - assert ((clase x = true
             /\ repite clase minimo codicioso k (S n) (S pos) s' = Some r)
            \/ (if (minimo <=? n)%nat then k pos (x :: s') else None) = Some r)
      as [[Hx Ht]|Hs].
    { destruct codicioso; simpl in H.
      - destruct (clase x); [|right; exact H].
        destruct (repite clase minimo true k (S n) (S pos) s') as [r'|];
          [left; split; [reflexivity|exact H]|right; exact H].
      - destruct (if (minimo <=? n)%nat then k pos (x :: s') else None) as [r'|];
          [right; exact H|].
        destruct (clase x); [left; split; [reflexivity|exact H]|discriminate]. }
    + apply IH in Ht as (pre & resto & -> & Hpre & Hle & Hk).
      exists (x :: pre), resto. simpl. repeat split; auto; [lia|].
      replace (pos + S (length pre))%nat with (S pos + length pre)%nat by lia.
      exact Hk.
    + apply Hseguir, Hs.
Qed.

End RepeticionResultado.

Lemma casa_deriva p : forall pos s m m',
  casa p pos s m = Some m' -> deriva p pos s m m'.
Proof.
  induction p as [|nd p' IH]; intros pos s m m' H.
  - simpl in *. congruence.
  - destruct nd as [| |clase|clase minimo codicioso|g|g]; simpl in *.
    + destruct (Nat.eqb_spec pos 0); [auto|discriminate].
    + destruct (en_fin s) eqn:E; [|discriminate]. split; [|auto].
      destruct s as [|c [|d r]]; simpl in E; [auto| |discriminate].
      apply N.eqb_eq in E. subst c. auto.
    + assert (casa p' pos s m = Some m'
              \/ exists x s', s = x :: s' /\ clase x = true
                              /\ casa p' (S pos) s' m = Some m') as [H0|H1].
      { destruct s as [|x s']; [left; exact H|].
        destruct (clase x) eqn:Ex; [|left; exact H].
        destruct (casa p' (S pos) s' m) as [r|] eqn:E1;
          [right; exists x, s'; repeat split; congruence|left; exact H]. }
      * exists [], s. simpl. rewrite Nat.add_0_r. auto.
      * destruct H1 as (x & s' & -> & Hx & H1). exists [x], s'. simpl.
        replace (pos + 1)%nat with (S pos) by lia. eauto 10.
    + apply repite_resultado in H as (pre & resto & -> & Hpre & Hle & Hk).
      exists pre, resto. simpl in Hle. auto.
    + auto.
    + auto.
Qed.

Lemma trozo (a x r : texto) (i j : nat) :
  i = length a -> j = (length a + length x)%nat ->
  take (j - i) (drop i (a ++ x ++ r)) = x.
Proof.
  intros -> ->. rewrite drop_app_length.
  replace (length a + length x - length a)%nat with (length x) by lia.
  apply take_app_length.
Qed.

Lemma racha_de clase s :
  List.Forall (fun x => clase x = true) s -> (1 <= length s)%nat ->
  racha clase s.
Proof.
  intros H L. split; [|exact H]. destruct s; [simpl in L; lia|discriminate].
Qed.

Lemma opcional_dolar d :
  d = [] \/ (exists x, d = [x] /\ dolar x = true) -> d = [] \/ d = [36].
Proof.
  intros [->|(x & -> & Hx)]; [auto|]. apply N.eqb_eq in Hx. subst x. auto.
Qed.

Lemma capturas_con_forma linea prod p_unit cant total :
  grupos linea = Some (prod, p_unit, cant, total) ->
  forma_de_item linea prod p_unit cant total.
Proof.
  unfold grupos, coincide. intros H.
  destruct (casa LINEA_ITEM_REGEX 0%nat linea sin_marcas) as [m|] eqn:E;
    [|discriminate].
  apply casa_deriva in E. cbn [deriva LINEA_ITEM_REGEX] in E.
  destruct E as (_ & b0 & s1 & E0 & Hb0 & _
                 & prod' & s2 & -> & Hprod & Lprod
                 & b1 & s3 & -> & Hb1 & Lb1
                 & d1 & s4 & -> & Hd1
                 & pu & s5 & -> & Hpu & Lpu
                 & b2 & s6 & -> & Hb2 & Lb2
                 & ca & s7 & -> & Hca & Lca
                 & b3 & s8 & -> & Hb3 & Lb3
                 & fi & s9 & -> & Hfi & Lfi
                 & b4 & s10 & -> & Hb4 & Lb4
                 & d2 & s11 & -> & Hd2
                 & to & s12 & -> & Hto & Lto
                 & b5 & s13 & -> & Hb5 & _
                 & Hfin & ->).
  cbn in H. injection H as H1 H2 H3 H4.
  assert (prod = prod' /\ p_unit = pu /\ cant = ca /\ total = to)
    as (-> & -> & -> & ->).
  { subst linea prod p_unit cant total. repeat split.
    - apply (trozo b0); reflexivity.
    - rewrite !(app_assoc _ _ (pu ++ _)).
      apply (trozo _ pu); rewrite ?length_app; lia.
    - rewrite !(app_assoc _ _ (ca ++ _)).
      apply (trozo _ ca); rewrite ?length_app; lia.
    - rewrite !(app_assoc _ _ (to ++ _)).
      apply (trozo _ to); rewrite ?length_app; lia. }
  exists b0, b1, d1, b2, b3, fi, b4, d2, b5, s13.
  repeat (split; [first [assumption | apply racha_de; assumption
                        | apply opcional_dolar; assumption]|]).
  exact Hfin.
Qed.

(** X1.  When the pattern matches a line, the line is made of blanks, the
    product (not empty, without a newline), blanks, an optional currency
    marker, the unit price (digits, dots and commas), blanks, the quantity
    (digits), blanks, one token, blanks, an optional currency marker, the
    total (digits, dots and commas), blanks and the end of the line, and
    the four groups are these very pieces. *)
Theorem capturas_de_linea (linea prod p_unit cant total : texto)
    (H : grupos linea = Some (prod, p_unit, cant, total)) :
  forma_de_item linea prod p_unit cant total.
Proof. exact (capturas_con_forma linea prod p_unit cant total H). Qed.

(** ** More on the numeric normalizer *)

Lemma valor_desde ds : forall acc,
  fold_left (fun a c => (10 * a + valor_cifra c)%Z) ds acc
  = (acc * 10 ^ Z.of_nat (length ds) + valor_de_cifras ds)%Z.
Proof.
  unfold valor_de_cifras.
  induction ds as [|c r IH]; intros acc.
  - simpl. lia.
  - cbn [fold_left length]. rewrite IH, (IH (10 * 0 + valor_cifra c)%Z).
    rewrite Nat2Z.inj_succ, Z.pow_succ_r by lia. lia.
Qed.

Lemma valor_de_cifras_app a b :
  valor_de_cifras (a ++ b)
  = (valor_de_cifras a * 10 ^ Z.of_nat (length b) + valor_de_cifras b)%Z.
Proof.
  unfold valor_de_cifras at 1. rewrite fold_left_app.
  fold (valor_de_cifras a). apply valor_desde.
Qed.

(** X3.  [parse_entero] reads the digits of two texts put side by side
    as one number: the first value shifted by as many decimal places as
    the second text has digits, plus the second value; a text without
    digits changes nothing.  This holds as long as the two texts have at
    most 4300 digits together; beyond, there is no number. *)
Theorem parse_entero_concatena (a b : texto) :
  parse_entero (a ++ b)
  = if (length (solo_digitos a) + length (solo_digitos b)
        <=? INT_MAX_STR_DIGITS)%nat
    then match parse_entero a, parse_entero b with
         | Some x, Some y =>
             Some (x * 10 ^ Z.of_nat (length (solo_digitos b)) + y)%Z
         | Some x, None => Some x
         | None, r => r
         end
    else None.
Proof.
  assert (solo_digitos (a ++ b) = solo_digitos a ++ solo_digitos b) as Eab
    by apply List.filter_app.
  destruct (Nat.leb_spec (length (solo_digitos a) + length (solo_digitos b))
              INT_MAX_STR_DIGITS) as [L|L].
  - destruct (solo_digitos a) as [|c r] eqn:Ea.
    + rewrite (parse_entero_vacio a Ea).
      rewrite (parse_entero_valor (a ++ b)), (parse_entero_valor b), Eab.
      reflexivity.
    + assert (parse_entero a = Some (valor_de_cifras (c :: r))) as ->.
      { rewrite <- Ea. apply parse_entero_corto; rewrite Ea;
          [discriminate|lia]. }
      destruct (solo_digitos b) as [|d r'] eqn:Eb.
      * rewrite (parse_entero_vacio b Eb). rewrite app_nil_r in Eab.
        rewrite <- Eab. apply parse_entero_corto; rewrite Eab;
          [discriminate|rewrite Nat.add_0_r in L; exact L].
      * assert (parse_entero b = Some (valor_de_cifras (d :: r'))) as ->.
        { rewrite <- Eb. apply parse_entero_corto; rewrite Eb;
            [discriminate|lia]. }
        rewrite <- valor_de_cifras_app, <- Eab.
        apply parse_entero_corto; rewrite Eab;
          [discriminate|rewrite length_app; exact L].
  - apply parse_entero_largo. rewrite Eab, length_app. exact L.
Qed.

Lemma separador_no_digito c : c = 46 \/ c = 44 -> es_digito c = false.
Proof. intros [-> | ->]; reflexivity. Qed.

Lemma separadores_sin_digitos s :
  List.Forall (fun c => c = 46 \/ c = 44) s -> solo_digitos s = [].
Proof.
  unfold solo_digitos. induction 1 as [|c r Hc Hr IH]; [reflexivity|].
  cbn [List.filter]. rewrite (separador_no_digito c Hc). exact IH.
Qed.

Lemma sin_digitos_separadores s :
  List.Forall (fun x => cifra_o_separador x = true) s ->
  solo_digitos s = [] ->
  List.Forall (fun c => c = 46 \/ c = 44) s.
Proof.
  induction 1 as [|c r Hc Hr IH]; intros E; [constructor|].
  unfold solo_digitos in *. simpl in E.
  destruct (es_digito c) eqn:Ed; [discriminate|].
  constructor; [|auto].
  unfold cifra_o_separador in Hc. rewrite Ed in Hc. simpl in Hc.
  apply orb_true_iff in Hc as [Hc|Hc]; apply N.eqb_eq in Hc; auto.
Qed.

(** When [parse_entero] gives no number for a capture of digits, dots and
    commas: it has no digit, or too many. *)
Lemma parse_entero_None s :
  List.Forall (fun x => cifra_o_separador x = true) s ->
  parse_entero s = None <->
  List.Forall (fun c => c = 46 \/ c = 44) s
  \/ (INT_MAX_STR_DIGITS < length (solo_digitos s))%nat.
Proof.
  intros Hs. split.
  - intros E. destruct (solo_digitos s) as [|c r] eqn:Ed.
    + left. apply sin_digitos_separadores; assumption.
    + right. destruct (Nat.leb_spec (length (solo_digitos s))
                         INT_MAX_STR_DIGITS) as [L|L].
      * rewrite (parse_entero_corto s) in E;
          [discriminate|rewrite Ed; discriminate|exact L].
      * rewrite <- Ed. exact L.
  - intros [H|H].
    + apply parse_entero_vacio, separadores_sin_digitos, H.
    + apply parse_entero_largo, H.
Qed.

Lemma digitos_son_capturables s :
  List.Forall (fun x => es_digito x = true) s ->
  List.Forall (fun x => cifra_o_separador x = true) s.
Proof.
  induction 1 as [|c r Hc Hr IH]; constructor; [|exact IH].
  unfold cifra_o_separador. rewrite Hc. reflexivity.
Qed.

(** X2.  A line that the classifier accepts is dropped for its numbers
    exactly when its unit price or its total is made of dots and commas
    alone, or when its unit price, its quantity or its total has more
    than 4300 digits, which [int] refuses: a quantity of at most 4300
    digits always parses. *)
Theorem descarte_numerico (linea : texto) :
  paso_linea linea = SaltaNumerico
  <-> es_linea_item linea = true
      /\ exists prod p_unit cant total,
           grupos linea = Some (prod, p_unit, cant, total)
           /\ (List.Forall (fun c => c = 46 \/ c = 44) p_unit
               \/ List.Forall (fun c => c = 46 \/ c = 44) total
               \/ (INT_MAX_STR_DIGITS < length (solo_digitos p_unit))%nat
               \/ (INT_MAX_STR_DIGITS < length cant)%nat
               \/ (INT_MAX_STR_DIGITS < length (solo_digitos total))%nat).
Proof.
  unfold paso_linea.
  destruct (es_linea_item linea) eqn:He; cbn [negb];
    [|split; [discriminate|intros [? _]; discriminate]].
  destruct (coincide linea) as [co|] eqn:Hco.
  2:{ split; [discriminate|].
      intros (_ & prod & pu & ca & to & Hg & _). unfold grupos in Hg.
      rewrite Hco in Hg. discriminate. }
  assert (grupos linea
          = Some (group co g_prod, group co g_p_unit, group co g_cant,
                  group co g_total)) as Hg
    by (unfold grupos; rewrite Hco; reflexivity).
  pose proof (capturas_con_forma _ _ _ _ _ Hg) as F.
  destruct F as (b0 & b1 & d1 & b2 & b3 & fi & b4 & d2 & b5 & fin_ & _ & _ & _
                 & _ & _ & [_ Hpu] & _ & [Hne Hca] & _ & _ & _ & _ & [_ Hto]
                 & _).
  pose proof (parse_entero_None _ Hpu) as Npu.
  pose proof (parse_entero_None _ (digitos_son_capturables _ Hca)) as Nca.
  pose proof (parse_entero_None _ Hto) as Nto.
  assert (solo_digitos (group co g_cant) = group co g_cant) as Eca
    by (apply filtro_de_digitos, Hca).
  rewrite Eca in Nca.
  assert (~ List.Forall (fun c => c = 46 \/ c = 44) (group co g_cant)) as Sca.
  { intros S. apply separadores_sin_digitos in S. rewrite Eca in S.
    apply Hne, S. }
  cbv zeta. split.
  - intros H. split; [reflexivity|].
    exists (group co g_prod), (group co g_p_unit), (group co g_cant),
           (group co g_total).
    split; [exact Hg|].
    destruct (parse_entero (group co g_p_unit)) as [p|];
      [|destruct (proj1 Npu eq_refl); auto].
    destruct (parse_entero (group co g_cant)) as [c|];
      [|destruct (proj1 Nca eq_refl); [contradiction|auto 6]].
    destruct (parse_entero (group co g_total)) as [v|];
      [discriminate|destruct (proj1 Nto eq_refl); auto 6].
  - intros (_ & prod & pu & ca & to & Hg' & D).
    rewrite Hg in Hg'. injection Hg' as <- <- <- <-.
    assert (parse_entero (group co g_p_unit) = None
            \/ parse_entero (group co g_cant) = None
            \/ parse_entero (group co g_total) = None) as [E|[E|E]].
    { destruct D as [D|[D|[D|[D|D]]]].
      - left. apply Npu. auto.
      - right. right. apply Nto. auto.
      - left. apply Npu. auto.
      - right. left. apply Nca. auto.
      - right. right. apply Nto. auto. }
    + rewrite E. reflexivity.
    + rewrite E. destruct (parse_entero (group co g_p_unit)); reflexivity.
    + rewrite E. destruct (parse_entero (group co g_p_unit));
        [destruct (parse_entero (group co g_cant))|]; reflexivity.
Qed.

(** ** Product names as words *)

Lemma split_blancos_blanco c r :
  es_espacio c = true -> split_blancos (c :: r) = split_blancos r.
Proof.
  intros E. unfold split_blancos. simpl.
  destruct (parte_palabras r) as [w ws]. rewrite E. reflexivity.
Qed.

Lemma split_blancos_letra c r :
  es_espacio c = false ->
  split_blancos (c :: r)
  = (c :: fst (parte_palabras r)) :: snd (parte_palabras r).
Proof.
  intros E. unfold split_blancos. simpl.
  destruct (parte_palabras r) as [w ws]. rewrite E. reflexivity.
Qed.

Lemma parte_rstrip s : parte_palabras (rstrip s) = parte_palabras s.
Proof.
  induction s as [|c r IH]; [reflexivity|].
  cbn [rstrip parte_palabras]. rewrite <- IH.
  destruct (rstrip r) as [|x r'] eqn:E; [|reflexivity].
  destruct (es_espacio c) eqn:Ec; cbn [parte_palabras]; rewrite ?Ec;
    reflexivity.
Qed.

Lemma split_lstrip s : split_blancos (lstrip s) = split_blancos s.
Proof.
  induction s as [|c r IH]; [reflexivity|].
  cbn [lstrip]. destruct (es_espacio c) eqn:E; [|reflexivity].
  rewrite (split_blancos_blanco c r E). exact IH.
Qed.

Lemma split_strip s : split_blancos (strip s) = split_blancos s.
Proof.
  unfold strip. unfold split_blancos at 1. rewrite parte_rstrip.
  apply split_lstrip.
Qed.

Lemma split_no_vacio s :
  termina_bien s = true -> s <> [] -> split_blancos s <> [].
Proof.
  induction s as [|c r IH]; [congruence|]. intros H _.
  destruct (es_espacio c) eqn:Ec.
  - rewrite (split_blancos_blanco c r Ec).
    destruct r as [|x r']; [simpl in H; rewrite Ec in H; discriminate|].
    apply IH; [exact H|discriminate].
  - rewrite (split_blancos_letra c r Ec). discriminate.
Qed.

Lemma str_join_cons w ws :
  str_join [32] (w :: ws) = w ++ cola_de_palabras ws.
Proof. destruct ws; simpl; [rewrite app_nil_r|]; reflexivity. Qed.

(** Collapsing the blank runs of a text that does not end in a blank:
    after a blank its words joined by single spaces; otherwise the rest
    of the current word and, each after one space, the words that
    follow. *)
Lemma colapsa_palabras s :
  termina_bien s = true ->
  colapsa_desde true s = str_join [32] (split_blancos s)
  /\ colapsa_desde false s
     = fst (parte_palabras s) ++ cola_de_palabras (snd (parte_palabras s)).
Proof.
  induction s as [|c r IH]; intros H; [split; reflexivity|].
  assert (r = [] /\ es_espacio c = false \/ r <> [] /\ termina_bien r = true)
    as Hr.
  { destruct r as [|x r']; [left|right].
    - simpl in H. apply negb_true_iff in H. auto.
    - split; [discriminate|exact H]. }
  change (colapsa_desde true (c :: r))
    with (if es_espacio c then colapsa_desde true r
          else c :: colapsa_desde false r).
  change (colapsa_desde false (c :: r))
    with (if es_espacio c then 32 :: colapsa_desde true r
          else c :: colapsa_desde false r).
  destruct (es_espacio c) eqn:Ec.
  - destruct Hr as [[_ E]|[Hne Ht]]; [congruence|].
    destruct (IH Ht) as [IHt _].
    pose proof (split_no_vacio r Ht Hne) as Hs.
    rewrite (split_blancos_blanco c r Ec), IHt. split; [reflexivity|].
    cbn [parte_palabras]. unfold split_blancos in *.
    destruct (parte_palabras r) as [w ws]. rewrite Ec. cbn [fst snd app].
    unfold cola_de_palabras. destruct w, ws; try congruence; reflexivity.
  - rewrite (split_blancos_letra c r Ec), str_join_cons.
    cbn [parte_palabras].
    destruct Hr as [[-> _]|[Hne Ht]]; [rewrite Ec; split; reflexivity|].
    destruct (IH Ht) as [_ IHf]. rewrite IHf.
    destruct (parte_palabras r) as [w ws]. rewrite Ec. split; reflexivity.
Qed.

Lemma parte_empieza_bien s :
  empieza_bien s = true ->
  fst (parte_palabras s) ++ cola_de_palabras (snd (parte_palabras s))
  = str_join [32] (split_blancos s).
Proof.
  destruct s as [|c r]; [reflexivity|]. simpl. intros H.
  apply negb_true_iff in H. rewrite (split_blancos_letra c r H), str_join_cons.
  destruct (parte_palabras r) as [w ws]. rewrite H. reflexivity.
Qed.

(** X4.  [normalizar_texto_producto] gives the words of the upper-cased
    name joined by single spaces: [" ".join(nombre.upper().split())]. *)
Theorem normalizar_es_join_split (nombre : texto) :
  normalizar_texto_producto nombre
  = str_join [32] (split_blancos (upper nombre)).
Proof.
  unfold normalizar_texto_producto, colapsa_espacios.
  assert (termina_bien (strip (upper nombre)) = true) as Ht
    by (unfold strip; apply rstrip_termina_bien).
  assert (empieza_bien (strip (upper nombre)) = true) as He
    by (unfold strip; apply rstrip_empieza_bien, lstrip_empieza_bien).
  rewrite (proj2 (colapsa_palabras _ Ht)), (parte_empieza_bien _ He).
  rewrite split_strip. reflexivity.
Qed.

(** ** More on the extractor *)

Lemma paginas_leidas_todas textos :
  paginas_leidas (List.map Texto textos) = textos
  /\ falla_paginas (List.map Texto textos) = None.
Proof.
  induction textos as [|s r [IH1 IH2]]; [split; reflexivity|].
  simpl. rewrite IH1, IH2. split; reflexivity.
Qed.

Lemma item_de_linea linea it :
  In it (items_de_linea linea) <-> paso_linea linea = Agrega it.
Proof.
  unfold items_de_linea. destruct (paso_linea linea); simpl;
    split; try tauto; try discriminate.
  - intros [->|[]]. reflexivity.
  - intros [= ->]. auto.
Qed.

Lemma items_de_paginas (textos : list (option texto)) :
  flat_map items_de_linea (flat_map lineas_de_pagina textos)
  = flat_map (fun s => flat_map items_de_linea (lineas_de_pagina s)) textos.
Proof.
  induction textos as [|s r IH]; [reflexivity|].
  simpl. rewrite flat_map_app, IH. reflexivity.
Qed.

(** X5.  When the document opens and every page can be read, nothing is
    printed and the items are those of the lines of the pages, in page
    order and, within a page, in line order: an item is returned exactly
    when some line of some page adds it. *)
Theorem extraer_sin_falla (abrir : texto -> documento) (ruta : texto)
    (textos : list (option texto))
    (H : abrir ruta = Abierto (List.map Texto textos)) :
  extraer_items_desde_pdf abrir ruta
  = (flat_map (fun s => flat_map items_de_linea (lineas_de_pagina s)) textos,
     [])
  /\ forall it,
       In it (fst (extraer_items_desde_pdf abrir ruta))
       <-> exists s linea,
             In s textos /\ In linea (lineas_de_pagina s)
             /\ paso_linea linea = Agrega it.
Proof.
  assert (extraer_items_desde_pdf abrir ruta
          = (flat_map (fun s => flat_map items_de_linea (lineas_de_pagina s))
               textos, [])) as E.
  { rewrite extraer_spec, H. unfold lineas_leidas, falla_de.
    destruct (paginas_leidas_todas textos) as [-> ->].
    rewrite items_de_paginas. reflexivity. }
  split; [exact E|]. intros it. rewrite E. cbn [fst].
  rewrite in_flat_map. split.
  - intros (s & Hs & Hi). apply in_flat_map in Hi as (linea & Hl & Hi).
    apply item_de_linea in Hi. eauto.
  - intros (s & linea & Hs & Hl & Hp). exists s. split; [exact Hs|].
    apply in_flat_map. exists linea. split; [exact Hl|].
    apply item_de_linea, Hp.
Qed.

Lemma strip_strip s : strip (strip s) = strip s.
Proof.
  apply strip_de_limpio; unfold strip.
  - apply rstrip_empieza_bien, lstrip_empieza_bien.
  - apply rstrip_termina_bien.
Qed.

Lemma paso_agrega linea it :
  paso_linea linea = Agrega it ->
  es_linea_item linea = true
  /\ exists prod p_unit cant total,
       grupos linea = Some (prod, p_unit, cant, total)
       /\ Producto it = strip prod
       /\ parse_entero p_unit = Some (Precio_Venta_Unitario it)
       /\ parse_entero cant = Some (Cantidad it)
       /\ parse_entero total = Some (Total_Venta_Item it).
Proof.
  unfold paso_linea, grupos. destruct (es_linea_item linea); [|discriminate].
  cbn [negb]. destruct (coincide linea) as [co|]; [|discriminate].
  cbv zeta.
  destruct (parse_entero (group co g_p_unit)) as [p|] eqn:E1; [|discriminate].
  destruct (parse_entero (group co g_cant)) as [c|] eqn:E2; [|discriminate].
  destruct (parse_entero (group co g_total)) as [v|] eqn:E3; [|discriminate].
  intros [= <-]. split; [reflexivity|].
  exists (group co g_prod), (group co g_p_unit), (group co g_cant),
         (group co g_total).
  repeat split; assumption.
Qed.

Lemma item_extraido_valido abrir ruta it :
  In it (fst (extraer_items_desde_pdf abrir ruta)) ->
  (0 <= Precio_Venta_Unitario it)%Z
  /\ (0 <= Cantidad it)%Z
  /\ (0 <= Total_Venta_Item it)%Z
  /\ strip (Producto it) = Producto it
  /\ exists linea,
       In linea (lineas_leidas (abrir ruta))
       /\ es_linea_item linea = true
       /\ paso_linea linea = Agrega it.
Proof.
  intros H. rewrite extraer_spec in H. cbn [fst] in H.
  apply in_flat_map in H as (linea & Hl & Hi). apply item_de_linea in Hi.
  destruct (paso_agrega _ _ Hi)
    as (He & prod & pu & ca & to & _ & Hp & H1 & H2 & H3).
  repeat split; eauto using parse_entero_no_negativo.
  rewrite Hp. apply strip_strip.
Qed.

(** X6.  Every item that [extraer_items_desde_pdf] returns, also from a
    document that fails half way, has a price, a quantity and a total
    that are not negative and a product without blanks around it, and it
    comes from a line read from the document that the classifier
    accepts. *)
Theorem items_extraidos_validos (abrir : texto -> documento) (ruta : texto)
    (it : item)
    (H : In it (fst (extraer_items_desde_pdf abrir ruta))) :
  (0 <= Precio_Venta_Unitario it)%Z
  /\ (0 <= Cantidad it)%Z
  /\ (0 <= Total_Venta_Item it)%Z
  /\ strip (Producto it) = Producto it
  /\ exists linea,
       In linea (lineas_leidas (abrir ruta))
       /\ es_linea_item linea = true
       /\ paso_linea linea = Agrega it.
Proof. exact (item_extraido_valido abrir ruta it H). Qed.

Lemma linea_de_split s : forall linea c,
  In linea (split_nl s) -> In c linea -> In c s.
Proof.
  induction s as [|x r IH]; intros linea c Hl Hc.
  - simpl in Hl. destruct Hl as [<-|[]]. exact Hc.
  - simpl in Hl. destruct (x =? 10).
    + destruct Hl as [<-|Hl]; [destruct Hc|]. right. eauto.
    + destruct (split_nl r) as [|l ls] eqn:E.
      * destruct Hl as [<-|[]]. destruct Hc as [<-|[]]. left. reflexivity.
      * destruct Hl as [<-|Hl].
        -- destruct Hc as [<-|Hc]; [left; reflexivity|].
           right. apply (IH l); [left; reflexivity|exact Hc].
        -- right. apply (IH linea); [right; exact Hl|exact Hc].
Qed.

Lemma split_nl_sin_salto s : forall linea,
  In linea (split_nl s) -> ~ In 10 linea.
Proof.
  induction s as [|x r IH]; intros linea Hl.
  - simpl in Hl. destruct Hl as [<-|[]]. auto.
  - simpl in Hl. destruct (N.eqb_spec x 10) as [->|Hx].
    + destruct Hl as [<-|Hl]; [auto|]. apply IH, Hl.
    + destruct (split_nl r) as [|l ls] eqn:E.
      * destruct Hl as [<-|[]]. intros [E1|[]]. congruence.
      * destruct Hl as [<-|Hl].
        -- intros [E1|H1]; [congruence|]. apply (IH l); [left; reflexivity|exact H1].
        -- apply IH. right. exact Hl.
Qed.

Lemma linea_sin_marcador linea : ~ In 36 linea -> items_de_linea linea = [].
Proof.
  intros H. unfold items_de_linea, paso_linea, es_linea_item.
  destruct (contiene 36 linea) eqn:E; [|reflexivity].
  apply contiene_spec in E. contradiction.
Qed.

(** X7.  A page whose text has no currency marker yields no item. *)
Theorem pagina_sin_marcador (s : texto) (H : contiene 36 s = false) :
  flat_map items_de_linea (lineas_de_pagina (Some s)) = [].
Proof.
  assert (~ In 36 s) as Hs
    by (intros Hc; apply contiene_spec in Hc; congruence).
  unfold lineas_de_pagina.
  assert (forall ls, (forall l, In l ls -> ~ In 36 l) ->
                     flat_map items_de_linea ls = []) as F.
  { induction ls as [|l ls IH]; intros Hl; [reflexivity|].
    simpl. rewrite (linea_sin_marcador l), IH; auto.
    - intros l' Hl'. apply Hl. right. exact Hl'.
    - apply Hl. left. reflexivity. }
  apply F. intros l Hl Hc. apply Hs. exact (linea_de_split s l 36 Hl Hc).
Qed.

(** ** The order of texts *)

Lemma texto_leb_refl a : texto_leb a a = true.
Proof.
  induction a as [|x a IH]; [reflexivity|]. simpl.
  rewrite N.ltb_irrefl. exact IH.
Qed.

Lemma texto_leb_total a : forall b, texto_leb a b = true \/ texto_leb b a = true.
Proof.
  induction a as [|x a IH]; intros [|y b]; simpl; auto.
  destruct (N.ltb_spec x y), (N.ltb_spec y x); auto; try lia.
Qed.

Lemma texto_leb_antisym a : forall b,
  texto_leb a b = true -> texto_leb b a = true -> a = b.
Proof.
  induction a as [|x a IH]; intros [|y b]; simpl; try discriminate; auto.
  destruct (N.ltb_spec x y), (N.ltb_spec y x); try discriminate; try lia.
  intros H1 H2. assert (x = y) as -> by lia. f_equal. auto.
Qed.

Lemma texto_leb_trans a : forall b c,
  texto_leb a b = true -> texto_leb b c = true -> texto_leb a c = true.
Proof.
  induction a as [|x a IH]; intros [|y b] [|z c]; simpl; try discriminate; auto.
  destruct (N.ltb_spec x y), (N.ltb_spec y x), (N.ltb_spec y z),
    (N.ltb_spec z y), (N.ltb_spec x z), (N.ltb_spec z x);
    try discriminate; try lia; eauto.
Qed.

#[global] Instance texto_le_total : Total texto_le.
Proof. intros a b. apply texto_leb_total. Qed.

#[global] Instance texto_le_trans : Transitive texto_le.
Proof. intros a b c. apply texto_leb_trans. Qed.

#[global] Instance texto_le_antisym : AntiSymm (=) texto_le.
Proof. intros a b. apply texto_leb_antisym. Qed.

Lemma sorted_ordenada xs : StronglySorted texto_le (sorted xs).
Proof. apply StronglySorted_merge_sort; apply _. Qed.

Lemma sorted_permutacion xs ys : xs ≡ₚ ys -> sorted xs = sorted ys.
Proof.
  intros H. apply (StronglySorted_unique texto_le); try apply sorted_ordenada.
  unfold sorted. rewrite !merge_sort_Permutation. exact H.
Qed.

Lemma filter_ordenada (f : texto -> bool) xs :
  StronglySorted texto_le xs -> StronglySorted texto_le (List.filter f xs).
Proof.
  induction 1 as [|x xs Hs IH Hx]; simpl; [constructor|].
  destruct (f x); [|exact IH]. constructor; [exact IH|].
  apply List.Forall_forall. intros y Hy. apply filter_In in Hy as [Hy _].
  rewrite List.Forall_forall in Hx. auto.
Qed.

Lemma filter_permutacion (f : texto -> bool) xs ys :
  xs ≡ₚ ys -> List.filter f xs ≡ₚ List.filter f ys.
Proof.
  induction 1 as [|x l l' H IH|x y l|l l' l'' H1 IH1 H2 IH2]; simpl.
  - reflexivity.
  - destruct (f x); [constructor|]; exact IH.
  - destruct (f x), (f y); try reflexivity. apply perm_swap.
  - etransitivity; eassumption.
Qed.

Lemma sorted_filter (f : texto -> bool) xs :
  sorted (List.filter f xs) = List.filter f (sorted xs).
Proof.
  apply (StronglySorted_unique texto_le).
  - apply sorted_ordenada.
  - apply filter_ordenada, sorted_ordenada.
  - unfold sorted at 1. rewrite merge_sort_Permutation.
    apply filter_permutacion. unfold sorted.
    symmetry. apply merge_sort_Permutation.
Qed.

(** ** The run in closed form *)

Section CarpetaCerrada.

Variable abrir : texto -> documento.
Variable carpeta_data : texto.

Lemma procesa_archivo_estado st ef nombre :
  let st' := fst (procesa_archivo abrir carpeta_data (st, ef) nombre) in
  resumen_remisiones st'
  = resumen_remisiones st
    ++ omap (fila_de_archivo abrir carpeta_data) [nombre]
  /\ detalle_items st'
     = detalle_items st ++ detalle_de_archivo abrir carpeta_data nombre
  /\ productos_desconocidos st'
     = productos_desconocidos st
       ∪ list_to_set
           (nombres_sin_costo (items_de_archivo abrir carpeta_data nombre)).
Proof.
  cbv zeta. rewrite procesa_archivo_spec.
  unfold fila_de_archivo, detalle_de_archivo, items_de_archivo.
  cbn [omap list_omap].
  destruct (es_pdf nombre); cbv zeta.
  - destruct (fst (extraer_items_desde_pdf abrir (path_join carpeta_data nombre)))
      as [|it resto]; cbn [fst resumen_remisiones detalle_items
                           productos_desconocidos List.map].
    + unfold nombres_sin_costo. cbn [List.filter List.map list_to_set].
      rewrite !app_nil_r, (right_id_L ∅ (∪)). auto.
    + auto.
  - cbn [fst List.map]. unfold nombres_sin_costo.
    cbn [List.filter List.map list_to_set].
    rewrite !app_nil_r, (right_id_L ∅ (∪)). auto.
Qed.

Lemma omap_cons_app {A B} (f : A -> option B) x xs :
  omap f (x :: xs) = omap f [x] ++ omap f xs.
Proof. cbn [omap list_omap]. destruct (f x); reflexivity. Qed.

Lemma bucle_forma_cerrada nombres : forall st ef,
  let st' := fst (fold_left (procesa_archivo abrir carpeta_data) nombres
                    (st, ef)) in
  resumen_remisiones st'
  = resumen_remisiones st ++ omap (fila_de_archivo abrir carpeta_data) nombres
  /\ detalle_items st'
     = detalle_items st
       ++ flat_map (detalle_de_archivo abrir carpeta_data) nombres
  /\ productos_desconocidos st'
     = productos_desconocidos st
       ∪ list_to_set
           (flat_map (fun n => nombres_sin_costo
                                 (items_de_archivo abrir carpeta_data n))
              nombres).
Proof.
  induction nombres as [|n resto IH]; intros st ef; cbv zeta.
  - cbn [fold_left fst omap list_omap flat_map list_to_set].
    rewrite !app_nil_r, (right_id_L ∅ (∪)). auto.
  - cbn [fold_left].
    pose proof (procesa_archivo_estado st ef n) as S1. cbv zeta in S1.
    destruct (procesa_archivo abrir carpeta_data (st, ef) n) as [st1 ef1].
    cbn [fst] in S1. destruct S1 as (A1 & A2 & A3).
    destruct (IH st1 ef1) as (B1 & B2 & B3).
    rewrite B1, B2, B3, A1, A2, A3.
    rewrite (omap_cons_app _ n resto). cbn [flat_map].
    rewrite list_to_set_app_L, <- !app_assoc, (assoc_L (∪)). auto.
Qed.

End CarpetaCerrada.

(** X9.  After the loop the summary has one row per listed document
    with at least one item, in the order of the sorted names; the detail
    has the rows of their items in the same order, and the unknown
    products are the normalized names of their items without cost. *)
Theorem resumen_en_orden (listdir : texto -> list texto)
    (abrir : texto -> documento) (carpeta_data carpeta_output : texto) :
  let st := estado_final listdir abrir carpeta_data carpeta_output in
  let nombres := sorted (listdir carpeta_data) in
  resumen_remisiones st = omap (fila_de_archivo abrir carpeta_data) nombres
  /\ detalle_items st = flat_map (detalle_de_archivo abrir carpeta_data) nombres
  /\ productos_desconocidos st
     = list_to_set
         (flat_map (fun n => nombres_sin_costo
                               (items_de_archivo abrir carpeta_data n))
            nombres)
  /\ StronglySorted texto_le nombres
  /\ nombres ≡ₚ listdir carpeta_data.
Proof.
  cbv zeta. unfold estado_final, recorre_carpeta.
  destruct (bucle_forma_cerrada abrir carpeta_data
              (sorted (listdir carpeta_data)) estado_inicial
              [Makedirs carpeta_output]) as (A1 & A2 & A3).
  rewrite A1, A2, A3. cbn [estado_inicial resumen_remisiones detalle_items
                           productos_desconocidos app].
  rewrite (left_id_L ∅ (∪)).
  repeat split; try reflexivity.
  - apply sorted_ordenada.
  - apply merge_sort_Permutation.
Qed.

Lemma suma_map_fila nombre items :
  suma (List.map d_Total_Venta_Item (List.map (fila_de_item nombre) items))
  = suma (List.map Total_Venta_Item items)
  /\ suma (omap d_Ganancia_Item (List.map (fila_de_item nombre) items))
     = suma (omap ganancia_de items).
Proof.
  induction items as [|it resto [IH1 IH2]]; [split; reflexivity|].
  split.
  - cbn [List.map]. change (suma (?x :: ?l)) with (x + suma l)%Z.
    rewrite IH1. reflexivity.
  - cbn [List.map].
    rewrite (omap_cons_app ganancia_de it resto),
      (omap_cons_app d_Ganancia_Item (fila_de_item nombre it)), !suma_app, IH2.
    reflexivity.
Qed.

Section HojasDeAcuerdo.

Variable abrir : texto -> documento.
Variable carpeta_data : texto.

Lemma totales_de_acuerdo nombres :
  suma (List.map r_Total_Ventas_COP
          (omap (fila_de_archivo abrir carpeta_data) nombres))
  = suma (List.map d_Total_Venta_Item
            (flat_map (detalle_de_archivo abrir carpeta_data) nombres))
  /\ suma (List.map r_Total_Ganancias_COP
             (omap (fila_de_archivo abrir carpeta_data) nombres))
     = suma (omap d_Ganancia_Item
               (flat_map (detalle_de_archivo abrir carpeta_data) nombres)).
Proof.
  induction nombres as [|n resto [IH1 IH2]]; [split; reflexivity|].
  rewrite (omap_cons_app _ n resto). cbn [flat_map].
  rewrite !map_app, omap_app, !suma_app, IH1, IH2.
  assert (suma (List.map r_Total_Ventas_COP
                  (omap (fila_de_archivo abrir carpeta_data) [n]))
          = suma (List.map d_Total_Venta_Item
                    (detalle_de_archivo abrir carpeta_data n))
          /\ suma (List.map r_Total_Ganancias_COP
                     (omap (fila_de_archivo abrir carpeta_data) [n]))
             = suma (omap d_Ganancia_Item
                       (detalle_de_archivo abrir carpeta_data n))) as [-> ->];
    [|split; reflexivity].
  unfold detalle_de_archivo, fila_de_archivo.
  destruct (suma_map_fila (splitext_raiz n)
              (items_de_archivo abrir carpeta_data n)) as [-> ->].
  cbn [omap list_omap].
  destruct (items_de_archivo abrir carpeta_data n) as [|it r];
    [split; reflexivity|].
  cbn [List.map fila_de_remision r_Total_Ventas_COP r_Total_Ganancias_COP].
  change (suma [?x]) with (x + 0)%Z. split; lia.
Qed.

End HojasDeAcuerdo.

(** X10.  The two sheets agree: the sales of the summary rows add up to
    the line totals of the detail rows, and their profits to the line
    profits of the detail rows that have one. *)
Theorem resumen_y_detalle_de_acuerdo (listdir : texto -> list texto)
    (abrir : texto -> documento) (carpeta_data carpeta_output : texto) :
  let st := estado_final listdir abrir carpeta_data carpeta_output in
  suma (List.map r_Total_Ventas_COP (resumen_remisiones st))
  = suma (List.map d_Total_Venta_Item (detalle_items st))
  /\ suma (List.map r_Total_Ganancias_COP (resumen_remisiones st))
     = suma (omap d_Ganancia_Item (detalle_items st)).
Proof.
  cbv zeta. unfold estado_final, recorre_carpeta.
  destruct (bucle_forma_cerrada abrir carpeta_data
              (sorted (listdir carpeta_data)) estado_inicial
              [Makedirs carpeta_output]) as (A1 & A2 & _).
  rewrite A1, A2. cbn [estado_inicial resumen_remisiones detalle_items app].
  apply totales_de_acuerdo.
Qed.

(** ** The rows of a run *)

Section FilasDeUnaCorrida.

Variable listdir : texto -> list texto.
Variable abrir : texto -> documento.
Variable carpeta_data carpeta_output : texto.

Let st := estado_final listdir abrir carpeta_data carpeta_output.

(** Every detail row is the row of an item of a listed document. *)
Lemma fila_de_detalle f :
  In f (detalle_items st) <->
  exists nombre it,
    In nombre (listdir carpeta_data)
    /\ es_pdf nombre = true
    /\ In it (fst (extraer_items_desde_pdf abrir
                     (path_join carpeta_data nombre)))
    /\ f = fila_de_item (splitext_raiz nombre) it.
Proof.
  unfold st, estado_final, recorre_carpeta.
  destruct (bucle_forma_cerrada abrir carpeta_data
              (sorted (listdir carpeta_data)) estado_inicial
              [Makedirs carpeta_output]) as (_ & -> & _).
  cbn [estado_inicial detalle_items app]. rewrite in_flat_map.
  assert (forall n, In n (sorted (listdir carpeta_data))
                    <-> In n (listdir carpeta_data)) as Hs.
  { intros n. rewrite <- !list_elem_of_In. unfold sorted.
    rewrite merge_sort_Permutation. reflexivity. }
  unfold detalle_de_archivo, items_de_archivo. split.
  - intros (n & Hn & Hf). apply in_map_iff in Hf as (it & <- & Hi).
    destruct (es_pdf n) eqn:E; [|destruct Hi].
    exists n, it. rewrite <- Hs. auto.
  - intros (n & it & Hn & E & Hi & ->). exists n. rewrite Hs.
    split; [exact Hn|]. apply in_map. rewrite E. exact Hi.
Qed.

Lemma desconocido_de_detalle x :
  x ∈ productos_desconocidos st <->
  exists f,
    In f (detalle_items st)
    /\ d_Costo_Unitario f = None
    /\ normalizar_texto_producto (d_Producto f) = x.
Proof.
  split.
  - unfold st, estado_final, recorre_carpeta.
    destruct (bucle_forma_cerrada abrir carpeta_data
                (sorted (listdir carpeta_data)) estado_inicial
                [Makedirs carpeta_output]) as (_ & -> & ->).
    cbn [estado_inicial detalle_items productos_desconocidos app].
    rewrite (left_id_L ∅ (∪)), elem_of_list_to_set, list_elem_of_In.
    intros H. apply in_flat_map in H as (n & Hn & Hx).
    unfold nombres_sin_costo in Hx.
    apply in_map_iff in Hx as (it & <- & Hi).
    apply filter_In in Hi as [Hi Hc].
    exists (fila_de_item (splitext_raiz n) it). split; [|split].
    + apply in_flat_map. exists n. split; [exact Hn|].
      unfold detalle_de_archivo. apply in_map. exact Hi.
    + cbn. unfold sin_costo in Hc. destruct (costo_de it); [discriminate|].
      reflexivity.
    + reflexivity.
  - intros (f & Hf & Hc & <-). revert Hf.
    unfold st, estado_final, recorre_carpeta.
    destruct (bucle_forma_cerrada abrir carpeta_data
                (sorted (listdir carpeta_data)) estado_inicial
                [Makedirs carpeta_output]) as (_ & -> & ->).
    cbn [estado_inicial detalle_items productos_desconocidos app].
    rewrite (left_id_L ∅ (∪)), elem_of_list_to_set, list_elem_of_In.
    intros H. apply in_flat_map in H as (n & Hn & Hf).
    unfold detalle_de_archivo in Hf. apply in_map_iff in Hf as (it & <- & Hi).
    apply in_flat_map. exists n. split; [exact Hn|].
    unfold nombres_sin_costo.
    apply (in_map (fun it => normalizar_texto_producto (Producto it))).
    apply filter_In. split; [exact Hi|]. cbn in Hc.
    unfold sin_costo. rewrite Hc. reflexivity.
Qed.

End FilasDeUnaCorrida.

(** X11.  In every detail row of a run the cost is the one of the
    normalized product in the cost table, the unit profit is the price
    minus that cost and the line profit is the unit profit times the
    quantity, all three absent together; quantity, price and total are
    not negative, and the row names a listed document. *)
Theorem filas_de_detalle_coherentes (listdir : texto -> list texto)
    (abrir : texto -> documento) (carpeta_data carpeta_output : texto)
    (f : fila_detalle)
    (H : In f (detalle_items
                 (estado_final listdir abrir carpeta_data carpeta_output))) :
  d_Costo_Unitario f = COSTOS !! normalizar_texto_producto (d_Producto f)
  /\ d_Ganancia_Unidad f
     = (fun costo => (d_Precio_Venta_Unitario f - costo)%Z)
         <$> d_Costo_Unitario f
  /\ d_Ganancia_Item f
     = (fun g => (g * d_Cantidad f)%Z) <$> d_Ganancia_Unidad f
  /\ (0 <= d_Cantidad f)%Z
  /\ (0 <= d_Precio_Venta_Unitario f)%Z
  /\ (0 <= d_Total_Venta_Item f)%Z
  /\ strip (d_Producto f) = d_Producto f
  /\ exists nombre,
       In nombre (listdir carpeta_data) /\ es_pdf nombre = true
       /\ d_Remision f = splitext_raiz nombre.
Proof.
  apply fila_de_detalle in H as (n & it & Hn & E & Hi & ->).
  destruct (item_extraido_valido _ _ _ Hi) as (H1 & H2 & H3 & H4 & _).
  cbn [fila_de_item d_Costo_Unitario d_Ganancia_Unidad d_Ganancia_Item
       d_Producto d_Cantidad d_Precio_Venta_Unitario d_Total_Venta_Item
       d_Remision].
  unfold ganancia_de, costo_de.
  split; [reflexivity|].
  split; [destruct (COSTOS !! normalizar_texto_producto (Producto it));
          reflexivity|].
  split; [destruct (COSTOS !! normalizar_texto_producto (Producto it));
          reflexivity|].
  repeat (split; [assumption|]). eauto.
Qed.

(** X12.  The list of pending products is sorted, has no duplicates, and
    holds exactly the normalized names of the detail rows that have no
    cost. *)
Theorem pendientes_del_detalle (listdir : texto -> list texto)
    (abrir : texto -> documento) (carpeta_data carpeta_output : texto) :
  let st := estado_final listdir abrir carpeta_data carpeta_output in
  let pendientes := sorted (elements (productos_desconocidos st)) in
  StronglySorted texto_le pendientes
  /\ NoDup pendientes
  /\ forall x,
       In x pendientes
       <-> exists f,
             In f (detalle_items st)
             /\ d_Costo_Unitario f = None
             /\ normalizar_texto_producto (d_Producto f) = x.
Proof.
  cbv zeta. split; [apply sorted_ordenada|]. split.
  - unfold sorted. rewrite merge_sort_Permutation. apply NoDup_elements.
  - intros x. rewrite <- desconocido_de_detalle, <- list_elem_of_In.
    unfold sorted. rewrite merge_sort_Permutation. apply elem_of_elements.
Qed.

(** ** The workbook *)

Section CorridaConItems.

Variable listdir : texto -> list texto.
Variable abrir : texto -> documento.
Variable carpeta_data carpeta_output : texto.

Let st := estado_final listdir abrir carpeta_data carpeta_output.

Lemma bucle_prefijo nombres : forall s ef,
  exists mas,
    snd (fold_left (procesa_archivo abrir carpeta_data) nombres (s, ef))
    = ef ++ mas.
Proof.
  induction nombres as [|n resto IH]; intros s ef.
  - exists []. cbn. rewrite app_nil_r. reflexivity.
  - cbn [fold_left]. rewrite procesa_archivo_spec.
    destruct (es_pdf n); [|apply IH]. cbv zeta.
    destruct (fst (extraer_items_desde_pdf abrir (path_join carpeta_data n)));
      match goal with
      | |- context [fold_left _ resto (?s1, ?e1)] =>
          destruct (IH s1 e1) as [mas ->]
      end;
      rewrite <- !app_assoc; eauto.
Qed.

Lemma resumen_no_vacio :
  existsb (fun n => negb (sin_items abrir carpeta_data n))
    (listdir carpeta_data) = true ->
  resumen_remisiones st <> [].
Proof.
  intros H. apply existsb_exists in H as (n & Hn & Hs).
  unfold st, estado_final, recorre_carpeta.
  destruct (bucle_forma_cerrada abrir carpeta_data
              (sorted (listdir carpeta_data)) estado_inicial
              [Makedirs carpeta_output]) as (-> & _).
  cbn [estado_inicial resumen_remisiones app].
  assert (exists fila, fila_de_archivo abrir carpeta_data n = Some fila)
    as [fila Hf].
  { unfold fila_de_archivo, items_de_archivo. unfold sin_items in Hs.
    destruct (es_pdf n); [|discriminate]. cbn [negb orb] in Hs.
    destruct (fst (extraer_items_desde_pdf abrir (path_join carpeta_data n)));
      [discriminate|eauto]. }
  assert (fila ∈ omap (fila_de_archivo abrir carpeta_data)
                   (sorted (listdir carpeta_data))) as Hin.
  { apply list_elem_of_omap. exists n. split; [|exact Hf].
    unfold sorted. rewrite merge_sort_Permutation.
    apply list_elem_of_In, Hn. }
  intros E. rewrite E in Hin. apply elem_of_nil in Hin. exact Hin.
Qed.


(** The documents at which the loop raises are those whose summary row
    has a total that cannot be printed. *)
Lemma falla_por_filas nombres :
  existsb (falla_al_imprimir abrir carpeta_data) nombres
  = existsb (fun f => excede_digitos (r_Total_Ventas_COP f)
                      || excede_digitos (r_Total_Ganancias_COP f))
      (omap (fila_de_archivo abrir carpeta_data) nombres).
Proof.
  induction nombres as [|n resto IH]; [reflexivity|].
  rewrite (omap_cons_app _ n resto), existsb_app. cbn [existsb].
  rewrite IH. unfold falla_al_imprimir. cbn [omap list_omap].
  destruct (fila_de_archivo abrir carpeta_data n); cbn [existsb app];
    rewrite ?orb_false_r; reflexivity.
Qed.

(** No document raises when the totals of all the rows can be printed. *)
Lemma nadie_falla_en_rango (cabe : Z -> bool) :
  (forall v, cabe v = true -> excede_digitos v = false) ->
  forallb cabe (List.map r_Total_Ventas_COP (resumen_remisiones st)) = true ->
  forallb cabe (List.map r_Total_Ganancias_COP (resumen_remisiones st)) = true ->
  existsb (falla_al_imprimir abrir carpeta_data) (sorted (listdir carpeta_data))
  = false.
Proof.
  intros Hc Hv Hg. rewrite falla_por_filas.
  unfold st, estado_final in Hv, Hg.
  destruct (bucle_forma_cerrada abrir carpeta_data
              (sorted (listdir carpeta_data)) estado_inicial
              [Makedirs carpeta_output]) as (A & _).
  rewrite A in Hv, Hg. cbn [estado_inicial resumen_remisiones app] in Hv, Hg.
  revert Hv Hg.
  generalize (omap (fila_de_archivo abrir carpeta_data)
                (sorted (listdir carpeta_data))).
  intros filas. induction filas as [|f filas IH]; intros Hv Hg;
    [reflexivity|].
  cbn [List.map forallb] in Hv, Hg.
  apply andb_true_iff in Hv as [Hv1 Hv2]. apply andb_true_iff in Hg as [Hg1 Hg2].
  cbn [existsb]. rewrite (Hc _ Hv1), (Hc _ Hg1), (IH Hv2 Hg2). reflexivity.
Qed.

(** A run that no document ends: the loop is the iteration of the body
    over all the listed files, and the report is closed after it. *)
Lemma corrida_completa nombre_archivo_excel :
  existsb (falla_al_imprimir abrir carpeta_data) (sorted (listdir carpeta_data))
  = false ->
  procesar_remisiones listdir abrir carpeta_data carpeta_output
    nombre_archivo_excel
  = snd (fold_left (procesa_archivo abrir carpeta_data)
           (sorted (listdir carpeta_data))
           (estado_inicial, [Makedirs carpeta_output]))
    ++ cierra_reporte carpeta_output nombre_archivo_excel st
  /\ interrumpida
       (snd (fold_left (procesa_archivo abrir carpeta_data)
               (sorted (listdir carpeta_data))
               (estado_inicial, [Makedirs carpeta_output]))) = false.
Proof.
  intros F. unfold procesar_remisiones, recorre_carpeta, st, estado_final.
  destruct (recorre_sin_falla abrir carpeta_data (sorted (listdir carpeta_data))
              estado_inicial [Makedirs carpeta_output] F eq_refl) as [R I].
  rewrite R.
  destruct (fold_left (procesa_archivo abrir carpeta_data)
              (sorted (listdir carpeta_data))
              (estado_inicial, [Makedirs carpeta_output])) as [s ef].
  cbn [fst snd] in *. rewrite I. auto.
Qed.

End CorridaConItems.

Lemma limite_sobre_int64 : (2 ^ 63 < 10 ^ Z.of_nat INT_MAX_STR_DIGITS)%Z.
Proof. calcula. Qed.


Lemma exacto_no_excede v : exacto v = true -> excede_digitos v = false.
Proof.
  unfold exacto, excede_digitos. intros H. apply Z.leb_le in H.
  pose proof limite_sobre_int64 as L. apply Z.leb_gt.
  remember (10 ^ Z.of_nat INT_MAX_STR_DIGITS)%Z as limite. lia.
Qed.

(** X13.  When some listed document yields an item and every number of
    the tables (the totals of the rows, the sums of their two columns and
    the numbers of the detail rows) is at most 2^53 in absolute value, so
    that it is the same in a column of integers and in a column of floats,
    the run creates the output folder first, goes through all the
    documents without an exception, writes the workbook exactly once,
    after them, at the path of the output folder joined with the file
    name, with the sheets Resumen (the rows and the TOTAL row),
    Detalle_Items and, only when there are unknown products, Pendientes,
    and then prints the path and, in that case, the unknown products. *)
Theorem libro_escrito_una_vez (listdir : texto -> list texto)
    (abrir : texto -> documento)
    (carpeta_data carpeta_output nombre_archivo_excel : texto)
    (H : existsb (fun n => negb (sin_items abrir carpeta_data n))
           (listdir carpeta_data) = true)
    (Hexacto :
       forallb exacto
         (numeros_del_libro
            (estado_final listdir abrir carpeta_data carpeta_output)) = true) :
  let st := estado_final listdir abrir carpeta_data carpeta_output in
  let ruta_excel := path_join carpeta_output nombre_archivo_excel in
  let pendientes := sorted (elements (productos_desconocidos st)) in
  exists antes,
    procesar_remisiones listdir abrir carpeta_data carpeta_output
      nombre_archivo_excel
    = (Makedirs carpeta_output :: antes)
      ++ [ EscribeExcel ruta_excel
             ([ (t "Resumen",
                 HojaResumen (resumen_remisiones st
                              ++ [fila_total (resumen_remisiones st)]));
                (t "Detalle_Items", HojaDetalle (detalle_items st)) ]
              ++ (if decide (productos_desconocidos st = ∅) then []
                  else [ (t "Pendientes", HojaPendientes pendientes) ]));
           ImprimeGenerado ruta_excel ]
      ++ (if decide (productos_desconocidos st = ∅) then []
          else [ ImprimePendientes pendientes ])
    /\ existsb es_escritura antes = false
    /\ interrumpida antes = false.
Proof.
  cbv zeta. pose proof (resumen_no_vacio listdir abrir carpeta_data
                          carpeta_output H) as Hne.
  assert (existsb (falla_al_imprimir abrir carpeta_data)
            (sorted (listdir carpeta_data)) = false) as F.
  { unfold numeros_del_libro in Hexacto. cbn [forallb] in Hexacto.
    apply andb_true_iff in Hexacto as [_ Hexacto].
    apply andb_true_iff in Hexacto as [_ Hexacto].
    rewrite !forallb_app in Hexacto.
    apply andb_true_iff in Hexacto as [Hv Hexacto].
    apply andb_true_iff in Hexacto as [Hg _].
    exact (nadie_falla_en_rango listdir abrir carpeta_data carpeta_output
             exacto exacto_no_excede Hv Hg). }
  destruct (corrida_completa listdir abrir carpeta_data carpeta_output
              nombre_archivo_excel F) as [-> I].
  pose proof (bucle_no_escribe abrir carpeta_data
                (sorted (listdir carpeta_data)) estado_inicial
                [Makedirs carpeta_output] eq_refl) as N.
  destruct (bucle_prefijo abrir carpeta_data (sorted (listdir carpeta_data))
              estado_inicial [Makedirs carpeta_output]) as [mas Hm].
  rewrite Hm in N, I |- *. exists mas. split; [|split; [exact N|exact I]].
  unfold cierra_reporte.
  destruct (resumen_remisiones
              (estado_final listdir abrir carpeta_data carpeta_output));
    [congruence|reflexivity].
Qed.


(** X15.  The run does not depend on the order in which the folder is
    listed. *)
Theorem orden_del_listado (listdir1 listdir2 : texto -> list texto)
    (abrir : texto -> documento)
    (carpeta_data carpeta_output nombre_archivo_excel : texto)
    (H : listdir1 carpeta_data ≡ₚ listdir2 carpeta_data) :
  procesar_remisiones listdir1 abrir carpeta_data carpeta_output
    nombre_archivo_excel
  = procesar_remisiones listdir2 abrir carpeta_data carpeta_output
      nombre_archivo_excel.
Proof.
  unfold procesar_remisiones, recorre_carpeta.
  rewrite (sorted_permutacion _ _ H). reflexivity.
Qed.

Lemma bucle_solo_pdf abrir carpeta_data nombres : forall se,
  interrumpida (snd se) = false ->
  recorre_archivos abrir carpeta_data (List.filter es_pdf nombres) se
  = recorre_archivos abrir carpeta_data nombres se.
Proof.
  induction nombres as [|n resto IH]; intros se H; [reflexivity|].
  cbn [List.filter recorre_archivos]. destruct (es_pdf n) eqn:E.
  - cbn [recorre_archivos]. cbv zeta.
    destruct (interrumpida (snd (procesa_archivo abrir carpeta_data se n)))
      eqn:I; [reflexivity|]. apply IH, I.
  - assert (procesa_archivo abrir carpeta_data se n = se) as ->.
    { unfold procesa_archivo. destruct se as [s ef]. rewrite E. reflexivity. }
    cbv zeta. rewrite H. apply IH, H.
Qed.

(** X16.  The files whose name does not end in .pdf, in any case of the
    letters, have no influence on the run. *)
Theorem solo_cuentan_los_pdf (listdir : texto -> list texto)
    (abrir : texto -> documento)
    (carpeta_data carpeta_output nombre_archivo_excel : texto) :
  procesar_remisiones (fun carpeta => List.filter es_pdf (listdir carpeta))
    abrir carpeta_data carpeta_output nombre_archivo_excel
  = procesar_remisiones listdir abrir carpeta_data carpeta_output
      nombre_archivo_excel.
Proof.
  unfold procesar_remisiones, recorre_carpeta.
  rewrite sorted_filter, bucle_solo_pdf; reflexivity.
Qed.

(** ** Document names and the cost table *)

Lemma rfind_opt_app c a : forall b,
  rfind_opt c (a ++ b)
  = match rfind_opt c b with
    | Some i => Some (length a + i)%nat
    | None => rfind_opt c a
    end.
Proof.
  induction a as [|x a IH]; intros b; simpl.
  - destruct (rfind_opt c b); reflexivity.
  - rewrite IH. destruct (rfind_opt c b); reflexivity.
Qed.

Lemma rfind_opt_ausente c s : ~ In c s -> rfind_opt c s = None.
Proof.
  induction s as [|x s IH]; intros H; [reflexivity|]. simpl.
  rewrite IH by (intros Hc; apply H; right; exact Hc).
  destruct (N.eqb_spec x c) as [->|]; [|reflexivity].
  exfalso. apply H. left. reflexivity.
Qed.

Lemma es_pdf_forma nombre :
  es_pdf nombre = true ->
  exists base p d f,
    nombre = base ++ [46; p; d; f]
    /\ (p = 112 \/ p = 80) /\ (d = 100 \/ d = 68) /\ (f = 102 \/ f = 70).
Proof.
  unfold es_pdf. intros H.
  destruct (rev nombre) as [|f [|d [|p [|pt r]]]] eqn:E; try discriminate.
  apply (f_equal (@rev N)) in E. rewrite rev_involutive in E. simpl in E.
  rewrite <- !app_assoc in E. simpl in E.
  repeat (apply andb_true_iff in H as [H ?]).
  apply N.eqb_eq in H. subst pt.
  repeat match goal with
         | Hx : (_ || _) = true |- _ =>
             apply orb_true_iff in Hx; rewrite !N.eqb_eq in Hx
         end.
  exists (rev r), p, d, f. auto.
Qed.

(** X17.  The identifier of a document is its file name without the four
    characters of the extension, unless only dots come before the
    extension: then it is the whole file name. *)
Theorem remision_de_pdf (nombre_archivo : texto)
    (Hpdf : es_pdf nombre_archivo = true)
    (Hsep : contiene 47 nombre_archivo = false) :
  let base := take (length nombre_archivo - 4) nombre_archivo in
  length nombre_archivo = (length base + 4)%nat
  /\ splitext_raiz nombre_archivo
     = if existsb (fun c => negb (c =? 46)) base then base else nombre_archivo.
Proof.
  assert (~ In 47 nombre_archivo) as Hno
    by (intros Hc; apply contiene_spec in Hc; congruence).
  clear Hsep.
  destruct (es_pdf_forma _ Hpdf) as (b & p & d & f & -> & Hp & Hd & Hf).
  cbv zeta. rewrite length_app. cbn [length].
  replace (length b + 4 - 4)%nat with (length b) by lia.
  rewrite take_app_length. split; [reflexivity|].
  unfold splitext_raiz, rfind.
  rewrite (rfind_opt_ausente 47 _ Hno), rfind_opt_app.
  assert (rfind_opt 46 [46; p; d; f] = Some 0%nat) as ->
    by (destruct Hp as [-> | ->], Hd as [-> | ->], Hf as [-> | ->];
        reflexivity).
  rewrite Nat.add_0_r.
  replace (-1 <? Z.of_nat (length b))%Z with true
    by (symmetry; apply Z.ltb_lt; lia).
  cbv zeta.
  replace (Z.to_nat (-1 + 1)) with 0%nat by reflexivity.
  replace (Z.to_nat (Z.of_nat (length b) - (-1 + 1))) with (length b) by lia.
  rewrite Nat2Z.id. rewrite drop_0, !take_app_length. reflexivity.
Qed.

Lemma costos_en_forma_normal :
  forallb (fun kv => bool_decide (normalizar_texto_producto (fst kv) = fst kv)
                     && (0 <=? snd kv)%Z)
    (map_to_list COSTOS) = true.
Proof. vm_compute. reflexivity. Qed.

(** X18.  Every key of the cost table is its own normal form, so every
    entry can be found by the lookup of a normalized name, and no cost is
    negative. *)
Theorem costos_alcanzables (producto : texto) (costo : Z)
    (H : COSTOS !! producto = Some costo) :
  normalizar_texto_producto producto = producto /\ (0 <= costo)%Z.
Proof.
  apply elem_of_map_to_list, list_elem_of_In in H.
  pose proof costos_en_forma_normal as F. rewrite forallb_forall in F.
  specialize (F _ H). cbn [fst snd] in F. apply andb_true_iff in F as [F1 F2].
  apply bool_decide_eq_true in F1. apply Z.leb_le in F2.
  split; [exact F1|exact F2].
Qed.

(** ** Products and keywords; the console *)

Lemma lstrip_blancos b s :
  List.Forall (fun x => es_espacio x = true) b -> lstrip (b ++ s) = lstrip s.
Proof.
  induction 1 as [|x b Hx Hb IH]; [reflexivity|]. simpl. rewrite Hx. exact IH.
Qed.

Lemma lstrip_app x y : lstrip x <> [] -> lstrip (x ++ y) = lstrip x ++ y.
Proof.
  induction x as [|c x IH]; [intros H; exfalso; apply H; reflexivity|].
  simpl. destruct (es_espacio c); [exact IH|reflexivity].
Qed.

Lemma rstrip_app x : forall y, exists z, rstrip (x ++ y) = rstrip x ++ z.
Proof.
  induction x as [|c x IH]; intros y; [exists (rstrip y); reflexivity|].
  destruct (IH y) as [z Hz]. cbn [app rstrip]. rewrite Hz.
  destruct (rstrip x) as [|a r] eqn:E.
  - cbn [app]. destruct (es_espacio c).
    + exists (match z with [] => [] | _ => c :: z end).
      destruct z; reflexivity.
    + exists z. destruct z; reflexivity.
  - exists z. reflexivity.
Qed.

(** The stripped product of a matched line starts the stripped line. *)
Lemma producto_al_inicio linea prod p_unit cant total :
  forma_de_item linea prod p_unit cant total ->
  exists z, upper (strip linea) = upper (strip prod) ++ z.
Proof.
  intros (b0 & b1 & d1 & b2 & b3 & fi & b4 & d2 & b5 & fin_ & -> & Hb0 & _).
  unfold strip. rewrite (lstrip_blancos b0 _ Hb0).
  destruct (lstrip prod) as [|c r] eqn:E.
  - exists (upper (rstrip (lstrip (prod ++ b1 ++ d1 ++ p_unit ++ b2 ++ cant
                                     ++ b3 ++ fi ++ b4 ++ d2 ++ total ++ b5
                                     ++ fin_)))).
    reflexivity.
  - rewrite lstrip_app by (rewrite E; discriminate). rewrite E.
    destruct (rstrip_app (c :: r) (b1 ++ d1 ++ p_unit ++ b2 ++ cant ++ b3
                                     ++ fi ++ b4 ++ d2 ++ total ++ b5 ++ fin_))
      as [z ->].
    exists (upper z). unfold upper. apply flat_map_app.
Qed.

(** X8.  No item is ever extracted for a product whose upper-cased name
    starts with one of the header or footer keywords: its line is taken
    for a header and skipped. *)
Theorem producto_sin_palabra_clave (abrir : texto -> documento)
    (ruta : texto) (it : item)
    (H : In it (fst (extraer_items_desde_pdf abrir ruta))) :
  forall prefijo,
    In prefijo LINEA_NO_ITEM_PREFIXES ->
    startswith (upper (Producto it)) prefijo = false.
Proof.
  intros prefijo Hp.
  destruct (item_extraido_valido _ _ _ H) as (_ & _ & _ & _ & linea & _ & He & Ha).
  destruct (paso_agrega _ _ Ha) as (_ & prod & pu & ca & to & Hg & -> & _).
  destruct (producto_al_inicio _ _ _ _ _ (capturas_con_forma _ _ _ _ _ Hg))
    as [z Hz].
  destruct (startswith (upper (strip prod)) prefijo) eqn:E; [|reflexivity].
  apply startswith_spec in E as [r Er].
  apply es_linea_item_spec in He as (_ & Hno & _). exfalso. apply Hno.
  exists prefijo, (r ++ z). split; [exact Hp|].
  rewrite Hz, Er, <- app_assoc. reflexivity.
Qed.






(** ** Instances of the further properties *)

Lemma capturas_de_linea_witness :
  grupos (t "PRIV BAR $18.000 2 0% $36.000")
  = Some (t "PRIV BAR", t "18.000", t "2", t "36.000")
  /\ forma_de_item (t "PRIV BAR $18.000 2 0% $36.000")
       (t "PRIV BAR") (t "18.000") (t "2") (t "36.000").
Proof.
  assert (grupos (t "PRIV BAR $18.000 2 0% $36.000")
          = Some (t "PRIV BAR", t "18.000", t "2", t "36.000")) as H
    by calcula.
  split; [exact H|]. exact (capturas_de_linea _ _ _ _ _ H).
Defined.

Lemma descarte_numerico_witness :
  paso_linea linea_sin_precio = SaltaNumerico
  /\ es_linea_item linea_sin_precio = true
  /\ exists prod p_unit cant total,
       grupos linea_sin_precio = Some (prod, p_unit, cant, total)
       /\ (List.Forall (fun c => c = 46 \/ c = 44) p_unit
           \/ List.Forall (fun c => c = 46 \/ c = 44) total
           \/ (INT_MAX_STR_DIGITS < length (solo_digitos p_unit))%nat
           \/ (INT_MAX_STR_DIGITS < length cant)%nat
           \/ (INT_MAX_STR_DIGITS < length (solo_digitos total))%nat).
Proof.
  assert (paso_linea linea_sin_precio = SaltaNumerico) as H by calcula.
  split; [exact H|]. exact (proj1 (descarte_numerico linea_sin_precio) H).
Defined.

Lemma extraer_sin_falla_witness :
  abrir_grande (t "data/a.pdf")
  = Abierto (List.map Texto
               [Some (t "PRIV BAR $18.000 1 0% $4611686018427387904")])
  /\ snd (extraer_items_desde_pdf abrir_grande (t "data/a.pdf")) = [].
Proof.
  assert (abrir_grande (t "data/a.pdf")
          = Abierto (List.map Texto
                       [Some (t "PRIV BAR $18.000 1 0% $4611686018427387904")]))
    as H by reflexivity.
  split; [exact H|].
  rewrite (proj1 (extraer_sin_falla abrir_grande (t "data/a.pdf") _ H)).
  reflexivity.
Defined.

Lemma items_extraidos_validos_witness :
  In item_grande (fst (extraer_items_desde_pdf abrir_grande (t "data/a.pdf")))
  /\ (0 <= Total_Venta_Item item_grande)%Z.
Proof.
  assert (In item_grande
            (fst (extraer_items_desde_pdf abrir_grande (t "data/a.pdf"))))
    as H by (vm_compute; left; reflexivity).
  split; [exact H|].
  exact (proj1 (proj2 (proj2 (items_extraidos_validos abrir_grande
                                (t "data/a.pdf") item_grande H)))).
Defined.

Lemma pagina_sin_marcador_witness :
  contiene 36 (t "REMISION 12") = false
  /\ flat_map items_de_linea (lineas_de_pagina (Some (t "REMISION 12"))) = [].
Proof.
  assert (contiene 36 (t "REMISION 12") = false) as H by calcula.
  split; [exact H|]. exact (pagina_sin_marcador (t "REMISION 12") H).
Defined.

Lemma producto_sin_palabra_clave_witness :
  In item_grande (fst (extraer_items_desde_pdf abrir_grande (t "data/a.pdf")))
  /\ forall prefijo,
       In prefijo LINEA_NO_ITEM_PREFIXES ->
       startswith (upper (Producto item_grande)) prefijo = false.
Proof.
  assert (In item_grande
            (fst (extraer_items_desde_pdf abrir_grande (t "data/a.pdf"))))
    as H by (vm_compute; left; reflexivity).
  split; [exact H|].
  exact (producto_sin_palabra_clave abrir_grande (t "data/a.pdf")
           item_grande H).
Defined.

Lemma filas_de_detalle_coherentes_witness :
  In (fila_de_item (t "a") item_grande)
    (detalle_items
       (estado_final listdir_grande abrir_grande (t "data") (t "output")))
  /\ d_Costo_Unitario (fila_de_item (t "a") item_grande)
     = COSTOS !! normalizar_texto_producto
                   (d_Producto (fila_de_item (t "a") item_grande)).
Proof.
  assert (In (fila_de_item (t "a") item_grande)
            (detalle_items
               (estado_final listdir_grande abrir_grande (t "data")
                  (t "output"))))
    as H by (vm_compute; left; reflexivity).
  split; [exact H|].
  exact (proj1 (filas_de_detalle_coherentes listdir_grande abrir_grande
                  (t "data") (t "output") _ H)).
Defined.

Lemma libro_escrito_una_vez_witness :
  existsb (fun n => negb (sin_items abrir_ej (t "data") n))
    (listdir_ej (t "data")) = true
  /\ forallb exacto
       (numeros_del_libro
          (estado_final listdir_ej abrir_ej (t "data") (t "output"))) = true
  /\ exists antes hojas aviso,
       efectos_ej
       = (Makedirs (t "output") :: antes)
         ++ [ EscribeExcel (t "output/resumen_remisiones.xlsx") hojas;
              ImprimeGenerado (t "output/resumen_remisiones.xlsx") ]
         ++ aviso
       /\ existsb es_escritura antes = false
       /\ interrumpida antes = false.
Proof.
  assert (existsb (fun n => negb (sin_items abrir_ej (t "data") n))
            (listdir_ej (t "data")) = true) as H by calcula.
  assert (forallb exacto
            (numeros_del_libro
               (estado_final listdir_ej abrir_ej (t "data") (t "output")))
          = true) as Hx by calcula.
  split; [exact H|]. split; [exact Hx|].
  destruct (libro_escrito_una_vez listdir_ej abrir_ej (t "data") (t "output")
              (t "resumen_remisiones.xlsx") H Hx) as (antes & E & N & I).
  exists antes. eexists. eexists. split; [exact E|]. split; [exact N|exact I].
Defined.


Lemma orden_del_listado_witness :
  listdir_grande (t "data") ≡ₚ listdir_grande_al_reves (t "data")
  /\ procesar_remisiones listdir_grande abrir_grande (t "data") (t "output")
       (t "resumen_remisiones.xlsx")
     = procesar_remisiones listdir_grande_al_reves abrir_grande (t "data")
         (t "output") (t "resumen_remisiones.xlsx").
Proof.
  assert (listdir_grande (t "data") ≡ₚ listdir_grande_al_reves (t "data"))
    as H by apply perm_swap.
  split; [exact H|].
  exact (orden_del_listado listdir_grande listdir_grande_al_reves abrir_grande
           (t "data") (t "output") (t "resumen_remisiones.xlsx") H).
Defined.

Lemma remision_de_pdf_witness :
  es_pdf (t "..pdf") = true
  /\ contiene 47 (t "..pdf") = false
  /\ splitext_raiz (t "..pdf") = t "..pdf".
Proof.
  assert (es_pdf (t "..pdf") = true) as H1 by calcula.
  assert (contiene 47 (t "..pdf") = false) as H2 by calcula.
  split; [exact H1|]. split; [exact H2|].
  rewrite (proj2 (remision_de_pdf (t "..pdf") H1 H2)). calcula.
Defined.

Lemma costos_alcanzables_witness :
  COSTOS !! t "PRIV BAR" = Some 13500%Z
  /\ normalizar_texto_producto (t "PRIV BAR") = t "PRIV BAR".
Proof.
  assert (COSTOS !! t "PRIV BAR" = Some 13500%Z) as H by calcula.
  split; [exact H|].
  exact (proj1 (costos_alcanzables (t "PRIV BAR") 13500%Z H)).
Defined.
